(** * sepa.js: a shallow embedding of [lib/sepa.js] and its properties

    The development follows the layout of the JavaScript module.

    Definitions:
    - [JS]: the fragment of the JavaScript runtime the module relies on
      (strings made of code units, numbers, [substr], [slice], [indexOf],
      [parseInt], [toFixed], values, exceptions, dates, the host);
    - [Checksum]: [_replaceChars], [_txtMod97], [validateIBAN],
      [checksumIBAN], [validateCreditorID], [checksumCreditorID];
    - [DOM]: the element trees the serializer builds, and the nodes of a
      tree under construction;
    - the constants of the module, [SEPATypes], [getPainXMLVersion],
      [createXMLHelper];
    - [SepaTransaction], [SepaPaymentInfo], [SepaGroupHeader],
      [SepaDocument] with their constructors, [normalize], [add...] and
      [toXML] methods;
    - the vocabulary of the properties and the example objects.

    Theorems:
    - [JSFacts], [ChecksumFacts], [EntityFacts], [SerializationFacts],
      [FamilyFacts]: what the properties rest on;
    - the properties themselves, C1 to C10;
    - further properties of the same code, X1 to X29, each after the
      facts it rests on ([MoreChecksumFacts], [MoreFamilyFacts],
      [MoreEntityFacts], [DOMFacts], [MoreSerializationFacts]). *)

From Stdlib Require Import ZArith List Bool Lia Ascii String DecimalString.
From Stdlib Require Import PrimFloat SpecFloat.
From Stdlib Require FloatOps.
From Stdlib Require DecimalZ DecimalPos.
Import ListNotations.

Set Warnings "-register-all".

Open Scope string_scope.
Open Scope Z_scope.

(* ================================================================== *)
(** * The JavaScript runtime fragment *)
(* ================================================================== *)

Module JS.

(** A string is a sequence of code units; [String.string] gives the code
    units 0..255, which cover every character the module inspects
    (letters, digits, white space, signs). *)

Definition length (s : string) : Z := Z.of_nat (String.length s).

Definition charCode (c : ascii) : Z := Z.of_nat (nat_of_ascii c).

Fixpoint drop (n : nat) (s : string) : string :=
  match n, s with
  | O, _ => s
  | S _, EmptyString => EmptyString
  | S n', String _ s' => drop n' s'
  end.

Fixpoint take (n : nat) (s : string) : string :=
  match n, s with
  | O, _ => EmptyString
  | S _, EmptyString => EmptyString
  | S n', String c s' => String c (take n' s')
  end.

(** [s.substr(start, length)], ECMAScript B.2.3.1; [len = None] is a
    call without the second argument. *)
Definition substr (s : string) (start : Z) (len : option Z) : string :=
  let size := length s in
  let intStart :=
    if start <? 0 then Z.max (size + start) 0 else Z.min start size in
  let intLength :=
    match len with
    | None => size
    | Some l => Z.min (Z.max l 0) size
    end in
  let intEnd := Z.min (intStart + intLength) size in
  take (Z.to_nat (intEnd - intStart)) (drop (Z.to_nat intStart) s).

(** [s.slice(start, end)], ECMAScript 22.1.3.20. *)
Definition slice (s : string) (start stop : Z) : string :=
  let len := length s in
  let from := if start <? 0 then Z.max (len + start) 0 else Z.min start len in
  let to := if stop <? 0 then Z.max (len + stop) 0 else Z.min stop len in
  take (Z.to_nat (Z.max (to - from) 0)) (drop (Z.to_nat from) s).

(** [s.indexOf(search)]: the first position of [search] in [s], or -1. *)
Definition indexOf (s search : string) : Z :=
  match String.index 0 search s with
  | Some n => Z.of_nat n
  | None => -1
  end.

(** ** Numbers

    The checksum code only ever holds integers below 1000 and [NaN] in
    its number variables, and the counters of the entity model are array
    lengths: all of them are represented exactly by a double.  They are
    modelled as [option Z], [None] standing for [NaN].  Amounts and
    control sums are genuine doubles and use [PrimFloat.float]. *)

Definition number := option Z.

Definition NaN : number := None.

Definition num (z : Z) : number := Some z.

Definition lift2 (f : Z -> Z -> Z) (a b : number) : number :=
  match a, b with
  | Some x, Some y => Some (f x y)
  | _, _ => None
  end.

Definition add := lift2 Z.add.
Definition sub := lift2 Z.sub.
Definition mul := lift2 Z.mul.

(** [a % b]: the remainder has the sign of the dividend; a zero divisor
    gives [NaN]. *)
Definition rem (a b : number) : number :=
  match a, b with
  | Some x, Some y => if y =? 0 then None else Some (Z.rem x y)
  | _, _ => None
  end.

(** [a === b] on numbers: [NaN] is different from everything. *)
Definition strict_eq (a b : number) : bool :=
  match a, b with
  | Some x, Some y => x =? y
  | _, _ => false
  end.

(** [String(n)] for an integer-valued number or [NaN]. *)
Definition toString (n : number) : string :=
  match n with
  | None => "NaN"
  | Some z => NilZero.string_of_int (Z.to_int z)
  end.

Definition is_digit (c : ascii) : bool :=
  (48 <=? charCode c) && (charCode c <=? 57).

(** White space as [parseInt] strips it: TAB, LF, VT, FF, CR, SP, NBSP. *)
Definition is_space (c : ascii) : bool :=
  let cc := charCode c in
  ((9 <=? cc) && (cc <=? 13)) || (cc =? 32) || (cc =? 160).

Fixpoint skip_spaces (s : string) : string :=
  match s with
  | String c r => if is_space c then skip_spaces r else s
  | EmptyString => EmptyString
  end.

(** The digits [parseInt] consumes, folded into their value; [None] when
    the text does not start with a digit. *)
Fixpoint parse_digits (s : string) (acc : option Z) : option Z :=
  match s with
  | String c r =>
      if is_digit c
      then parse_digits r (Some (10 * match acc with Some a => a | None => 0 end
                                 + (charCode c - 48)))
      else acc
  | EmptyString => acc
  end.

(** [parseInt(s, 10)]. *)
Definition parseInt (s : string) : number :=
  match skip_spaces s with
  | String "-" r =>
      match parse_digits r None with Some v => Some (- v) | None => None end
  | String "+" r => parse_digits r None
  | r => parse_digits r None
  end.

(** ** Values

    What a property or an argument may hold, as far as the module tells
    the cases apart: [VObject] is any object or function (such as the
    members every object inherits from [Object.prototype]). *)

Inductive value :=
  | VUndefined
  | VNull
  | VBool (b : bool)
  | VNum (n : number)
  | VStr (s : string)
  | VObject.

(** [ToBoolean]. *)
Definition truthy (v : value) : bool :=
  match v with
  | VUndefined | VNull => false
  | VBool b => b
  | VNum None => false
  | VNum (Some z) => negb (z =? 0)
  | VStr s => negb (s =? "")%string
  | VObject => true
  end.

(** [v === 0]. *)
Definition is_zero (v : value) : bool :=
  match v with
  | VNum (Some 0) => true
  | _ => false
  end.

(** [b.toString()] on a boolean. *)
Definition bool_toString (b : bool) : string :=
  if b then "true" else "false".

(** ** Exceptions *)

Inductive exn :=
  | Error (message : string)
  | TypeError (message : string)
  | RangeError (message : string)
  | DOMException (name : string).

Inductive result (A : Type) :=
  | Ok (a : A)
  | Throw (e : exn).

Arguments Ok {A} a.
Arguments Throw {A} e.

Definition bind {A B} (r : result A) (k : A -> result B) : result B :=
  match r with
  | Ok a => k a
  | Throw e => Throw e
  end.

(** The results of [f] over an array, up to the first exception. *)
Fixpoint mapM {A B} (f : A -> result B) (l : list A) : result (list B) :=
  match l with
  | [] => Ok []
  | x :: l' =>
      bind (f x) (fun y => bind (mapM f l') (fun ys => Ok (y :: ys)))
  end.

(** The outcome of [x instanceof C], seen from the class [C]: an
    instance carrying its state, or any other value. *)
Inductive argument (A : Type) :=
  | Instance (a : A)
  | NotInstance (v : value).

Arguments Instance {A} a.
Arguments NotInstance {A} v.

(** ** Dates

    A [Date] is known through [toISOString] only, which throws on an
    invalid date; a property holding no date is [None]. *)

Inductive Date :=
  | DateOfISO (iso : string)
  | InvalidDate.

Definition toISOString (d : option Date) : result string :=
  match d with
  | Some (DateOfISO iso) => Ok iso
  | Some InvalidDate => Throw (RangeError "Invalid time value")
  | None => Throw (TypeError "Cannot read property 'toISOString' of null")
  end.

(** ** The host

    Two things are left to the environment the module runs in: which DOM
    it finds ([createDocument] looks for the browser's [document] and
    falls back on xmldom), and the shortest decimal rendering of a
    double, [Number::toString], which [toFixed] falls back on for values
    that are not finite or not below 10^21. *)

Inductive dom_implementation := BrowserDOM | XmlDom.

Class Host := {
  host_dom : dom_implementation;
  Number_toString : float -> string
}.

Fixpoint zeros (k : nat) : string :=
  match k with
  | O => ""
  | S k' => String "0" (zeros k')
  end.

(** Steps 11.b-11.c of [toFixed]: the digits of [n] with a decimal point
    before the last [f] of them. *)
Definition fixed_digits (n : Z) (f : nat) : string :=
  let m := NilZero.string_of_uint (N.to_uint (Z.to_N n)) in
  match f with
  | O => m
  | S _ =>
      let k := String.length m in
      let m := if (k <=? f)%nat then zeros (f + 1 - k) ++ m else m in
      let k := String.length m in
      take (k - f) m ++ "." ++ drop (k - f) m
  end.

(** [x.toFixed(f)], ECMAScript 21.1.3.3, for [f <= 100] (the module
    passes 2).  A finite double is [m * 2^e] exactly; the integer [n]
    closest to [x * 10^f], the larger one on a tie, is computed on
    integers. *)
Definition toFixed {host : Host} (x : float) (f : nat) : string :=
  match FloatOps.Prim2SF x with
  | S754_nan | S754_infinity _ => Number_toString x
  | S754_zero _ => fixed_digits 0 f
  | S754_finite s m e =>
      let sign := if s then "-" else "" in
      let large :=
        if 0 <=? e then 10 ^ 21 <=? Zpos m * 2 ^ e
        else 10 ^ 21 * 2 ^ (- e) <=? Zpos m in
      if large then sign ++ Number_toString (PrimFloat.abs x)
      else
        let n :=
          if 0 <=? e then Zpos m * 2 ^ e * 10 ^ Z.of_nat f
          else (2 * Zpos m * 10 ^ Z.of_nat f + 2 ^ (- e)) / 2 ^ (1 - e) in
        sign ++ fixed_digits n f
  end.

End JS.

Notation "x <- e ;; k" := (JS.bind e (fun x => k))
  (at level 61, e at next level, right associativity).

(* ================================================================== *)
(** * Checksums: IBAN and creditor identifier *)
(* ================================================================== *)

Module Checksum.

(** The loop of [_replaceChars]; [res] is the string built so far. *)
Fixpoint _replaceChars_loop (str res : string) : string :=
  match str with
  | EmptyString => res
  | String c rest =>
      let cc := JS.charCode c in
      _replaceChars_loop rest
        (if (65 <=? cc) && (cc <=? 90) then
           res ++ JS.toString (JS.num (cc - 55))
         else if (97 <=? cc) && (cc <=? 122) then
           res ++ JS.toString (JS.num (cc - 87))
         else if (48 <=? cc) && (cc <=? 57) then
           res ++ String c EmptyString
         else res)
  end.

Definition _replaceChars (str : string) : string :=
  _replaceChars_loop str "".

(** The loop of [_txtMod97]; [res] is the running remainder. *)
Fixpoint _txtMod97_loop (str : string) (res : JS.number) : JS.number :=
  match str with
  | EmptyString => res
  | String c rest =>
      _txtMod97_loop rest
        (JS.rem (JS.add (JS.mul res (JS.num 10))
                        (JS.parseInt (String c EmptyString)))
                (JS.num 97))
  end.

Definition _txtMod97 (str : string) : JS.number :=
  _txtMod97_loop str (JS.num 0).

Definition validateIBAN (iban : string) : bool :=
  let ibrev := JS.substr iban 4 None ++ JS.substr iban 0 (Some 4) in
  JS.strict_eq (_txtMod97 (_replaceChars ibrev)) (JS.num 1).

Definition checksumIBAN (iban : string) : string :=
  let ibrev := JS.substr iban 4 None ++ JS.substr iban 0 (Some 2) ++ "00" in
  let mod_ := _txtMod97 (_replaceChars ibrev) in
  JS.substr iban 0 (Some 2)
    ++ JS.substr ("0" ++ JS.toString (JS.sub (JS.num 98) mod_)) (-2) (Some 2)
    ++ JS.substr iban 4 None.

Definition validateCreditorID (cid : string) : bool :=
  let cidrev := JS.substr cid 7 None ++ JS.substr cid 0 (Some 4) in
  JS.strict_eq (_txtMod97 (_replaceChars cidrev)) (JS.num 1).

Definition checksumCreditorID (cid : string) : string :=
  let cidrev := JS.substr cid 7 None ++ JS.substr cid 0 (Some 2) ++ "00" in
  let mod_ := _txtMod97 (_replaceChars cidrev) in
  JS.substr cid 0 (Some 2)
    ++ JS.substr ("0" ++ JS.toString (JS.sub (JS.num 98) mod_)) (-2) (Some 2)
    ++ JS.substr cid 4 None.

(** The expression both checksum functions splice in:
    [('0' + (98 - mod)).substr(-2, 2)]. *)
Definition check_digits (mod_ : JS.number) : string :=
  JS.substr ("0" ++ JS.toString (JS.sub (JS.num 98) mod_)) (-2) (Some 2).

(** The number a string of decimal digits denotes, by positional
    notation: the digit at distance [k] from the end weighs [10^k]. *)
Fixpoint digits_value (s : string) : Z :=
  match s with
  | EmptyString => 0
  | String c r =>
      (JS.charCode c - 48) * 10 ^ Z.of_nat (String.length r) + digits_value r
  end.

Fixpoint all_digits (s : string) : bool :=
  match s with
  | EmptyString => true
  | String c r => JS.is_digit c && all_digits r
  end.

Definition is_letter (c : ascii) : bool :=
  let cc := JS.charCode c in
  ((65 <=? cc) && (cc <=? 90)) || ((97 <=? cc) && (cc <=? 122)).

Fixpoint all_alnum (s : string) : bool :=
  match s with
  | EmptyString => true
  | String c r => (is_letter c || JS.is_digit c) && all_alnum r
  end.

(** An IBAN skeleton: two letters of country code, two digits holding
    the place of the check value, an alphanumeric body. *)
Definition iban_skeleton (s : string) : bool :=
  match s with
  | String c1 (String c2 (String d1 (String d2 body))) =>
      is_letter c1 && is_letter c2 && JS.is_digit d1 && JS.is_digit d2
      && all_alnum body
  | _ => false
  end.

End Checksum.


(* ================================================================== *)
(** * The DOM the serializer writes to *)
(* ================================================================== *)

Module DOM.

Record attr := {
  attr_namespaceURI : option string;
  attr_name : string;
  attr_value : string
}.

(** An element: its qualified name, its namespace, its attributes, the
    value last assigned to [textContent] (if any) and its children in
    document order. *)
Inductive node :=
  | Element (tagName namespaceURI : string) (attributes : list attr)
            (textContent : option JS.value) (childNodes : list node).

Definition tagName (n : node) : string :=
  match n with Element t _ _ _ _ => t end.
Definition namespaceURI (n : node) : string :=
  match n with Element _ ns _ _ _ => ns end.
Definition attributes (n : node) : list attr :=
  match n with Element _ _ a _ _ => a end.
Definition textContent (n : node) : option JS.value :=
  match n with Element _ _ _ t _ => t end.
Definition childNodes (n : node) : list node :=
  match n with Element _ _ _ _ c => c end.

Record document := {
  implementation : JS.dom_implementation;
  documentElement : node
}.

(** [createDocument(nsURI, qname)] of the implementation the host
    offers. *)
Definition createDocument {host : JS.Host} (nsURI qname : string) : document :=
  {| implementation := JS.host_dom;
     documentElement := Element qname nsURI [] None [] |}.

(** The qualified name [createElementNS] works with.  Every string the
    module passes is a well-formed XML name.  An argument that is not a
    string is converted to one by a browser, which then rejects what is
    not a name; xmldom calls [qualifiedName.split] on it. *)
Definition qualified_name (impl : JS.dom_implementation)
    (qualifiedName : JS.value) : JS.result string :=
  match qualifiedName with
  | JS.VStr s => JS.Ok s
  | _ =>
      match impl with
      | JS.XmlDom =>
          JS.Throw (JS.TypeError "qualifiedName.split is not a function")
      | JS.BrowserDOM =>
          match qualifiedName with
          | JS.VUndefined => JS.Ok "undefined"
          | JS.VNull => JS.Ok "null"
          | JS.VBool b => JS.Ok (JS.bool_toString b)
          | JS.VNum None => JS.Ok "NaN"
          | _ => JS.Throw (JS.DOMException "InvalidCharacterError")
          end
      end
  end.

(** [doc.createElementNS(namespaceURI, qualifiedName)]. *)
Definition createElementNS (doc : document) (ns : string)
    (qualifiedName : JS.value) : JS.result node :=
  JS.bind (qualified_name (implementation doc) qualifiedName)
    (fun name => JS.Ok (Element name ns [] None [])).

(** ** Nodes of a tree under construction

    While a [toXML] method runs, the element it will return is the state
    and the nodes it holds in variables are denoted by their position in
    that element: the list of child indices leading to them.  Children
    are only ever appended, so a position keeps denoting the same node.
    A variable holding [null] is [None]. *)

Definition path := list nat.
Definition handle := option path.

Fixpoint lookup (p : path) (n : node) : option node :=
  match p with
  | [] => Some n
  | i :: p' =>
      match nth_error (childNodes n) i with
      | Some c => lookup p' c
      | None => None
      end
  end.

Fixpoint map_nth {A} (i : nat) (f : A -> A) (l : list A) : list A :=
  match l, i with
  | [], _ => []
  | x :: l', O => f x :: l'
  | x :: l', S i' => x :: map_nth i' f l'
  end.

Definition set_childNodes (n : node) (c : list node) : node :=
  match n with Element t ns a tx _ => Element t ns a tx c end.

Fixpoint modify (p : path) (f : node -> node) (n : node) : node :=
  match p with
  | [] => f n
  | i :: p' => set_childNodes n (map_nth i (modify p' f) (childNodes n))
  end.

Definition child_count (p : path) (n : node) : nat :=
  match lookup p n with
  | Some m => List.length (childNodes m)
  | None => O
  end.

Definition builder (A : Type) := node -> JS.result (A * node).

Definition ret {A} (a : A) : builder A := fun n => JS.Ok (a, n).

Definition bindB {A B} (b : builder A) (k : A -> builder B) : builder B :=
  fun n =>
    match b n with
    | JS.Ok (a, n') => k a n'
    | JS.Throw e => JS.Throw e
    end.

(** An expression that may throw, evaluated while building. *)
Definition lift {A} (r : JS.result A) : builder A :=
  fun n =>
    match r with
    | JS.Ok a => JS.Ok (a, n)
    | JS.Throw e => JS.Throw e
    end.

(** Runs [body] on the element [root], handing it the variable that
    holds [root], and returns the element as [body] leaves it. *)
Definition build (root : node) (body : handle -> builder unit)
    : JS.result node :=
  match body (Some []) root with
  | JS.Ok (_, n) => JS.Ok n
  | JS.Throw e => JS.Throw e
  end.

(** [parent.appendChild(child)]: returns the appended node. *)
Definition appendChild (parent : handle) (child : node) : builder handle :=
  fun root =>
    match parent with
    | None => JS.Throw (JS.TypeError "Cannot read property 'appendChild' of null")
    | Some p =>
        JS.Ok (Some (p ++ [child_count p root])%list,
               modify p (fun n => set_childNodes n (childNodes n ++ [child])%list) root)
    end.

(** [node.textContent = val]: the children are replaced by the text. *)
Definition set_textContent (nd : handle) (val : JS.value) : builder unit :=
  fun root =>
    match nd with
    | None => JS.Throw (JS.TypeError "Cannot set property 'textContent' of null")
    | Some p =>
        JS.Ok (tt, modify p (fun n =>
                 match n with
                 | Element t ns a _ _ => Element t ns a (Some val) []
                 end) root)
    end.

(** [node.setAttribute(name, value)] on an element without that
    attribute, and [node.setAttributeNS(ns, name, value)] likewise. *)
Definition add_attribute (a : attr) (n : node) : node :=
  match n with Element t ns attrs tx c => Element t ns (attrs ++ [a])%list tx c end.

Definition setAttribute (nd : handle) (name val : string) : builder unit :=
  fun root =>
    match nd with
    | None => JS.Throw (JS.TypeError "Cannot read property 'setAttribute' of null")
    | Some p =>
        JS.Ok (tt, modify p (add_attribute
                 {| attr_namespaceURI := None;
                    attr_name := name; attr_value := val |}) root)
    end.

Definition setAttributeNS (ns name val : string) (n : node) : node :=
  add_attribute {| attr_namespaceURI := Some ns;
                   attr_name := name; attr_value := val |} n.

End DOM.

Notation "x <~ e ;; k" := (DOM.bindB e (fun x => k))
  (at level 61, e at next level, right associativity).
Notation "e ;;; k" := (DOM.bindB e (fun _ => k))
  (at level 61, right associativity).

(* ================================================================== *)
(** * The module's constants, variable and helpers *)
(* ================================================================== *)

Coercion JS.VStr : string >-> JS.value.

(** The arguments of a call, each read as a value. *)
Notation "[: x ; .. ; y :]" :=
  (@cons JS.value (x : JS.value) .. (@cons JS.value (y : JS.value) nil) ..).

Definition XSI_NAMESPACE : string := "http://www.w3.org/2001/XMLSchema-instance".
Definition XSI_NS : string := "urn:iso:std:iso:20022:tech:xsd:".

(** [ID_SEPARATOR] is the one variable of the module; the methods that
    read it take the module state as an argument. *)
Record module_state := { ID_SEPARATOR : string }.

Definition initial_state : module_state := {| ID_SEPARATOR := "." |}.

Definition setIDSeparator (seperator : string) (st : module_state)
    : module_state :=
  {| ID_SEPARATOR := seperator |}.

(** The own properties of the object [SEPATypes]. *)
Definition SEPATypes_own : list (string * string) :=
  [ ("pain.001.001.02", "pain.001.001.02");
    ("pain.001.003.02", "pain.001.003.02");
    ("pain.001.001.03", "CstmrCdtTrfInitn");
    ("pain.001.002.03", "CstmrCdtTrfInitn");
    ("pain.001.003.03", "CstmrCdtTrfInitn");
    ("pain.008.001.01", "pain.008.001.01");
    ("pain.008.003.01", "pain.008.003.01");
    ("pain.008.001.02", "CstmrDrctDbtInitn");
    ("pain.008.003.02", "CstmrDrctDbtInitn") ].

(** What a plain object inherits from [Object.prototype]. *)
Definition Object_prototype_keys : list string :=
  [ "constructor"; "toString"; "toLocaleString"; "valueOf";
    "hasOwnProperty"; "isPrototypeOf"; "propertyIsEnumerable"; "__proto__";
    "__defineGetter__"; "__defineSetter__";
    "__lookupGetter__"; "__lookupSetter__" ].

Fixpoint own_property (key : string) (o : list (string * string))
    : option string :=
  match o with
  | [] => None
  | (k, v) :: o' => if (k =? key)%string then Some v else own_property key o'
  end.

(** [SEPATypes[key]]. *)
Definition SEPATypes (key : string) : JS.value :=
  match own_property key SEPATypes_own with
  | Some v => JS.VStr v
  | None =>
      if existsb (String.eqb key) Object_prototype_keys
      then JS.VObject else JS.VUndefined
  end.

Definition getPainXMLVersion (painFormat : string) : JS.number :=
  let inc := if JS.indexOf painFormat "pain.008" =? 0 then 1 else 0 in
  JS.add (JS.parseInt (JS.substr painFormat (-2) None)) (JS.num inc).

(** A [for] loop over an array whose body works on the tree under
    construction. *)
Fixpoint forEach {A} (l : list A) (body : A -> DOM.builder unit)
    : DOM.builder unit :=
  match l with
  | [] => DOM.ret tt
  | x :: l' => body x ;;; forEach l' body
  end.

(** The loop of the function [createXMLHelper] returns: one element per
    name, each appended to the previous one. *)
Fixpoint createXMLHelper_loop (doc : DOM.document) (names : list JS.value)
    (node : DOM.handle) : DOM.builder DOM.handle :=
  match names with
  | [] => DOM.ret node
  | name :: rest =>
      el <~ DOM.lift (DOM.createElementNS doc
                        (DOM.namespaceURI (DOM.documentElement doc)) name) ;;
      node <~ DOM.appendChild node el ;;
      createXMLHelper_loop doc rest node
  end.

(** [createXMLHelper(doc, required, withVal)] applied to
    [(node, args...)]; with [withVal] the last of [args] is the value,
    and all that precede it are element names. *)
Definition createXMLHelper (doc : DOM.document) (required withVal : bool)
    (node : DOM.handle) (args : list JS.value) : DOM.builder DOM.handle :=
  let val := if withVal then last args JS.VObject else JS.VBool false in
  let maxarg := if withVal then removelast args else args in
  if required || JS.truthy val || JS.is_zero val then
    node <~ createXMLHelper_loop doc maxarg node ;;
    (if withVal then DOM.set_textContent node val else DOM.ret tt) ;;;
    DOM.ret node
  else DOM.ret None.

(* ================================================================== *)
(** * SepaTransaction *)
(* ================================================================== *)

Module SepaTransaction.

(** The object [TransactionTypes] is an enumeration: its keys with
    the strings they stand for. *)
Inductive TransactionTypes := DirectDebit | Transfer.

Definition TransactionTypes_value (k : TransactionTypes) : string :=
  match k with
  | DirectDebit => "DrctDbtTxInf"
  | Transfer => "CdtTrfTxInf"
  end.

Definition TransactionTypes_eqb (a b : TransactionTypes) : bool :=
  (TransactionTypes_value a =? TransactionTypes_value b)%string.

Record t := {
  _painFormat : string;
  _type : TransactionTypes;
  id : string;
  end2endId : string;
  currency : string;
  amount : float;
  purposeCode : JS.value;
  mandateId : string;
  mandateSignatureDate : option JS.Date;
  ammendment : JS.value;
  debtorName : JS.value;
  debtorStreet : JS.value;
  debtorCity : JS.value;
  debtorCountry : JS.value;
  debtorIBAN : JS.value;
  debtorBIC : JS.value;
  remittanceInfo : string;
  creditorName : JS.value;
  creditorStreet : JS.value;
  creditorCity : JS.value;
  creditorCountry : JS.value;
  creditorIBAN : JS.value;
  creditorBIC : JS.value
}.

(** [new SepaTransaction(painFormat)]: the two properties the
    constructor sets, over the defaults of the prototype. *)
Definition new (painFormat : string) : t :=
  {| _painFormat := painFormat;
     _type := if JS.indexOf painFormat "pain.001" =? 0
              then Transfer else DirectDebit;
     id := "";
     end2endId := "";
     currency := "EUR";
     amount := 0%float;
     purposeCode := JS.VNull;
     mandateId := "";
     mandateSignatureDate := None;
     ammendment := JS.VUndefined;
     debtorName := "";
     debtorStreet := JS.VNull;
     debtorCity := JS.VNull;
     debtorCountry := JS.VNull;
     debtorIBAN := "";
     debtorBIC := "";
     remittanceInfo := "";
     creditorName := "";
     creditorStreet := JS.VNull;
     creditorCity := JS.VNull;
     creditorCountry := JS.VNull;
     creditorIBAN := "";
     creditorBIC := "" |}.

Definition set_id (v : string) (this : t) : t :=
  {| _painFormat := _painFormat this;
     _type := _type this;
     id := v;
     end2endId := end2endId this;
     currency := currency this;
     amount := amount this;
     purposeCode := purposeCode this;
     mandateId := mandateId this;
     mandateSignatureDate := mandateSignatureDate this;
     ammendment := ammendment this;
     debtorName := debtorName this;
     debtorStreet := debtorStreet this;
     debtorCity := debtorCity this;
     debtorCountry := debtorCountry this;
     debtorIBAN := debtorIBAN this;
     debtorBIC := debtorBIC this;
     remittanceInfo := remittanceInfo this;
     creditorName := creditorName this;
     creditorStreet := creditorStreet this;
     creditorCity := creditorCity this;
     creditorCountry := creditorCountry this;
     creditorIBAN := creditorIBAN this;
     creditorBIC := creditorBIC this |}.

(** [this.amount = v]. *)
Definition set_amount (v : float) (this : t) : t :=
  {| _painFormat := _painFormat this;
     _type := _type this;
     id := id this;
     end2endId := end2endId this;
     currency := currency this;
     amount := v;
     purposeCode := purposeCode this;
     mandateId := mandateId this;
     mandateSignatureDate := mandateSignatureDate this;
     ammendment := ammendment this;
     debtorName := debtorName this;
     debtorStreet := debtorStreet this;
     debtorCity := debtorCity this;
     debtorCountry := debtorCountry this;
     debtorIBAN := debtorIBAN this;
     debtorBIC := debtorBIC this;
     remittanceInfo := remittanceInfo this;
     creditorName := creditorName this;
     creditorStreet := creditorStreet this;
     creditorCity := creditorCity this;
     creditorCountry := creditorCountry this;
     creditorIBAN := creditorIBAN this;
     creditorBIC := creditorBIC this |}.

(** [this.mandateSignatureDate = v]. *)
Definition set_mandateSignatureDate (v : option JS.Date) (this : t) : t :=
  {| _painFormat := _painFormat this;
     _type := _type this;
     id := id this;
     end2endId := end2endId this;
     currency := currency this;
     amount := amount this;
     purposeCode := purposeCode this;
     mandateId := mandateId this;
     mandateSignatureDate := v;
     ammendment := ammendment this;
     debtorName := debtorName this;
     debtorStreet := debtorStreet this;
     debtorCity := debtorCity this;
     debtorCountry := debtorCountry this;
     debtorIBAN := debtorIBAN this;
     debtorBIC := debtorBIC this;
     remittanceInfo := remittanceInfo this;
     creditorName := creditorName this;
     creditorStreet := creditorStreet this;
     creditorCity := creditorCity this;
     creditorCountry := creditorCountry this;
     creditorIBAN := creditorIBAN this;
     creditorBIC := creditorBIC this |}.

(** Assignments to [this.creditorStreet], [this.creditorCity] and
    [this.creditorCountry]. *)
Definition set_creditor_address (street city country : JS.value) (this : t) : t :=
  {| _painFormat := _painFormat this;
     _type := _type this;
     id := id this;
     end2endId := end2endId this;
     currency := currency this;
     amount := amount this;
     purposeCode := purposeCode this;
     mandateId := mandateId this;
     mandateSignatureDate := mandateSignatureDate this;
     ammendment := ammendment this;
     debtorName := debtorName this;
     debtorStreet := debtorStreet this;
     debtorCity := debtorCity this;
     debtorCountry := debtorCountry this;
     debtorIBAN := debtorIBAN this;
     debtorBIC := debtorBIC this;
     remittanceInfo := remittanceInfo this;
     creditorName := creditorName this;
     creditorStreet := street;
     creditorCity := city;
     creditorCountry := country;
     creditorIBAN := creditorIBAN this;
     creditorBIC := creditorBIC this |}.

(** [this[key]] for the properties the serializer reads by a computed
    name. *)
Definition get (this : t) (key : string) : JS.value :=
  if (key =? "debtorName")%string then debtorName this
  else if (key =? "debtorStreet")%string then debtorStreet this
  else if (key =? "debtorCity")%string then debtorCity this
  else if (key =? "debtorCountry")%string then debtorCountry this
  else if (key =? "debtorIBAN")%string then debtorIBAN this
  else if (key =? "debtorBIC")%string then debtorBIC this
  else if (key =? "creditorName")%string then creditorName this
  else if (key =? "creditorStreet")%string then creditorStreet this
  else if (key =? "creditorCity")%string then creditorCity this
  else if (key =? "creditorCountry")%string then creditorCountry this
  else if (key =? "creditorIBAN")%string then creditorIBAN this
  else if (key =? "creditorBIC")%string then creditorBIC this
  else JS.VUndefined.

Section Methods.
Context {host : JS.Host}.

Definition toXML (this : t) (doc : DOM.document) : JS.result DOM.node :=
  let pullFrom :=
    if TransactionTypes_eqb (_type this) Transfer
    then "creditor" else "debtor" in
  let receiverNodeName :=
    if TransactionTypes_eqb (_type this) Transfer
    then "Cdtr" else "Dbtr" in
  let painVersion := getPainXMLVersion (_painFormat this) in
  let n := createXMLHelper doc true false in
  let o := createXMLHelper doc false true in
  let r := createXMLHelper doc true true in
  el <- DOM.createElementNS doc (DOM.namespaceURI (DOM.documentElement doc))
          (TransactionTypes_value (_type this)) ;;
  DOM.build el (fun txInf =>
    paymentId <~ n txInf [: "PmtId" :] ;;
    r paymentId [: "InstrId"; id this :] ;;;
    r paymentId [: "EndToEndId"; end2endId this :] ;;;
    (if TransactionTypes_eqb (_type this) DirectDebit then
       instdAmt <~ r txInf [: "InstdAmt";
                            JS.toFixed (amount this) 2 :] ;;
       DOM.setAttribute instdAmt "Ccy" (currency this) ;;;
       mandate <~ n txInf [: "DrctDbtTx"; "MndtRltdInf" :] ;;
       r mandate [: "MndtId"; mandateId this :] ;;;
       iso <~ DOM.lift (JS.toISOString (mandateSignatureDate this)) ;;
       r mandate [: "DtOfSgntr";
                  JS.substr iso 0 (Some 10) :] ;;;
       (if JS.truthy (ammendment this) then
          r mandate [: "AmdmntInd"; "true" :] ;;;
          r mandate [: "AmdmnInfDtls"; ammendment this :] ;;;
          DOM.ret tt
        else
          r mandate [: "AmdmntInd"; "false" :] ;;;
          DOM.ret tt)
     else
       instdAmt <~ r txInf [: "Amt"; "InstdAmt";
                            JS.toFixed (amount this) 2 :] ;;
       DOM.setAttribute instdAmt "Ccy" (currency this)) ;;;
    (if JS.truthy (get this (pullFrom ++ "BIC")) then
       r txInf [: receiverNodeName ++ "Agt"; "FinInstnId";
                "BIC"; get this (pullFrom ++ "BIC") :]
     else
       r txInf [: receiverNodeName ++ "Agt"; "FinInstnId";
                "Othr"; "Id";
                "NOTPROVIDED" :]) ;;;
    receiver <~ n txInf [: receiverNodeName :] ;;
    r receiver [: "Nm"; get this (pullFrom ++ "Name") :] ;;;
    (if JS.truthy (get this (pullFrom ++ "Street"))
        && JS.truthy (get this (pullFrom ++ "City"))
        && JS.truthy (get this (pullFrom ++ "Country")) then
       pstl <~ n receiver [: "PstlAdr" :] ;;
       r pstl [: "Ctry"; debtorCountry this :] ;;;
       r pstl [: "AdrLine"; debtorStreet this :] ;;;
       r pstl [: "AdrLine"; debtorCity this :] ;;;
       DOM.ret tt
     else DOM.ret tt) ;;;
    r txInf [: receiverNodeName ++ "Acct"; "Id";
             "IBAN"; get this (pullFrom ++ "IBAN") :] ;;;
    r txInf [: "RmtInf"; "Ustrd";
             remittanceInfo this :] ;;;
    (if negb (JS.strict_eq painVersion (JS.num 3)) then
       o txInf [: "Purp"; "Cd"; purposeCode this :] ;;;
       DOM.ret tt
     else DOM.ret tt)).

End Methods.

End SepaTransaction.

(* ================================================================== *)
(** * SepaPaymentInfo *)
(* ================================================================== *)

Module SepaPaymentInfo.

(** The object [PaymentInfoTypes] is an enumeration: its keys with
    the strings they stand for. *)
Inductive PaymentInfoTypes := DirectDebit | Transfer.

Definition PaymentInfoTypes_value (k : PaymentInfoTypes) : string :=
  match k with
  | DirectDebit => "DD"
  | Transfer => "TRF"
  end.

Definition PaymentInfoTypes_eqb (a b : PaymentInfoTypes) : bool :=
  (PaymentInfoTypes_value a =? PaymentInfoTypes_value b)%string.

Record t := {
  _painFormat : string;
  _payments : list SepaTransaction.t;
  id : string;
  method : PaymentInfoTypes;
  batchBooking : bool;
  grouping : string;
  controlSum : float;
  localInstrumentation : JS.value;
  sequenceType : string;
  collectionDate : option JS.Date;
  requestedExecutionDate : option JS.Date;
  creditorId : string;
  creditorName : JS.value;
  creditorStreet : JS.value;
  creditorCity : JS.value;
  creditorCountry : JS.value;
  creditorIBAN : JS.value;
  creditorBIC : JS.value;
  debtorId : string;
  debtorName : JS.value;
  debtorStreet : JS.value;
  debtorCity : JS.value;
  debtorCountry : JS.value;
  debtorIBAN : JS.value;
  debtorBIC : JS.value;
  instructionPriority : string
}.

(** [new SepaPaymentInfo(painFormat)]. *)
Definition new (painFormat : string) : t :=
  {| _painFormat := painFormat;
     _payments := [];
     id := "";
     method := if JS.indexOf painFormat "pain.001" =? 0
               then Transfer else DirectDebit;
     batchBooking := false;
     grouping := "MIXD";
     controlSum := 0%float;
     localInstrumentation := JS.VNull;
     sequenceType := "FRST";
     collectionDate := None;
     requestedExecutionDate := None;
     creditorId := "";
     creditorName := "";
     creditorStreet := JS.VNull;
     creditorCity := JS.VNull;
     creditorCountry := JS.VNull;
     creditorIBAN := "";
     creditorBIC := "";
     debtorId := "";
     debtorName := "";
     debtorStreet := JS.VNull;
     debtorCity := JS.VNull;
     debtorCountry := JS.VNull;
     debtorIBAN := "";
     debtorBIC := "";
     instructionPriority := "NORM" |}.

(** Assignments to [this.id], [this.controlSum] and the effect of
    [this._payments.push]. *)
Definition update (id' : string) (controlSum' : float)
    (_payments' : list SepaTransaction.t) (this : t) : t :=
  {| _painFormat := _painFormat this;
     _payments := _payments';
     id := id';
     method := method this;
     batchBooking := batchBooking this;
     grouping := grouping this;
     controlSum := controlSum';
     localInstrumentation := localInstrumentation this;
     sequenceType := sequenceType this;
     collectionDate := collectionDate this;
     requestedExecutionDate := requestedExecutionDate this;
     creditorId := creditorId this;
     creditorName := creditorName this;
     creditorStreet := creditorStreet this;
     creditorCity := creditorCity this;
     creditorCountry := creditorCountry this;
     creditorIBAN := creditorIBAN this;
     creditorBIC := creditorBIC this;
     debtorId := debtorId this;
     debtorName := debtorName this;
     debtorStreet := debtorStreet this;
     debtorCity := debtorCity this;
     debtorCountry := debtorCountry this;
     debtorIBAN := debtorIBAN this;
     debtorBIC := debtorBIC this;
     instructionPriority := instructionPriority this |}.

Definition set_id (v : string) (this : t) : t :=
  update v (controlSum this) (_payments this) this.

Definition set_controlSum (v : float) (this : t) : t :=
  update (id this) v (_payments this) this.

Definition set_payments (v : list SepaTransaction.t) (this : t) : t :=
  update (id this) (controlSum this) v this.

(** Assignments to [this.collectionDate] and
    [this.requestedExecutionDate]. *)
Definition set_dates (collection execution : option JS.Date) (this : t) : t :=
  {| _painFormat := _painFormat this;
     _payments := _payments this;
     id := id this;
     method := method this;
     batchBooking := batchBooking this;
     grouping := grouping this;
     controlSum := controlSum this;
     localInstrumentation := localInstrumentation this;
     sequenceType := sequenceType this;
     collectionDate := collection;
     requestedExecutionDate := execution;
     creditorId := creditorId this;
     creditorName := creditorName this;
     creditorStreet := creditorStreet this;
     creditorCity := creditorCity this;
     creditorCountry := creditorCountry this;
     creditorIBAN := creditorIBAN this;
     creditorBIC := creditorBIC this;
     debtorId := debtorId this;
     debtorName := debtorName this;
     debtorStreet := debtorStreet this;
     debtorCity := debtorCity this;
     debtorCountry := debtorCountry this;
     debtorIBAN := debtorIBAN this;
     debtorBIC := debtorBIC this;
     instructionPriority := instructionPriority this |}.

(** [this[key]] for the properties the serializer reads by a computed
    name. *)
Definition get (this : t) (key : string) : JS.value :=
  if (key =? "debtorName")%string then debtorName this
  else if (key =? "debtorStreet")%string then debtorStreet this
  else if (key =? "debtorCity")%string then debtorCity this
  else if (key =? "debtorCountry")%string then debtorCountry this
  else if (key =? "debtorIBAN")%string then debtorIBAN this
  else if (key =? "debtorBIC")%string then debtorBIC this
  else if (key =? "creditorName")%string then creditorName this
  else if (key =? "creditorStreet")%string then creditorStreet this
  else if (key =? "creditorCity")%string then creditorCity this
  else if (key =? "creditorCountry")%string then creditorCountry this
  else if (key =? "creditorIBAN")%string then creditorIBAN this
  else if (key =? "creditorBIC")%string then creditorBIC this
  else JS.VUndefined.

(** The getter [transactionCount]. *)
Definition transactionCount (this : t) : Z :=
  Z.of_nat (List.length (_payments this)).

(** The loop of [normalize]. *)
Fixpoint normalize_loop (payments : list SepaTransaction.t)
    (controlSum : float) : float :=
  match payments with
  | [] => controlSum
  | pmt :: rest =>
      normalize_loop rest (PrimFloat.add controlSum (SepaTransaction.amount pmt))
  end.

Definition normalize (this : t) : t :=
  let controlSum := normalize_loop (_payments this) 0%float in
  set_controlSum controlSum this.

(** [addTransaction(pmt)]: the batch after the call; the transaction as
    renamed is the last of its [_payments]. *)
Definition addTransaction (st : module_state) (this : t)
    (pmt : JS.argument SepaTransaction.t) : JS.result t :=
  match pmt with
  | JS.NotInstance _ =>
      JS.Throw (JS.Error
        "Given Transaction is not member of the SepaTransaction class")
  | JS.Instance pmt =>
      let pmt :=
        SepaTransaction.set_id
          (JS.slice
             (if JS.truthy (SepaTransaction.id pmt)
              then SepaTransaction.id pmt
              else id this ++ ID_SEPARATOR st
                   ++ JS.toString
                        (JS.num (Z.of_nat (List.length (_payments this)))))
             0 35)
          pmt in
      JS.Ok (set_payments (_payments this ++ [pmt])%list this)
  end.

Definition createTransaction (this : t) : SepaTransaction.t :=
  SepaTransaction.new (_painFormat this).

Section Methods.
Context {host : JS.Host}.

Definition toXML (this : t) (doc : DOM.document) : JS.result DOM.node :=
  let n := createXMLHelper doc true false in
  let r := createXMLHelper doc true true in
  el <- DOM.createElementNS doc (DOM.namespaceURI (DOM.documentElement doc))
          "PmtInf" ;;
  DOM.build el (fun pmtInf =>
    r pmtInf [: "PmtInfId"; id this :] ;;;
    r pmtInf [: "PmtMtd"; PaymentInfoTypes_value (method this) :] ;;;
    let painVersion := getPainXMLVersion (_painFormat this) in
    (if JS.strict_eq painVersion (JS.num 3) then
       r pmtInf [: "BtchBookg"; JS.bool_toString (batchBooking this) :] ;;;
       r pmtInf [: "NbOfTxs"; JS.VNum (JS.num (transactionCount this)) :] ;;;
       r pmtInf [: "CtrlSum"; JS.toFixed (controlSum this) 2 :] ;;;
       DOM.ret tt
     else DOM.ret tt) ;;;
    pmtTpInf <~ n pmtInf [: "PmtTpInf" :] ;;
    r pmtTpInf [: "SvcLvl"; "Cd"; "SEPA" :] ;;;
    (if JS.truthy (localInstrumentation this) then
       r pmtTpInf [: "LclInstrm"; "Cd"; localInstrumentation this :] ;;;
       DOM.ret tt
     else DOM.ret tt) ;;;
    (if PaymentInfoTypes_eqb (method this) DirectDebit then
       r pmtTpInf [: "SeqTp"; sequenceType this :] ;;;
       iso <~ DOM.lift (JS.toISOString (collectionDate this)) ;;
       r pmtInf [: "ReqdColltnDt"; JS.substr iso 0 (Some 10) :] ;;;
       DOM.ret tt
     else
       iso <~ DOM.lift (JS.toISOString (requestedExecutionDate this)) ;;
       r pmtInf [: "ReqdExctnDt"; JS.substr iso 0 (Some 10) :] ;;;
       DOM.ret tt) ;;;
    let pullFrom :=
      if PaymentInfoTypes_eqb (method this) DirectDebit
      then "creditor" else "debtor" in
    let emitterNodeName :=
      if PaymentInfoTypes_eqb (method this) DirectDebit
      then "Cdtr" else "Dbtr" in
    emitter <~ n pmtInf [: emitterNodeName :] ;;
    r emitter [: "Nm"; get this (pullFrom ++ "Name") :] ;;;
    (if JS.truthy (get this (pullFrom ++ "Street"))
        && JS.truthy (get this (pullFrom ++ "City"))
        && JS.truthy (get this (pullFrom ++ "Country")) then
       pstl <~ n emitter [: "PstlAdr" :] ;;
       r pstl [: "Ctry"; get this (pullFrom ++ "Country") :] ;;;
       r pstl [: "AdrLine"; get this (pullFrom ++ "Street") :] ;;;
       r pstl [: "AdrLine"; get this (pullFrom ++ "City") :] ;;;
       DOM.ret tt
     else DOM.ret tt) ;;;
    let agentName :=
      if JS.strict_eq painVersion (JS.num 3) then "Agt" else "Agnt" in
    r pmtInf [: emitterNodeName ++ "Acct"; "Id"; "IBAN";
                get this (pullFrom ++ "IBAN") :] ;;;
    (if JS.truthy (get this (pullFrom ++ "BIC")) then
       r pmtInf [: emitterNodeName ++ agentName; "FinInstnId"; "BIC";
                   get this (pullFrom ++ "BIC") :]
     else
       r pmtInf [: emitterNodeName ++ agentName; "FinInstnId"; "Othr"; "Id";
                   "NOTPROVIDED" :]) ;;;
    r pmtInf [: "ChrgBr"; "SLEV" :] ;;;
    (if PaymentInfoTypes_eqb (method this) DirectDebit then
       creditorScheme <~ n pmtInf [: "CdtrSchmeId"; "Id"; "PrvtId"; "Othr" :] ;;
       r creditorScheme [: "Id"; creditorId this :] ;;;
       r creditorScheme [: "SchmeNm"; "Prtry"; "SEPA" :] ;;;
       DOM.ret tt
     else DOM.ret tt) ;;;
    forEach (_payments this) (fun pmt =>
      txInf <~ DOM.lift (SepaTransaction.toXML pmt doc) ;;
      DOM.appendChild pmtInf txInf ;;;
      DOM.ret tt)).

End Methods.

End SepaPaymentInfo.

(* ================================================================== *)
(** * SepaGroupHeader *)
(* ================================================================== *)

(** The [options] object given to [new SepaDocument(options)]; an empty
    [painFormat] is a missing one. *)
Record options := {
  opt_painFormat : string;
  opt_id : string;
  opt_created : option JS.Date;
  opt_initiatorName : string
}.

Module SepaGroupHeader.

Record t := {
  _painFormat : string;
  id : string;
  created : option JS.Date;
  transactionCount : Z;
  initiatorName : string;
  controlSum : float;
  batchBooking : bool;
  grouping : string
}.

(** [new SepaGroupHeader(options)]. *)
Definition new (options : options) : t :=
  {| _painFormat := opt_painFormat options;
     id := opt_id options;
     created := opt_created options;
     transactionCount := 0;
     initiatorName := opt_initiatorName options;
     controlSum := 0%float;
     batchBooking := false;
     grouping := "MIXD" |}.

(** The two assignments [normalize] of the document makes. *)
Definition set_sums (controlSum' : float) (transactionCount' : Z) (this : t)
    : t :=
  {| _painFormat := _painFormat this;
     id := id this;
     created := created this;
     transactionCount := transactionCount';
     initiatorName := initiatorName this;
     controlSum := controlSum';
     batchBooking := batchBooking this;
     grouping := grouping this |}.

Section Methods.
Context {host : JS.Host}.

Definition toXML (this : t) (doc : DOM.document) : JS.result DOM.node :=
  let r := createXMLHelper doc true true in
  el <- DOM.createElementNS doc (DOM.namespaceURI (DOM.documentElement doc))
          "GrpHdr" ;;
  DOM.build el (fun grpHdr =>
    let painVersion := getPainXMLVersion (_painFormat this) in
    r grpHdr [: "MsgId"; id this :] ;;;
    iso <~ DOM.lift (JS.toISOString (created this)) ;;
    r grpHdr [: "CreDtTm"; iso :] ;;;
    (if JS.strict_eq painVersion (JS.num 2) then
       r grpHdr [: "BtchBookg"; JS.bool_toString (batchBooking this) :] ;;;
       DOM.ret tt
     else DOM.ret tt) ;;;
    r grpHdr [: "NbOfTxs"; JS.VNum (JS.num (transactionCount this)) :] ;;;
    r grpHdr [: "CtrlSum"; JS.toFixed (controlSum this) 2 :] ;;;
    (if JS.strict_eq painVersion (JS.num 2) then
       r grpHdr [: "Grpg"; grouping this :] ;;;
       DOM.ret tt
     else DOM.ret tt) ;;;
    r grpHdr [: "InitgPty"; "Nm"; initiatorName this :] ;;;
    DOM.ret tt).

End Methods.

End SepaGroupHeader.

(* ================================================================== *)
(** * SepaDocument *)
(* ================================================================== *)

Module SepaDocument.

Record t := {
  _painFormat : string;
  grpHdr : SepaGroupHeader.t;
  _paymentInfo : list SepaPaymentInfo.t;
  _type : JS.value
}.

(** [new SepaDocument(options)]. *)
Definition new (options : options) : t :=
  let options :=
    {| opt_painFormat :=
         if JS.truthy (opt_painFormat options)
         then opt_painFormat options else "pain.008.001.02";
       opt_id := opt_id options;
       opt_created := opt_created options;
       opt_initiatorName := opt_initiatorName options |} in
  {| _painFormat := opt_painFormat options;
     _type := SEPATypes (opt_painFormat options);
     _paymentInfo := [];
     grpHdr := SepaGroupHeader.new options |}.

(** [addPaymentInfo(pi)]: the document after the call; the block as
    renamed is the last of its [_paymentInfo]. *)
Definition addPaymentInfo (st : module_state) (this : t)
    (pi : JS.argument SepaPaymentInfo.t) : JS.result t :=
  match pi with
  | JS.NotInstance _ =>
      JS.Throw (JS.Error "Given payment is not member of the PaymentInfo class")
  | JS.Instance pi =>
      let pi :=
        if JS.truthy (SepaPaymentInfo.id pi) then
          SepaPaymentInfo.set_id
            (SepaGroupHeader.id (grpHdr this) ++ ID_SEPARATOR st
             ++ SepaPaymentInfo.id pi) pi
        else
          SepaPaymentInfo.set_id
            (SepaGroupHeader.id (grpHdr this) ++ ID_SEPARATOR st
             ++ JS.toString
                  (JS.num (Z.of_nat (List.length (_paymentInfo this))))) pi in
      JS.Ok {| _painFormat := _painFormat this;
               grpHdr := grpHdr this;
               _paymentInfo := (_paymentInfo this ++ [pi])%list;
               _type := _type this |}
  end.

Definition createPaymentInfo (this : t) : SepaPaymentInfo.t :=
  SepaPaymentInfo.new (_painFormat this).

(** The loop of [normalize]: the blocks as normalized and the two
    sums. *)
Fixpoint normalize_loop (paymentInfo : list SepaPaymentInfo.t)
    (controlSum : float) (txCount : Z)
    : list SepaPaymentInfo.t * float * Z :=
  match paymentInfo with
  | [] => ([], controlSum, txCount)
  | pi :: rest =>
      let pi := SepaPaymentInfo.normalize pi in
      let '(rest, controlSum', txCount') :=
        normalize_loop rest
          (PrimFloat.add controlSum (SepaPaymentInfo.controlSum pi))
          (txCount + SepaPaymentInfo.transactionCount pi) in
      (pi :: rest, controlSum', txCount')
  end.

Definition normalize (this : t) : t :=
  let '(paymentInfo, controlSum, txCount) :=
    normalize_loop (_paymentInfo this) 0%float 0 in
  {| _painFormat := _painFormat this;
     grpHdr := SepaGroupHeader.set_sums controlSum txCount (grpHdr this);
     _paymentInfo := paymentInfo;
     _type := _type this |}.

Section Methods.
Context {host : JS.Host}.

(** [toXML()]: the document as [normalize] leaves it, and the DOM
    document returned or the exception thrown. *)
Definition toXML (this : t) : t * JS.result DOM.document :=
  let this := normalize this in
  (this,
   let docNS := "urn:iso:std:iso:20022:tech:xsd:" ++ _painFormat this in
   let doc := DOM.createDocument docNS "Document" in
   let body :=
     DOM.setAttributeNS XSI_NAMESPACE "xsi:schemaLocation"
       (XSI_NS ++ _painFormat this ++ " " ++ _painFormat this ++ ".xsd")
       (DOM.documentElement doc) in
   let doc := {| DOM.implementation := DOM.implementation doc;
                 DOM.documentElement := body |} in
   el <- DOM.createElementNS doc docNS (_type this) ;;
   rootElement <- DOM.build el (fun rootElement =>
     hdr <~ DOM.lift (SepaGroupHeader.toXML (grpHdr this) doc) ;;
     DOM.appendChild rootElement hdr ;;;
     forEach (_paymentInfo this) (fun pi =>
       pmtInf <~ DOM.lift (SepaPaymentInfo.toXML pi doc) ;;
       DOM.appendChild rootElement pmtInf ;;;
       DOM.ret tt)) ;;
   JS.Ok {| DOM.implementation := DOM.implementation doc;
            DOM.documentElement :=
              DOM.set_childNodes (DOM.documentElement doc)
                (DOM.childNodes (DOM.documentElement doc) ++ [rootElement])%list |}).

End Methods.

End SepaDocument.

(* ================================================================== *)
(** * What the properties are stated with *)
(* ================================================================== *)

(** The DOM document the header and the blocks of [d] are serialized
    into: its document element carries the attribute and no child
    yet. *)
Definition document_of {host : JS.Host} (d : SepaDocument.t) : DOM.document :=
  {| DOM.implementation := JS.host_dom;
     DOM.documentElement :=
       DOM.Element "Document"
         ("urn:iso:std:iso:20022:tech:xsd:" ++ SepaDocument._painFormat d)
         [ {| DOM.attr_namespaceURI := Some XSI_NAMESPACE;
              DOM.attr_name := "xsi:schemaLocation";
              DOM.attr_value :=
                XSI_NS ++ SepaDocument._painFormat d ++ " "
                ++ SepaDocument._painFormat d ++ ".xsd" |} ] None [] |}.

(** The tags of the children of an element, in document order, and the
    tags of everything below it. *)
Definition child_tags (n : DOM.node) : list string :=
  map DOM.tagName (DOM.childNodes n).

Fixpoint descendant_tags (n : DOM.node) : list string :=
  match n with
  | DOM.Element _ _ _ _ cs =>
      flat_map (fun c => DOM.tagName c :: descendant_tags c) cs
  end.

(** The first child of [n] with tag [t]. *)
Definition child (t : string) (n : DOM.node) : option DOM.node :=
  find (fun c => (DOM.tagName c =? t)%string) (DOM.childNodes n).

(** The dates [toXML] reads without a test are there. *)
Definition date_present (d : option JS.Date) : bool :=
  match d with
  | Some (JS.DateOfISO _) => true
  | _ => false
  end.

Definition transaction_dates_present (pmt : SepaTransaction.t) : bool :=
  match SepaTransaction._type pmt with
  | SepaTransaction.DirectDebit =>
      date_present (SepaTransaction.mandateSignatureDate pmt)
  | SepaTransaction.Transfer => true
  end.

(** The date a block is serialized with, by its method. *)
Definition batch_date (pi : SepaPaymentInfo.t) : option JS.Date :=
  match SepaPaymentInfo.method pi with
  | SepaPaymentInfo.DirectDebit => SepaPaymentInfo.collectionDate pi
  | SepaPaymentInfo.Transfer => SepaPaymentInfo.requestedExecutionDate pi
  end.

Definition batch_dates_present (pi : SepaPaymentInfo.t) : bool :=
  date_present (batch_date pi)
  && forallb transaction_dates_present (SepaPaymentInfo._payments pi).

Definition dates_present (d : SepaDocument.t) : bool :=
  date_present (SepaGroupHeader.created (SepaDocument.grpHdr d))
  && forallb batch_dates_present (SepaDocument._paymentInfo d).

(** The header and the blocks of a document carry its format, as the
    constructor and [createPaymentInfo] make them. *)
Definition bound_to_format (d : SepaDocument.t) : bool :=
  (SepaGroupHeader._painFormat (SepaDocument.grpHdr d)
   =? SepaDocument._painFormat d)%string
  && forallb (fun pi => (SepaPaymentInfo._painFormat pi
                         =? SepaDocument._painFormat d)%string)
       (SepaDocument._paymentInfo d).

(** A format identifier is recognized when [SEPATypes] has it as an own
    property. *)
Definition recognized (painFormat : string) : bool :=
  match own_property painFormat SEPATypes_own with
  | Some _ => true
  | None => false
  end.

(** The children of [GrpHdr] and of [PmtInf], by tag and in document
    order, that [toXML] builds before it turns to the transactions. *)
Definition GrpHdr_child_tags (hdr : SepaGroupHeader.t) : list string :=
  let v2 :=
    JS.strict_eq (getPainXMLVersion (SepaGroupHeader._painFormat hdr))
      (JS.num 2) in
  (["MsgId"; "CreDtTm"] ++ (if v2 then ["BtchBookg"] else [])
   ++ ["NbOfTxs"; "CtrlSum"] ++ (if v2 then ["Grpg"] else [])
   ++ ["InitgPty"])%list.

Definition PmtInf_child_tags (pi : SepaPaymentInfo.t) : list string :=
  let v3 :=
    JS.strict_eq (getPainXMLVersion (SepaPaymentInfo._painFormat pi))
      (JS.num 3) in
  let agent := if v3 then "Agt" else "Agnt" in
  (["PmtInfId"; "PmtMtd"]
   ++ (if v3 then ["BtchBookg"; "NbOfTxs"; "CtrlSum"] else [])
   ++ match SepaPaymentInfo.method pi with
      | SepaPaymentInfo.DirectDebit =>
          ["PmtTpInf"; "ReqdColltnDt"; "Cdtr"; "CdtrAcct";
           ("Cdtr" ++ agent)%string; "ChrgBr"; "CdtrSchmeId"]
      | SepaPaymentInfo.Transfer =>
          ["PmtTpInf"; "ReqdExctnDt"; "Dbtr"; "DbtrAcct";
           ("Dbtr" ++ agent)%string; "ChrgBr"]
      end)%list.


(** The value the specification gives the [schemaLocation] attribute,
    read to the letter:
    ["<base-ns> <formatId> <base-ns><formatId>.xsd"]. *)
Definition schemaLocation_as_specified (painFormat : string) : string :=
  XSI_NS ++ " " ++ painFormat ++ " " ++ XSI_NS ++ painFormat ++ ".xsd".

(** An element with its text, for reading off leaves. *)
Definition leaf (n : DOM.node) : string * option JS.value :=
  (DOM.tagName n, DOM.textContent n).

(** ** Further vocabulary *)

(** The code unit [c] with a letter a-z replaced by its capital. *)
Definition capital (c : ascii) : ascii :=
  let cc := JS.charCode c in
  if (97 <=? cc) && (cc <=? 122) then ascii_of_nat (Z.to_nat (cc - 32)) else c.

(** [s] with the letters a-z in capitals. *)
Fixpoint capitals (s : string) : string :=
  match s with
  | EmptyString => EmptyString
  | String c r => String (capital c) (capitals r)
  end.

(** [s] without the code units that are neither letters nor digits. *)
Fixpoint alnum_only (s : string) : string :=
  match s with
  | EmptyString => EmptyString
  | String c r =>
      if Checksum.is_letter c || JS.is_digit c
      then String c (alnum_only r) else alnum_only r
  end.

(** ** Objects passed by reference

    [addTransaction] and [addPaymentInfo] change the object they are
    given and push that very object, not a copy: a caller who passes
    one object twice finds it twice in the array, each time as the last
    call left it.  A [store] holds the objects a caller has made, a
    reference is the address of one of them, and an array of objects is
    a list of references read through the store. *)
Definition ref : Type := nat.
Definition store (A : Type) : Type := ref -> A.

(** The store with the object at [r] replaced by [a]. *)
Definition assign {A} (r : ref) (a : A) (h : store A) : store A :=
  fun r' => if (r' =? r)%nat then a else h r'.

(** [this] with the blocks [blocks] for its [_paymentInfo]. *)
Definition holding (this : SepaDocument.t) (blocks : list SepaPaymentInfo.t)
    : SepaDocument.t :=
  {| SepaDocument._painFormat := SepaDocument._painFormat this;
     SepaDocument.grpHdr := SepaDocument.grpHdr this;
     SepaDocument._paymentInfo := blocks;
     SepaDocument._type := SepaDocument._type this |}.

(** [this.addTransaction(pmt)] for the object at [pmt], when
    [this._payments] holds the objects at [held].  The call assigns to
    [pmt.id] and pushes [pmt]: the object as [addTransaction] leaves it,
    the last of [_payments], is written back to the store at [pmt], so
    that every place of the array that holds [pmt] shows the new id,
    and the reference is pushed. *)
Definition addTransaction_by_reference (st : module_state)
    (this : SepaPaymentInfo.t) (pmt : ref)
    (a : store SepaTransaction.t * list ref)
    : JS.result (store SepaTransaction.t * list ref) :=
  let (h, held) := a in
  this' <- SepaPaymentInfo.addTransaction st
             (SepaPaymentInfo.set_payments (map h held) this)
             (JS.Instance (h pmt)) ;;
  JS.Ok (assign pmt (last (SepaPaymentInfo._payments this') (h pmt)) h,
         (held ++ [pmt])%list).

(** [this.addPaymentInfo(pi)] for the object at [pi], when
    [this._paymentInfo] holds the objects at [held]; the call assigns
    to [pi.id] and pushes [pi] in the same way. *)
Definition addPaymentInfo_by_reference (st : module_state)
    (this : SepaDocument.t) (pi : ref)
    (a : store SepaPaymentInfo.t * list ref)
    : JS.result (store SepaPaymentInfo.t * list ref) :=
  let (h, held) := a in
  this' <- SepaDocument.addPaymentInfo st (holding this (map h held))
             (JS.Instance (h pi)) ;;
  JS.Ok (assign pi (last (SepaDocument._paymentInfo this') (h pi)) h,
         (held ++ [pi])%list).

(** [this.addTransaction(pmt)] for each reference of an array in turn,
    and [this.addPaymentInfo(pi)] for each reference of an array in
    turn. *)
Fixpoint addTransactions (st : module_state) (this : SepaPaymentInfo.t)
    (pmts : list ref) (a : store SepaTransaction.t * list ref)
    : JS.result (store SepaTransaction.t * list ref) :=
  match pmts with
  | [] => JS.Ok a
  | pmt :: rest =>
      a <- addTransaction_by_reference st this pmt a ;;
      addTransactions st this rest a
  end.

Fixpoint addPaymentInfos (st : module_state) (this : SepaDocument.t)
    (pis : list ref) (a : store SepaPaymentInfo.t * list ref)
    : JS.result (store SepaPaymentInfo.t * list ref) :=
  match pis with
  | [] => JS.Ok a
  | pi :: rest =>
      a <- addPaymentInfo_by_reference st this pi a ;;
      addPaymentInfos st this rest a
  end.

(** The id given to what is added without one at position [i] under the
    id [prefix]. *)
Definition implicit_id (st : module_state) (prefix : string) (i : nat)
    : string :=
  prefix ++ ID_SEPARATOR st ++ JS.toString (JS.num (Z.of_nat i)).

(** The sum [normalize] computes over the transactions of a block. *)
Definition sum_of_amounts (payments : list SepaTransaction.t) : float :=
  fold_left PrimFloat.add (map SepaTransaction.amount payments) 0%float.

(** Whether [n] and everything below it is in the namespace [ns]. *)
Fixpoint in_namespace (ns : string) (n : DOM.node) : bool :=
  match n with
  | DOM.Element _ ns' _ _ cs =>
      (ns' =? ns)%string && forallb (in_namespace ns) cs
  end.

(** The children of a [PmtInf] element that are transactions. *)
Definition transaction_elements (pmtInf : DOM.node) : list DOM.node :=
  filter (fun c => (DOM.tagName c =? "DrctDbtTxInf")%string
                   || (DOM.tagName c =? "CdtTrfTxInf")%string)
    (DOM.childNodes pmtInf).

(** The children of a transaction element, by tag and in document
    order. *)
Definition TxInf_child_tags (pmt : SepaTransaction.t) : list string :=
  (match SepaTransaction._type pmt with
   | SepaTransaction.DirectDebit =>
       ["PmtId"; "InstdAmt"; "DrctDbtTx"; "DbtrAgt"; "Dbtr"; "DbtrAcct";
        "RmtInf"]
   | SepaTransaction.Transfer =>
       ["PmtId"; "Amt"; "CdtrAgt"; "Cdtr"; "CdtrAcct"; "RmtInf"]
   end
   ++ if negb (JS.strict_eq
                 (getPainXMLVersion (SepaTransaction._painFormat pmt))
                 (JS.num 3))
         && (JS.truthy (SepaTransaction.purposeCode pmt)
             || JS.is_zero (SepaTransaction.purposeCode pmt))
      then ["Purp"] else [])%list.

(** An element without attributes holding a text and no child. *)
Definition text_element (ns name : string) (val : JS.value) : DOM.node :=
  DOM.Element name ns [] (Some val) [].

(** A name made of letters, as every element name the serializer hands
    to its helpers is. *)
Fixpoint all_letters (s : string) : bool :=
  match s with
  | EmptyString => true
  | String c r => Checksum.is_letter c && all_letters r
  end.

Definition letters_only (s : string) : bool :=
  negb (s =? "")%string && all_letters s.

(** The element [name] over the elements [names], each the only child
    of the one before it; the innermost holds [text]. *)
Fixpoint nested (ns name : string) (names : list string)
    (text : option JS.value) : DOM.node :=
  match names with
  | [] => DOM.Element name ns [] text []
  | name' :: rest => DOM.Element name ns [] None [nested ns name' rest text]
  end.

(** The node at [p] given one more child, the last. *)
Definition append_at (p : DOM.path) (c : DOM.node) (root : DOM.node)
    : DOM.node :=
  DOM.modify p
    (fun n => DOM.set_childNodes n (DOM.childNodes n ++ [c])%list) root.

(* ================================================================== *)
(** * Example objects *)
(* ================================================================== *)

Module Examples.

(** Two hosts.  [Number::toString] is consulted by [toFixed] for
    amounts that are not finite or not below 10^21 only; the examples
    have none, and these hosts render such amounts as ["NaN"]. *)
Definition node_host : JS.Host :=
  {| JS.host_dom := JS.XmlDom; JS.Number_toString := fun _ => "NaN" |}.


Definition a_date : option JS.Date :=
  Some (JS.DateOfISO "2015-06-01T12:00:00.000Z").

(** [{painFormat: ..., id: "MSG1", created: new Date(...),
     initiatorName: "Initiator"}]. *)
Definition options_MSG1 (painFormat : string) : options :=
  {| opt_painFormat := painFormat;
     opt_id := "MSG1";
     opt_created := a_date;
     opt_initiatorName := "Initiator" |}.

Definition doc_MSG1 (painFormat : string) : SepaDocument.t :=
  SepaDocument.new (options_MSG1 painFormat).

(** A document with one block of two transactions, 10.00 and 5.50,
    built the way a caller builds it. *)
Definition two_transactions (painFormat : string)
    : JS.result SepaDocument.t :=
  let doc := doc_MSG1 painFormat in
  let pi :=
    SepaPaymentInfo.set_dates a_date a_date (SepaDocument.createPaymentInfo doc) in
  let mk amount :=
    SepaTransaction.set_mandateSignatureDate a_date
      (SepaTransaction.set_amount amount (SepaPaymentInfo.createTransaction pi)) in
  pi <- SepaPaymentInfo.addTransaction initial_state pi
          (JS.Instance (mk 10%float)) ;;
  pi <- SepaPaymentInfo.addTransaction initial_state pi
          (JS.Instance (mk 5.5%float)) ;;
  SepaDocument.addPaymentInfo initial_state doc (JS.Instance pi).

(** The same document, when it is known to be built. *)
Definition document_with_block (painFormat : string) : SepaDocument.t :=
  match two_transactions painFormat with
  | JS.Ok doc => doc
  | JS.Throw _ => doc_MSG1 painFormat
  end.

(** A block given an id of forty characters before it is added. *)
Definition long_id : string := "0123456789012345678901234567890123456789".

Definition batch_with_long_id : SepaPaymentInfo.t :=
  SepaPaymentInfo.set_id long_id
    (SepaDocument.createPaymentInfo (doc_MSG1 "pain.008.001.02")).

(** A transaction given an id of forty characters before it is added. *)
Definition transaction_with_long_id : SepaTransaction.t :=
  SepaTransaction.set_id long_id
    (SepaTransaction.new "pain.008.001.02").

(** A credit transfer whose creditor has a full address, and the DOM
    document it is serialized into. *)
Definition transfer_with_creditor_address : SepaTransaction.t :=
  SepaTransaction.set_creditor_address "Main Street 1" "Berlin" "DE"
    (SepaTransaction.new "pain.001.001.03").

Definition dom_document (painFormat : string) : DOM.document :=
  @DOM.createDocument node_host
    ("urn:iso:std:iso:20022:tech:xsd:" ++ painFormat) "Document".

(** A credit transfer document of family 3 given a block that another
    document, of family 2, created. *)
Definition mixed_document : JS.result SepaDocument.t :=
  let doc := doc_MSG1 "pain.001.001.03" in
  let other := doc_MSG1 "pain.001.001.02" in
  let pi :=
    SepaPaymentInfo.set_dates a_date a_date
      (SepaDocument.createPaymentInfo other) in
  SepaDocument.addPaymentInfo initial_state doc (JS.Instance pi).

End Examples.

(** ** Further example objects *)

Module MoreExamples.

(** A direct debit block whose creditor has a full address and a BIC,
    and a block of transfers whose debtor has a street only. *)
Definition creditor_block : SepaPaymentInfo.t :=
  {| SepaPaymentInfo._painFormat := "pain.008.001.02";
     SepaPaymentInfo._payments := [];
     SepaPaymentInfo.id := "MSG1.0";
     SepaPaymentInfo.method := SepaPaymentInfo.DirectDebit;
     SepaPaymentInfo.batchBooking := false;
     SepaPaymentInfo.grouping := "MIXD";
     SepaPaymentInfo.controlSum := 0%float;
     SepaPaymentInfo.localInstrumentation := "CORE";
     SepaPaymentInfo.sequenceType := "FRST";
     SepaPaymentInfo.collectionDate := Examples.a_date;
     SepaPaymentInfo.requestedExecutionDate := None;
     SepaPaymentInfo.creditorId := "DE98ZZZ09999999999";
     SepaPaymentInfo.creditorName := "Creditor";
     SepaPaymentInfo.creditorStreet := "Main Street 1";
     SepaPaymentInfo.creditorCity := "Berlin";
     SepaPaymentInfo.creditorCountry := "DE";
     SepaPaymentInfo.creditorIBAN := "DE87123456781234567890";
     SepaPaymentInfo.creditorBIC := "COBADEFFXXX";
     SepaPaymentInfo.debtorId := "";
     SepaPaymentInfo.debtorName := "";
     SepaPaymentInfo.debtorStreet := JS.VNull;
     SepaPaymentInfo.debtorCity := JS.VNull;
     SepaPaymentInfo.debtorCountry := JS.VNull;
     SepaPaymentInfo.debtorIBAN := "";
     SepaPaymentInfo.debtorBIC := "";
     SepaPaymentInfo.instructionPriority := "NORM" |}.

Definition debtor_block : SepaPaymentInfo.t :=
  {| SepaPaymentInfo._painFormat := "pain.001.001.02";
     SepaPaymentInfo._payments := [];
     SepaPaymentInfo.id := "MSG1.0";
     SepaPaymentInfo.method := SepaPaymentInfo.Transfer;
     SepaPaymentInfo.batchBooking := false;
     SepaPaymentInfo.grouping := "MIXD";
     SepaPaymentInfo.controlSum := 0%float;
     SepaPaymentInfo.localInstrumentation := JS.VNull;
     SepaPaymentInfo.sequenceType := "FRST";
     SepaPaymentInfo.collectionDate := None;
     SepaPaymentInfo.requestedExecutionDate := Examples.a_date;
     SepaPaymentInfo.creditorId := "";
     SepaPaymentInfo.creditorName := "";
     SepaPaymentInfo.creditorStreet := JS.VNull;
     SepaPaymentInfo.creditorCity := JS.VNull;
     SepaPaymentInfo.creditorCountry := JS.VNull;
     SepaPaymentInfo.creditorIBAN := "";
     SepaPaymentInfo.creditorBIC := "";
     SepaPaymentInfo.debtorId := "";
     SepaPaymentInfo.debtorName := "Debtor";
     SepaPaymentInfo.debtorStreet := "Main Street 1";
     SepaPaymentInfo.debtorCity := JS.VNull;
     SepaPaymentInfo.debtorCountry := JS.VNull;
     SepaPaymentInfo.debtorIBAN := "DE87123456781234567890";
     SepaPaymentInfo.debtorBIC := "";
     SepaPaymentInfo.instructionPriority := "NORM" |}.

(** A transfer of 1234.5 euros with a purpose code, in a format of
    family 2. *)
Definition salary_transfer : SepaTransaction.t :=
  {| SepaTransaction._painFormat := "pain.001.001.02";
     SepaTransaction._type := SepaTransaction.Transfer;
     SepaTransaction.id := "MSG1.0.0";
     SepaTransaction.end2endId := "E2E";
     SepaTransaction.currency := "EUR";
     SepaTransaction.amount := 1234.5%float;
     SepaTransaction.purposeCode := "SALA";
     SepaTransaction.mandateId := "";
     SepaTransaction.mandateSignatureDate := None;
     SepaTransaction.ammendment := JS.VUndefined;
     SepaTransaction.debtorName := "";
     SepaTransaction.debtorStreet := JS.VNull;
     SepaTransaction.debtorCity := JS.VNull;
     SepaTransaction.debtorCountry := JS.VNull;
     SepaTransaction.debtorIBAN := "";
     SepaTransaction.debtorBIC := "";
     SepaTransaction.remittanceInfo := "Salary";
     SepaTransaction.creditorName := "Creditor";
     SepaTransaction.creditorStreet := JS.VNull;
     SepaTransaction.creditorCity := JS.VNull;
     SepaTransaction.creditorCountry := JS.VNull;
     SepaTransaction.creditorIBAN := "DE87123456781234567890";
     SepaTransaction.creditorBIC := "" |}.

(** A direct debit of 10 euros under a mandate. *)
Definition a_direct_debit : SepaTransaction.t :=
  {| SepaTransaction._painFormat := "pain.008.001.02";
     SepaTransaction._type := SepaTransaction.DirectDebit;
     SepaTransaction.id := "MSG1.0.0";
     SepaTransaction.end2endId := "E2E";
     SepaTransaction.currency := "EUR";
     SepaTransaction.amount := 10%float;
     SepaTransaction.purposeCode := JS.VNull;
     SepaTransaction.mandateId := "MANDATE-1";
     SepaTransaction.mandateSignatureDate := Examples.a_date;
     SepaTransaction.ammendment := JS.VUndefined;
     SepaTransaction.debtorName := "Debtor";
     SepaTransaction.debtorStreet := JS.VNull;
     SepaTransaction.debtorCity := JS.VNull;
     SepaTransaction.debtorCountry := JS.VNull;
     SepaTransaction.debtorIBAN := "DE87123456781234567890";
     SepaTransaction.debtorBIC := "";
     SepaTransaction.remittanceInfo := "Invoice";
     SepaTransaction.creditorName := "";
     SepaTransaction.creditorStreet := JS.VNull;
     SepaTransaction.creditorCity := JS.VNull;
     SepaTransaction.creditorCountry := JS.VNull;
     SepaTransaction.creditorIBAN := "";
     SepaTransaction.creditorBIC := "" |}.


End MoreExamples.

(* ================================================================== *)
(** * Properties of the runtime fragment *)
(* ================================================================== *)

(** Closed statements are settled by evaluation, conjunct by conjunct,
    a witness being read off the first equation that mentions it. *)
Ltac by_evaluation :=
  repeat match goal with
  | |- _ /\ _ => split
  | |- exists _, _ => eexists
  end;
  (vm_compute; reflexivity).

Module JSFacts.

Lemma append_nil_r (s : string) : s ++ "" = s.
Proof. induction s as [|c s IH]; simpl; [reflexivity | now rewrite IH]. Qed.

Lemma append_assoc (a b c : string) : (a ++ b) ++ c = a ++ (b ++ c).
Proof. induction a as [|x a IH]; simpl; [reflexivity | now rewrite IH]. Qed.

Lemma length_append (a b : string) :
  String.length (a ++ b) = (String.length a + String.length b)%nat.
Proof. induction a as [|x a IH]; simpl; [reflexivity | now rewrite IH]. Qed.

Lemma take_all (n : nat) (s : string) :
  (String.length s <= n)%nat -> JS.take n s = s.
Proof.
  revert n; induction s as [|c s IH]; intros [|n] H; simpl in *;
    try reflexivity; try lia.
  rewrite IH by lia. reflexivity.
Qed.

Lemma drop_all (n : nat) (s : string) :
  (String.length s <= n)%nat -> JS.drop n s = "".
Proof.
  revert n; induction s as [|c s IH]; intros [|n] H; simpl in *;
    try reflexivity; try lia.
  apply IH. lia.
Qed.

Lemma take_min (n : nat) (s : string) :
  JS.take (Nat.min n (String.length s)) s = JS.take n s.
Proof.
  revert n; induction s as [|c s IH]; intros [|n]; simpl; try reflexivity.
  now rewrite IH.
Qed.

Lemma drop_min (n : nat) (s : string) :
  JS.drop (Nat.min n (String.length s)) s = JS.drop n s.
Proof.
  revert n; induction s as [|c s IH]; intros [|n]; simpl; try reflexivity.
  now rewrite IH.
Qed.

Lemma length_take (n : nat) (s : string) :
  String.length (JS.take n s) = Nat.min n (String.length s).
Proof.
  revert n; induction s as [|c s IH]; intros [|n]; simpl; try reflexivity.
  now rewrite IH.
Qed.

Lemma length_drop (n : nat) (s : string) :
  String.length (JS.drop n s) = (String.length s - n)%nat.
Proof.
  revert n; induction s as [|c s IH]; intros [|n]; simpl; try reflexivity.
  now rewrite IH.
Qed.

Lemma take_append_exact (a b : string) :
  JS.take (String.length a) (a ++ b) = a.
Proof. induction a as [|x a IH]; simpl; [now destruct b | now rewrite IH]. Qed.

Lemma drop_append_exact (a b : string) :
  JS.drop (String.length a) (a ++ b) = b.
Proof. induction a as [|x a IH]; simpl; [reflexivity | exact IH]. Qed.

(** [s.substr(k)] drops the first [k] code units. *)
Lemma substr_from (s : string) (k : nat) :
  JS.substr s (Z.of_nat k) None = JS.drop k s.
Proof.
  unfold JS.substr, JS.length.
  destruct (Z.ltb_spec (Z.of_nat k) 0) as [H|_]; [lia|].
  set (n := String.length s).
  rewrite <- (drop_min k s). fold n.
  replace (Z.to_nat (Z.min (Z.of_nat k) (Z.of_nat n))) with (Nat.min k n) by lia.
  apply take_all. rewrite length_drop. fold n. lia.
Qed.

(** [s.substr(0, k)] keeps the first [k] code units. *)
Lemma substr_prefix (s : string) (k : nat) :
  JS.substr s 0 (Some (Z.of_nat k)) = JS.take k s.
Proof.
  unfold JS.substr, JS.length. rewrite Z.ltb_irrefl.
  set (n := String.length s).
  rewrite <- (take_min k s). fold n.
  replace (Z.to_nat (Z.min 0 (Z.of_nat n))) with O by lia. simpl JS.drop.
  f_equal. lia.
Qed.

(** [s.slice(0, k)] keeps the first [k] code units. *)
Lemma slice_prefix (s : string) (k : nat) :
  JS.slice s 0 (Z.of_nat k) = JS.take k s.
Proof.
  unfold JS.slice, JS.length. rewrite Z.ltb_irrefl.
  destruct (Z.ltb_spec (Z.of_nat k) 0) as [H|_]; [lia|].
  set (n := String.length s).
  rewrite <- (take_min k s). fold n.
  replace (Z.to_nat (Z.min 0 (Z.of_nat n))) with O by lia. simpl JS.drop.
  f_equal. lia.
Qed.

(** The first [n] code units, in the words of the standard library. *)
Lemma take_substring (n : nat) (s : string) :
  JS.take n s = String.substring 0 n s.
Proof.
  revert n; induction s as [|c s IH]; intros [|n]; simpl; try reflexivity.
  now rewrite IH.
Qed.

End JSFacts.

(* ================================================================== *)
(** * Properties of the checksum functions *)
(* ================================================================== *)

Module ChecksumFacts.

Import Checksum.

(** Case analysis on the 256 code units. *)
Ltac each_code_unit c :=
  destruct c as [[] [] [] [] [] [] [] []].

Lemma replaceChars_loop_acc (str res : string) :
  _replaceChars_loop str res = res ++ _replaceChars str.
Proof.
  unfold _replaceChars. revert res.
  induction str as [|c str IH]; intro res; simpl.
  - now rewrite JSFacts.append_nil_r.
  - rewrite IH. rewrite (IH (if _ : bool then _ else _)).
    rewrite <- JSFacts.append_assoc. f_equal.
    repeat match goal with |- context [if ?b then _ else _] => destruct b end;
      simpl; now rewrite ?JSFacts.append_nil_r.
Qed.

Lemma replaceChars_cons (c : ascii) (str : string) :
  _replaceChars (String c str) = _replaceChars (String c "") ++ _replaceChars str.
Proof.
  unfold _replaceChars at 1 2. simpl.
  rewrite replaceChars_loop_acc. reflexivity.
Qed.

Lemma replaceChars_append (a b : string) :
  _replaceChars (a ++ b) = _replaceChars a ++ _replaceChars b.
Proof.
  induction a as [|c a IH]; simpl; [reflexivity|].
  rewrite replaceChars_cons, (replaceChars_cons c a), IH.
  now rewrite JSFacts.append_assoc.
Qed.

Lemma all_digits_append (a b : string) :
  all_digits (a ++ b) = all_digits a && all_digits b.
Proof.
  induction a as [|c a IH]; simpl; [reflexivity|].
  now rewrite IH, andb_assoc.
Qed.

Lemma replaceChars_unit_digits (c : ascii) :
  all_digits (_replaceChars (String c "")) = true.
Proof. each_code_unit c; vm_compute; reflexivity. Qed.

(** [_replaceChars] returns decimal digits only. *)
Lemma replaceChars_all_digits (str : string) :
  all_digits (_replaceChars str) = true.
Proof.
  induction str as [|c str IH]; [reflexivity|].
  rewrite replaceChars_cons, all_digits_append, IH, replaceChars_unit_digits.
  reflexivity.
Qed.

(** Digits pass through [_replaceChars] unchanged. *)
Lemma replaceChars_digits (str : string) :
  all_digits str = true -> _replaceChars str = str.
Proof.
  induction str as [|c str IH]; [reflexivity|].
  simpl. intro H. apply andb_prop in H as [Hc Hs].
  rewrite replaceChars_cons, (IH Hs).
  revert Hc. each_code_unit c; vm_compute; intro H; (reflexivity || discriminate).
Qed.

Lemma parseInt_digit (c : ascii) :
  JS.is_digit c = true ->
  JS.parseInt (String c "") = Some (JS.charCode c - 48)
  /\ 0 <= JS.charCode c - 48 <= 9.
Proof.
  each_code_unit c; vm_compute; intro H; try discriminate;
    (split; [reflexivity | split; discriminate]).
Qed.

Lemma digits_value_nonneg (s : string) :
  all_digits s = true -> 0 <= digits_value s.
Proof.
  induction s as [|c s IH]; simpl; [lia|].
  intro H. apply andb_prop in H as [Hc Hs].
  destruct (parseInt_digit c Hc) as [_ Hd]. specialize (IH Hs).
  assert (0 <= 10 ^ Z.of_nat (String.length s)) by (apply Z.pow_nonneg; lia).
  nia.
Qed.

Lemma digits_value_append (a b : string) :
  digits_value (a ++ b)
  = digits_value a * 10 ^ Z.of_nat (String.length b) + digits_value b.
Proof.
  induction a as [|c a IH]; simpl; [reflexivity|].
  rewrite IH, JSFacts.length_append, Nat2Z.inj_add, Z.pow_add_r by lia.
  ring.
Qed.

(** The invariant of the loop of [_txtMod97]: started from a partial
    remainder [a], it ends on the remainder of the number read so far
    followed by the remaining digits. *)
Lemma txtMod97_loop_value (str : string) (a : Z) :
  all_digits str = true -> 0 <= a < 97 ->
  _txtMod97_loop str (Some a)
  = Some ((a * 10 ^ Z.of_nat (String.length str) + digits_value str) mod 97).
Proof.
  revert a. induction str as [|c str IH]; intros a Hd Ha.
  - simpl. f_equal. rewrite Z.mul_1_r, Z.add_0_r, Z.mod_small; lia.
  - simpl in Hd. apply andb_prop in Hd as [Hc Hs].
    destruct (parseInt_digit c Hc) as [Hp Hr].
    cbn [_txtMod97_loop]. rewrite Hp.
    cbn [JS.rem JS.add JS.mul JS.lift2 JS.num].
    change (97 =? 0) with false. cbv iota.
    rewrite Z.rem_mod_nonneg by lia.
    rewrite IH by (try assumption; apply Z.mod_pos_bound; lia).
    f_equal. cbn [digits_value String.length].
    rewrite Nat2Z.inj_succ, Z.pow_succ_r by lia.
    rewrite <- Zplus_mod_idemp_l, Zmult_mod_idemp_l, Zplus_mod_idemp_l.
    f_equal. ring.
Qed.

(** [_txtMod97] on a string of digits. *)
Lemma txtMod97_digits (str : string) :
  all_digits str = true -> _txtMod97 str = Some (digits_value str mod 97).
Proof.
  intro H. unfold _txtMod97, JS.num.
  rewrite txtMod97_loop_value by (try assumption; lia).
  reflexivity.
Qed.

Lemma forall_below_97 (P : Z -> bool) :
  forallb P (map Z.of_nat (seq 0 97)) = true ->
  forall m, 0 <= m < 97 -> P m = true.
Proof.
  intros H m Hm. rewrite forallb_forall in H. apply H.
  rewrite <- (Z2Nat.id m) by lia. apply in_map, in_seq. lia.
Qed.

(** The two check digits are digits, and denote [98 - mod]. *)
Lemma check_digits_spec (m : Z) :
  0 <= m < 97 ->
  String.length (check_digits (Some m)) = 2%nat
  /\ all_digits (check_digits (Some m)) = true
  /\ digits_value (check_digits (Some m)) = 98 - m.
Proof.
  intro Hm.
  assert (H : ((String.length (check_digits (Some m)) =? 2)%nat
               && all_digits (check_digits (Some m))
               && (digits_value (check_digits (Some m)) =? 98 - m)) = true).
  { revert m Hm. apply forall_below_97. vm_compute. reflexivity. }
  apply andb_prop in H as [H H3]. apply andb_prop in H as [H1 H2].
  apply Nat.eqb_eq in H1. apply Z.eqb_eq in H3. auto.
Qed.

(** Where the parts of a checksummed identifier end up when its first
    four code units are moved behind the rest. *)
Lemma rotation_of_checksum (iban chk : string) :
  String.length chk = 2%nat ->
  let res := JS.take 2 iban ++ chk ++ JS.drop 4 iban in
  JS.drop 4 res ++ JS.take 4 res = JS.drop 4 iban ++ JS.take 2 iban ++ chk.
Proof.
  intros Hchk res. subst res.
  destruct (Nat.le_gt_cases 2 (String.length iban)) as [Hlen|Hlen].
  - assert (H4 : String.length (JS.take 2 iban ++ chk) = 4%nat).
    { rewrite JSFacts.length_append, JSFacts.length_take, Hchk. lia. }
    rewrite <- JSFacts.append_assoc, <- H4.
    now rewrite JSFacts.drop_append_exact, JSFacts.take_append_exact.
  - rewrite (JSFacts.drop_all 4 iban) by lia.
    rewrite JSFacts.append_nil_r.
    assert (H4 : (String.length (JS.take 2 iban ++ chk) <= 4)%nat).
    { rewrite JSFacts.length_append, JSFacts.length_take, Hchk. lia. }
    rewrite JSFacts.drop_all, JSFacts.take_all by exact H4.
    reflexivity.
Qed.

(** The value checked by [validateIBAN] after [checksumIBAN]: a body
    [x] followed by the check digits [98 - (100 x mod 97)]. *)
Lemma check_value_mod97 (x : Z) :
  (x * 10 ^ 2 + (98 - (x * 10 ^ 2 + 0) mod 97)) mod 97 = 1.
Proof.
  rewrite Z.add_0_r.
  pose proof (Z.div_mod (x * 10 ^ 2) 97 ltac:(lia)) as H.
  set (q := x * 10 ^ 2 / 97) in *. set (r := (x * 10 ^ 2) mod 97) in *.
  replace (x * 10 ^ 2 + (98 - r)) with (1 + (q + 1) * 97) by lia.
  rewrite Z.mod_add by lia. reflexivity.
Qed.

(** [checksumIBAN] in closed form: the remainder it feeds the check
    digits with is that of the digits of body and country code followed
    by two zeros. *)
Lemma checksumIBAN_eq (iban : string) :
  checksumIBAN iban
  = JS.take 2 iban
    ++ check_digits
         (Some ((digits_value (_replaceChars (JS.drop 4 iban ++ JS.take 2 iban))
                 * 10 ^ 2 + 0) mod 97))
    ++ JS.drop 4 iban.
Proof.
  unfold checksumIBAN, check_digits.
  rewrite (JSFacts.substr_from iban 4 : JS.substr iban 4 None = _).
  rewrite (JSFacts.substr_prefix iban 2 : JS.substr iban 0 (Some 2) = _).
  set (body := JS.drop 4 iban). set (cc := JS.take 2 iban).
  rewrite <- (JSFacts.append_assoc body cc "00"), replaceChars_append.
  rewrite txtMod97_digits, digits_value_append.
  - reflexivity.
  - rewrite all_digits_append, replaceChars_all_digits. reflexivity.
Qed.

(** [validateIBAN] on a string of digits-to-be [d] completed by check
    digits [chk]. *)
Lemma validateIBAN_eq (iban chk : string) :
  String.length chk = 2%nat -> all_digits chk = true ->
  validateIBAN (JS.take 2 iban ++ chk ++ JS.drop 4 iban)
  = JS.strict_eq
      (Some ((digits_value (_replaceChars (JS.drop 4 iban ++ JS.take 2 iban))
              * 10 ^ 2 + digits_value chk) mod 97))
      (JS.num 1).
Proof.
  intros Hlen Hdig. unfold validateIBAN.
  rewrite (JSFacts.substr_from _ 4 : JS.substr _ 4 None = _).
  rewrite (JSFacts.substr_prefix _ 4 : JS.substr _ 0 (Some 4) = _).
  rewrite rotation_of_checksum by exact Hlen.
  set (body := JS.drop 4 iban). set (cc := JS.take 2 iban).
  rewrite <- (JSFacts.append_assoc body cc chk), replaceChars_append.
  rewrite (replaceChars_digits _ Hdig).
  rewrite txtMod97_digits, digits_value_append, Hlen.
  - reflexivity.
  - rewrite all_digits_append, replaceChars_all_digits, Hdig. reflexivity.
Qed.

(** Round trip, for every string whatsoever. *)
Lemma validateIBAN_checksumIBAN (iban : string) :
  validateIBAN (checksumIBAN iban) = true.
Proof.
  rewrite checksumIBAN_eq.
  set (x := digits_value (_replaceChars (JS.drop 4 iban ++ JS.take 2 iban))).
  set (m := (x * 10 ^ 2 + 0) mod 97).
  assert (Hm : 0 <= m < 97) by (apply Z.mod_pos_bound; lia).
  destruct (check_digits_spec m Hm) as (Hlen & Hdig & Hval).
  rewrite validateIBAN_eq by assumption.
  fold x. rewrite Hval. unfold m.
  change (Z.of_nat 2) with 2.
  rewrite check_value_mod97. reflexivity.
Qed.

End ChecksumFacts.

(* ================================================================== *)
(** * Properties of the entity model *)
(* ================================================================== *)

Module EntityFacts.

(** The loop of [SepaDocument.normalize] normalizes every block and
    leaves nothing else of the list changed. *)
Lemma normalize_loop_blocks (l : list SepaPaymentInfo.t) (c : float) (n : Z) :
  fst (fst (SepaDocument.normalize_loop l c n))
  = map SepaPaymentInfo.normalize l.
Proof.
  revert c n. induction l as [|pi l IH]; intros c n; cbn; [reflexivity|].
  specialize (IH (PrimFloat.add c (SepaPaymentInfo.controlSum
                                     (SepaPaymentInfo.normalize pi)))
                 (n + SepaPaymentInfo.transactionCount
                        (SepaPaymentInfo.normalize pi))).
  destruct (SepaDocument.normalize_loop l _ _) as [[l' c'] n'].
  cbn in *. now rewrite IH.
Qed.

Lemma PaymentInfo_normalize_twice (pi : SepaPaymentInfo.t) :
  SepaPaymentInfo.normalize (SepaPaymentInfo.normalize pi)
  = SepaPaymentInfo.normalize pi.
Proof. reflexivity. Qed.

Lemma normalize_paymentInfo (d : SepaDocument.t) :
  SepaDocument._paymentInfo (SepaDocument.normalize d)
  = map SepaPaymentInfo.normalize (SepaDocument._paymentInfo d).
Proof.
  unfold SepaDocument.normalize.
  rewrite <- normalize_loop_blocks with (c := 0%float) (n := 0).
  destruct (SepaDocument.normalize_loop _ _ _) as [[l c] n]. reflexivity.
Qed.

Lemma normalize_painFormat (d : SepaDocument.t) :
  SepaDocument._painFormat (SepaDocument.normalize d)
  = SepaDocument._painFormat d.
Proof.
  unfold SepaDocument.normalize.
  destruct (SepaDocument.normalize_loop _ _ _) as [[l c] n]. reflexivity.
Qed.

Lemma normalize_type (d : SepaDocument.t) :
  SepaDocument._type (SepaDocument.normalize d) = SepaDocument._type d.
Proof.
  unfold SepaDocument.normalize.
  destruct (SepaDocument.normalize_loop _ _ _) as [[l c] n]. reflexivity.
Qed.

Lemma normalize_grpHdr (d : SepaDocument.t) :
  exists c n,
    SepaDocument.grpHdr (SepaDocument.normalize d)
    = SepaGroupHeader.set_sums c n (SepaDocument.grpHdr d).
Proof.
  unfold SepaDocument.normalize.
  destruct (SepaDocument.normalize_loop _ _ _) as [[l c] n].
  exists c, n. reflexivity.
Qed.

(** The sums the loop returns depend on the blocks through their
    transactions only, which [normalize] leaves alone. *)
Lemma normalize_loop_sums (l : list SepaPaymentInfo.t) (c : float) (n : Z) :
  SepaDocument.normalize_loop (map SepaPaymentInfo.normalize l) c n
  = SepaDocument.normalize_loop l c n.
Proof.
  revert c n. induction l as [|pi l IH]; intros c n; cbn [map]; [reflexivity|].
  cbn [SepaDocument.normalize_loop].
  rewrite PaymentInfo_normalize_twice, IH. reflexivity.
Qed.

Lemma normalize_twice (d : SepaDocument.t) :
  SepaDocument.normalize (SepaDocument.normalize d) = SepaDocument.normalize d.
Proof.
  unfold SepaDocument.normalize at 1 3.
  rewrite normalize_paymentInfo, normalize_loop_sums.
  rewrite normalize_painFormat, normalize_type.
  destruct (normalize_grpHdr d) as (c & n & ->).
  destruct (SepaDocument.normalize_loop _ _ _) as [[l c'] n'].
  reflexivity.
Qed.

(** ** Documents carry their format

    The constructor, [createPaymentInfo] and [addPaymentInfo] keep the
    header and the blocks of a document on the format of the
    document. *)

Lemma new_bound_to_format (options : options) :
  bound_to_format (SepaDocument.new options) = true.
Proof.
  unfold bound_to_format, SepaDocument.new. cbn.
  rewrite String.eqb_refl. reflexivity.
Qed.

Lemma createPaymentInfo_painFormat (d : SepaDocument.t) :
  SepaPaymentInfo._painFormat (SepaDocument.createPaymentInfo d)
  = SepaDocument._painFormat d.
Proof. reflexivity. Qed.

Lemma addTransaction_painFormat (st : module_state)
    (pi pi' : SepaPaymentInfo.t) (pmt : JS.argument SepaTransaction.t) :
  SepaPaymentInfo.addTransaction st pi pmt = JS.Ok pi' ->
  SepaPaymentInfo._painFormat pi' = SepaPaymentInfo._painFormat pi.
Proof.
  destruct pmt as [pmt|v]; cbn; intro H; [|discriminate].
  injection H as <-. reflexivity.
Qed.

Lemma addPaymentInfo_bound_to_format (st : module_state)
    (d d' : SepaDocument.t) (pi : SepaPaymentInfo.t) :
  bound_to_format d = true ->
  SepaPaymentInfo._painFormat pi = SepaDocument._painFormat d ->
  SepaDocument.addPaymentInfo st d (JS.Instance pi) = JS.Ok d' ->
  bound_to_format d' = true.
Proof.
  unfold bound_to_format, SepaDocument.addPaymentInfo.
  intros Hb Hpi H. injection H as <-.
  cbn [SepaDocument.grpHdr SepaDocument._painFormat SepaDocument._paymentInfo].
  apply andb_prop in Hb as [Hh Hl]. rewrite Hh, forallb_app, Hl.
  match goal with
  | |- context [if ?b then _ else _] => destruct b
  end;
    cbn [forallb andb SepaPaymentInfo.set_id SepaPaymentInfo.update
         SepaPaymentInfo._painFormat];
    rewrite Hpi, String.eqb_refl; reflexivity.
Qed.

End EntityFacts.

(* ================================================================== *)
(** * Properties of the serializer *)
(* ================================================================== *)

Module SerializationFacts.

Section WithHost.
Context {host : JS.Host}.

Lemma set_childNodes_twice (n : DOM.node) (c c' : list DOM.node) :
  DOM.set_childNodes (DOM.set_childNodes n c) c' = DOM.set_childNodes n c'.
Proof. destruct n; reflexivity. Qed.

Lemma childNodes_set (n : DOM.node) (c : list DOM.node) :
  DOM.childNodes (DOM.set_childNodes n c) = c.
Proof. destruct n; reflexivity. Qed.

(** A loop that serializes every element of an array and appends the
    results to the element under construction. *)
Lemma forEach_appendChild {A} (f : A -> JS.result DOM.node) (l : list A)
    (root : DOM.node) :
  forEach l (fun x =>
    el <~ DOM.lift (f x) ;; DOM.appendChild (Some []) el ;;; DOM.ret tt) root
  = match JS.mapM f l with
    | JS.Ok els =>
        JS.Ok (tt, DOM.set_childNodes root (DOM.childNodes root ++ els)%list)
    | JS.Throw e => JS.Throw e
    end.
Proof.
  revert root. induction l as [|x l IH]; intro root; cbn.
  - rewrite app_nil_r. destruct root; reflexivity.
  - unfold DOM.bindB at 1. unfold DOM.bindB at 1. unfold DOM.lift.
    destruct (f x) as [el|e]; cbn; [|reflexivity].
    rewrite IH. destruct (JS.mapM f l) as [els|e]; cbn; [|reflexivity].
    rewrite childNodes_set, set_childNodes_twice, <- app_assoc.
    reflexivity.
Qed.

(** Evaluation of a [toXML] body once its tests are decided. *)
Ltac run_builder :=
  lazy beta iota zeta delta
    [DOM.build DOM.bindB DOM.lift DOM.ret DOM.appendChild DOM.set_textContent
     DOM.setAttribute DOM.modify DOM.map_nth DOM.lookup DOM.child_count
     DOM.createElementNS DOM.qualified_name DOM.set_childNodes DOM.childNodes
     DOM.add_attribute JS.bind createXMLHelper createXMLHelper_loop
     last removelast app List.length nth_error orb negb fst snd].

(** Evaluation of the names [toXML] computes. *)
Ltac run_names :=
  lazy beta iota zeta delta
    [String.append String.eqb Ascii.eqb Bool.eqb
     SepaPaymentInfo.get SepaPaymentInfo.PaymentInfoTypes_eqb
     SepaPaymentInfo.PaymentInfoTypes_value
     SepaTransaction.get SepaTransaction.TransactionTypes_eqb
     SepaTransaction.TransactionTypes_value].

Ltac split_tests :=
  repeat match goal with
  | |- context [if ?b then _ else _] => destruct b eqn:?
  end.

Lemma GroupHeader_toXML_eq (this : SepaGroupHeader.t) (doc : DOM.document) :
  exists children : string -> list DOM.node,
    (forall iso,
       let hdr := DOM.Element "GrpHdr"
                    (DOM.namespaceURI (DOM.documentElement doc)) [] None
                    (children iso) in
       child_tags hdr = GrpHdr_child_tags this
       /\ descendant_tags hdr = (GrpHdr_child_tags this ++ ["Nm"])%list)
    /\ SepaGroupHeader.toXML this doc
       = JS.bind (JS.toISOString (SepaGroupHeader.created this))
           (fun iso =>
              JS.Ok (DOM.Element "GrpHdr"
                       (DOM.namespaceURI (DOM.documentElement doc)) [] None
                       (children iso))).
Proof.
  unfold SepaGroupHeader.toXML, GrpHdr_child_tags.
  destruct (JS.strict_eq _ _);
    (eexists; split;
     [ | destruct (JS.toISOString _) as [iso|e]; run_builder;
         [ instantiate (1 := fun iso => _); reflexivity | reflexivity ] ];
     intro iso; split; reflexivity).
Qed.

(** [SepaTransaction.toXML] fails on a missing mandate date only, and
    names the element it returns after the transaction type. *)
Lemma Transaction_toXML_eq (this : SepaTransaction.t) (doc : DOM.document) :
  exists children : string -> list DOM.node,
    SepaTransaction.toXML this doc
    = JS.bind
        (match SepaTransaction._type this with
         | SepaTransaction.DirectDebit =>
             JS.toISOString (SepaTransaction.mandateSignatureDate this)
         | SepaTransaction.Transfer => JS.Ok ""
         end)
        (fun iso =>
           JS.Ok (DOM.Element
                    (SepaTransaction.TransactionTypes_value
                       (SepaTransaction._type this))
                    (DOM.namespaceURI (DOM.documentElement doc)) [] None
                    (children iso))).
Proof.
  unfold SepaTransaction.toXML.
  destruct (SepaTransaction._type this); run_names; split_tests.
  all: try (destruct (JS.toISOString _) as [iso|e]).
  all: run_builder; split_tests; run_builder.
  all: eexists.
  all: first [ instantiate (1 := fun _ => _); reflexivity
             | instantiate (1 := fun iso => _); reflexivity
             | reflexivity
             | exact (fun _ => []) ].
Qed.

(** [SepaPaymentInfo.toXML] fails on a missing date only, its own or
    one of a transaction; the element it returns holds the children
    listed by [PmtInf_child_tags], then one element per transaction. *)
Lemma PaymentInfo_toXML_eq (this : SepaPaymentInfo.t) (doc : DOM.document) :
  exists children : string -> list DOM.node,
    (forall iso, map DOM.tagName (children iso) = PmtInf_child_tags this)
    /\ SepaPaymentInfo.toXML this doc
       = JS.bind (JS.toISOString (batch_date this)) (fun iso =>
         JS.bind (JS.mapM (fun pmt => SepaTransaction.toXML pmt doc)
                    (SepaPaymentInfo._payments this)) (fun txInfs =>
         JS.Ok (DOM.Element "PmtInf"
                  (DOM.namespaceURI (DOM.documentElement doc)) [] None
                  (children iso ++ txInfs)%list))).
Proof.
  unfold SepaPaymentInfo.toXML, PmtInf_child_tags, batch_date.
  destruct (SepaPaymentInfo.method this); run_names; split_tests.
  all: eexists; split;
    [ | destruct (JS.toISOString _) as [iso|e]; run_builder;
        [ match goal with
          | |- context [forEach ?l ?body ?root] =>
              change (forEach l body root)
                with (forEach l (fun x =>
                        el <~ DOM.lift (SepaTransaction.toXML x doc) ;;
                        DOM.appendChild (Some []) el ;;; DOM.ret tt) root)
          end;
          rewrite forEach_appendChild;
          destruct (JS.mapM _ _) as [txInfs|e];
          [ cbn [DOM.set_childNodes DOM.childNodes];
            instantiate (1 := fun iso => _); reflexivity
          | reflexivity ]
        | reflexivity ] ];
    intro iso; reflexivity.
Qed.

(** ** What [mapM] returns *)

Lemma mapM_Forall2 {A B} (f : A -> JS.result B) (l : list A) (ys : list B) :
  JS.mapM f l = JS.Ok ys -> Forall2 (fun x y => f x = JS.Ok y) l ys.
Proof.
  revert ys. induction l as [|x l IH]; intros ys H; cbn in H.
  - injection H as <-. constructor.
  - destruct (f x) as [y|e] eqn:Hx; cbn in H; [|discriminate].
    destruct (JS.mapM f l) as [ys'|e]; cbn in H; [|discriminate].
    injection H as <-. constructor; auto.
Qed.

Lemma Forall2_impl_In {A B} (P Q : A -> B -> Prop) (l : list A)
    (l' : list B) :
  Forall2 P l l' ->
  (forall x y, In x l -> P x y -> Q x y) ->
  Forall2 Q l l'.
Proof.
  induction 1 as [|x y l l' Hxy _ IH]; intro H; constructor.
  - apply H; [left; reflexivity | exact Hxy].
  - apply IH. intros x' y' Hin. apply H. right; exact Hin.
Qed.

Lemma mapM_ok {A B} (f : A -> JS.result B) (l : list A) :
  Forall (fun x => exists y, f x = JS.Ok y) l ->
  exists ys, JS.mapM f l = JS.Ok ys.
Proof.
  induction 1 as [|x l [y Hy] _ [ys IH]]; cbn.
  - eexists; reflexivity.
  - rewrite Hy, IH. cbn. eexists; reflexivity.
Qed.

Lemma date_present_toISOString (d : option JS.Date) :
  date_present d = true -> exists iso, JS.toISOString d = JS.Ok iso.
Proof.
  destruct d as [[iso|]|]; cbn; intro H; try discriminate.
  eexists; reflexivity.
Qed.

(** ** Transactions *)

Lemma Transaction_toXML_tag (this : SepaTransaction.t) (doc : DOM.document)
    (txInf : DOM.node) :
  SepaTransaction.toXML this doc = JS.Ok txInf ->
  DOM.tagName txInf
  = SepaTransaction.TransactionTypes_value (SepaTransaction._type this).
Proof.
  destruct (Transaction_toXML_eq this doc) as [children ->].
  destruct (match SepaTransaction._type this with
            | SepaTransaction.DirectDebit => _
            | SepaTransaction.Transfer => _
            end) as [iso|e]; cbn [JS.bind]; intro H; [|discriminate].
  injection H as <-. reflexivity.
Qed.

Lemma Transaction_toXML_ok (this : SepaTransaction.t) (doc : DOM.document) :
  transaction_dates_present this = true ->
  exists txInf, SepaTransaction.toXML this doc = JS.Ok txInf.
Proof.
  unfold transaction_dates_present. intro H.
  destruct (Transaction_toXML_eq this doc) as [children ->].
  destruct (SepaTransaction._type this).
  - destruct (date_present_toISOString _ H) as [iso ->]. cbn [JS.bind].
    eexists; reflexivity.
  - cbn [JS.bind]. eexists; reflexivity.
Qed.

Lemma Transactions_toXML_tags (l : list SepaTransaction.t)
    (doc : DOM.document) (txInfs : list DOM.node) :
  JS.mapM (fun pmt => SepaTransaction.toXML pmt doc) l = JS.Ok txInfs ->
  map DOM.tagName txInfs
  = map (fun pmt => SepaTransaction.TransactionTypes_value
                      (SepaTransaction._type pmt)) l.
Proof.
  intro Hm. apply mapM_Forall2 in Hm.
  induction Hm as [|pmt txInf l l' Hx _ IH]; cbn [map]; [reflexivity|].
  rewrite IH, (Transaction_toXML_tag _ _ _ Hx). reflexivity.
Qed.

(** The postal address of the other party: the block is there exactly
    when street, city and country of that party (the creditor of a
    transfer, the debtor of a direct debit) all hold something, and it
    holds the country, street and city of the debtor whichever the
    party is. *)
Lemma Transaction_toXML_address (this : SepaTransaction.t)
    (doc : DOM.document) :
  let ns := DOM.namespaceURI (DOM.documentElement doc) in
  let transfer :=
    match SepaTransaction._type this with
    | SepaTransaction.Transfer => true
    | SepaTransaction.DirectDebit => false
    end in
  let party := if transfer then "creditor" else "debtor" in
  match SepaTransaction.toXML this doc with
  | JS.Ok txInf =>
      exists receiver,
        child (if transfer then "Cdtr" else "Dbtr") txInf = Some receiver
        /\ child "PstlAdr" receiver
           = if JS.truthy (SepaTransaction.get this (party ++ "Street"))
                && JS.truthy (SepaTransaction.get this (party ++ "City"))
                && JS.truthy (SepaTransaction.get this (party ++ "Country"))
             then
               Some (DOM.Element "PstlAdr" ns [] None
                       [DOM.Element "Ctry" ns []
                          (Some (SepaTransaction.debtorCountry this)) [];
                        DOM.Element "AdrLine" ns []
                          (Some (SepaTransaction.debtorStreet this)) [];
                        DOM.Element "AdrLine" ns []
                          (Some (SepaTransaction.debtorCity this)) []])
             else None
  | JS.Throw _ => True
  end.
Proof.
  unfold SepaTransaction.toXML.
  destruct (SepaTransaction._type this); run_names; split_tests.
  all: try (destruct (JS.toISOString _) as [iso|e]).
  all: run_builder; split_tests; run_builder.
  all: first [ exact I | eexists; split; reflexivity ].
Qed.

(** ** Payment information blocks *)

Lemma PaymentInfo_toXML_child_tags (this : SepaPaymentInfo.t)
    (doc : DOM.document) (pmtInf : DOM.node) :
  SepaPaymentInfo.toXML this doc = JS.Ok pmtInf ->
  DOM.tagName pmtInf = "PmtInf"
  /\ child_tags pmtInf
     = (PmtInf_child_tags this
        ++ map (fun pmt => SepaTransaction.TransactionTypes_value
                             (SepaTransaction._type pmt))
             (SepaPaymentInfo._payments this))%list.
Proof.
  destruct (PaymentInfo_toXML_eq this doc) as (children & Htags & ->).
  destruct (JS.toISOString _) as [iso|e]; cbn [JS.bind]; [|discriminate].
  destruct (JS.mapM _ _) as [txInfs|e] eqn:Hm; cbn [JS.bind]; [|discriminate].
  intro H. injection H as <-. split; [reflexivity|].
  unfold child_tags. cbn [DOM.childNodes].
  rewrite map_app, Htags, (Transactions_toXML_tags _ _ _ Hm).
  reflexivity.
Qed.

Lemma PaymentInfo_toXML_ok (this : SepaPaymentInfo.t) (doc : DOM.document) :
  batch_dates_present this = true ->
  exists pmtInf, SepaPaymentInfo.toXML this doc = JS.Ok pmtInf.
Proof.
  unfold batch_dates_present. intro H.
  apply andb_prop in H as [Hd Hp].
  destruct (PaymentInfo_toXML_eq this doc) as (children & _ & ->).
  destruct (date_present_toISOString _ Hd) as [iso ->]. cbn [JS.bind].
  destruct (mapM_ok (fun pmt => SepaTransaction.toXML pmt doc)
              (SepaPaymentInfo._payments this)) as [txInfs ->].
  - rewrite forallb_forall in Hp. apply Forall_forall.
    intros pmt Hin. apply Transaction_toXML_ok. auto.
  - cbn [JS.bind]. eexists; reflexivity.
Qed.

(** ** The group header *)

Lemma GroupHeader_toXML_tags (this : SepaGroupHeader.t) (doc : DOM.document)
    (hdr : DOM.node) :
  SepaGroupHeader.toXML this doc = JS.Ok hdr ->
  DOM.tagName hdr = "GrpHdr"
  /\ child_tags hdr = GrpHdr_child_tags this
  /\ descendant_tags hdr = (GrpHdr_child_tags this ++ ["Nm"])%list.
Proof.
  destruct (GroupHeader_toXML_eq this doc) as (children & Htags & ->).
  destruct (JS.toISOString _) as [iso|e]; cbn [JS.bind]; [|discriminate].
  intro H. injection H as <-. split; [reflexivity|]. apply Htags.
Qed.

Lemma GroupHeader_toXML_ok (this : SepaGroupHeader.t) (doc : DOM.document) :
  date_present (SepaGroupHeader.created this) = true ->
  exists hdr, SepaGroupHeader.toXML this doc = JS.Ok hdr.
Proof.
  intro H. destruct (GroupHeader_toXML_eq this doc) as (children & _ & ->).
  destruct (date_present_toISOString _ H) as [iso ->]. cbn [JS.bind].
  eexists; reflexivity.
Qed.

(** ** The document *)

(** [SepaDocument.toXML] in closed form: the document is normalized;
    the root tag, the header and the blocks are serialized in this
    order, and the first failure is the failure of the whole. *)
Lemma Document_toXML_eq (d : SepaDocument.t) :
  let this := SepaDocument.normalize d in
  let docNS :=
    "urn:iso:std:iso:20022:tech:xsd:" ++ SepaDocument._painFormat this in
  let schemaLocation :=
    {| DOM.attr_namespaceURI := Some XSI_NAMESPACE;
       DOM.attr_name := "xsi:schemaLocation";
       DOM.attr_value :=
         XSI_NS ++ SepaDocument._painFormat this ++ " "
         ++ SepaDocument._painFormat this ++ ".xsd" |} in
  let doc :=
    {| DOM.implementation := JS.host_dom;
       DOM.documentElement :=
         DOM.Element "Document" docNS [schemaLocation] None [] |} in
  SepaDocument.toXML d
  = (this,
     name <- DOM.qualified_name JS.host_dom (SepaDocument._type this) ;;
     hdr <- SepaGroupHeader.toXML (SepaDocument.grpHdr this) doc ;;
     pmtInfs <- JS.mapM (fun pi => SepaPaymentInfo.toXML pi doc)
                  (SepaDocument._paymentInfo this) ;;
     JS.Ok {| DOM.implementation := JS.host_dom;
              DOM.documentElement :=
                DOM.Element "Document" docNS [schemaLocation] None
                  [DOM.Element name docNS [] None (hdr :: pmtInfs)] |}).
Proof.
  intros this docNS schemaLocation doc.
  unfold SepaDocument.toXML. fold this. f_equal.
  change (DOM.implementation (DOM.createDocument _ _)) with JS.host_dom.
  change (DOM.setAttributeNS _ _ _ _)
    with (DOM.Element "Document" docNS [schemaLocation] None []).
  fold docNS. fold doc.
  unfold DOM.createElementNS. cbn [DOM.implementation doc].
  destruct (DOM.qualified_name _ _) as [name|e]; cbn [JS.bind];
    [|reflexivity].
  unfold DOM.build, DOM.bindB at 1, DOM.lift at 1.
  destruct (SepaGroupHeader.toXML _ _) as [hdr|e]; cbn [JS.bind];
    [|reflexivity].
  unfold DOM.bindB at 1. cbn [DOM.appendChild DOM.modify].
  rewrite (forEach_appendChild (fun pi => SepaPaymentInfo.toXML pi doc)).
  destruct (JS.mapM _ _) as [pmtInfs|e]; cbn [JS.bind]; reflexivity.
Qed.

(** What a completed [toXML] has gone through and what it returns. *)
Lemma Document_toXML_inv (d : SepaDocument.t) (doc : DOM.document) :
  snd (SepaDocument.toXML d) = JS.Ok doc ->
  exists name hdr pmtInfs,
    DOM.qualified_name JS.host_dom (SepaDocument._type d) = JS.Ok name
    /\ SepaGroupHeader.toXML
         (SepaDocument.grpHdr (SepaDocument.normalize d)) (document_of d)
       = JS.Ok hdr
    /\ Forall2 (fun pi pmtInf =>
                  SepaPaymentInfo.toXML (SepaPaymentInfo.normalize pi)
                    (document_of d) = JS.Ok pmtInf)
         (SepaDocument._paymentInfo d) pmtInfs
    /\ doc
       = {| DOM.implementation := JS.host_dom;
            DOM.documentElement :=
              DOM.Element "Document"
                ("urn:iso:std:iso:20022:tech:xsd:"
                 ++ SepaDocument._painFormat d)
                [ {| DOM.attr_namespaceURI := Some XSI_NAMESPACE;
                     DOM.attr_name := "xsi:schemaLocation";
                     DOM.attr_value :=
                       XSI_NS ++ SepaDocument._painFormat d ++ " "
                       ++ SepaDocument._painFormat d ++ ".xsd" |} ] None
                [DOM.Element name
                   ("urn:iso:std:iso:20022:tech:xsd:"
                    ++ SepaDocument._painFormat d)
                   [] None (hdr :: pmtInfs)] |}.
Proof.
  rewrite Document_toXML_eq. cbn [snd].
  rewrite EntityFacts.normalize_type, EntityFacts.normalize_painFormat,
    EntityFacts.normalize_paymentInfo.
  fold (document_of d).
  destruct (DOM.qualified_name _ _) as [name|e]; cbn [JS.bind];
    [|discriminate].
  destruct (SepaGroupHeader.toXML _ _) as [hdr|e]; cbn [JS.bind];
    [|discriminate].
  destruct (JS.mapM _ _) as [pmtInfs|e] eqn:Hm; cbn [JS.bind];
    [|discriminate].
  intro H. injection H as <-.
  exists name, hdr, pmtInfs. repeat split.
  apply mapM_Forall2 in Hm.
  clear -Hm. remember (SepaDocument._paymentInfo d) as l eqn:E. clear E.
  revert pmtInfs Hm. induction l as [|pi l IH]; intros pmtInfs Hm;
    inversion Hm; subst; constructor; auto.
Qed.

(** [toXML] completes when the dates are there and the DOM accepts the
    root tag. *)
Lemma Document_toXML_ok (d : SepaDocument.t) (name : string) :
  dates_present d = true ->
  DOM.qualified_name JS.host_dom (SepaDocument._type d) = JS.Ok name ->
  exists doc, snd (SepaDocument.toXML d) = JS.Ok doc.
Proof.
  unfold dates_present. intros Hd Hname.
  apply andb_prop in Hd as [Hc Hb].
  rewrite Document_toXML_eq. cbn [snd].
  rewrite EntityFacts.normalize_type, EntityFacts.normalize_painFormat,
    EntityFacts.normalize_paymentInfo, Hname.
  fold (document_of d). cbn [JS.bind].
  destruct (EntityFacts.normalize_grpHdr d) as (c & n & ->).
  destruct (GroupHeader_toXML_ok
              (SepaGroupHeader.set_sums c n (SepaDocument.grpHdr d))
              (document_of d) Hc) as [hdr ->].
  cbn [JS.bind].
  destruct (mapM_ok (fun pi => SepaPaymentInfo.toXML pi (document_of d))
              (map SepaPaymentInfo.normalize (SepaDocument._paymentInfo d)))
    as [pmtInfs ->].
  - apply Forall_forall.
    intros pi' Hin. apply in_map_iff in Hin as (pi & <- & Hin).
    apply PaymentInfo_toXML_ok.
    rewrite forallb_forall in Hb. exact (Hb pi Hin).
  - cbn [JS.bind]. eexists; reflexivity.
Qed.

End WithHost.
End SerializationFacts.

(** ** Version families *)

Module FamilyFacts.

Ltac no_such_tag :=
  let H := fresh "H" in
  cbn; intro H;
  repeat (destruct H as [H|H]; [discriminate H|]); exact H.

Lemma transaction_tag_cases (pmt : SepaTransaction.t) :
  SepaTransaction.TransactionTypes_value (SepaTransaction._type pmt)
  = "DrctDbtTxInf"
  \/ SepaTransaction.TransactionTypes_value (SepaTransaction._type pmt)
     = "CdtTrfTxInf".
Proof. destruct (SepaTransaction._type pmt); [left | right]; reflexivity. Qed.

(** No transaction element bears one of the three tags that move
    between header and block. *)
Lemma transaction_tags_apart (t : string) (l : list SepaTransaction.t) :
  In t ["BtchBookg"; "NbOfTxs"; "CtrlSum"] ->
  ~ In t (map (fun pmt => SepaTransaction.TransactionTypes_value
                            (SepaTransaction._type pmt)) l).
Proof.
  intros Ht Hin. apply in_map_iff in Hin as (pmt & Heq & _).
  destruct (transaction_tag_cases pmt) as [E|E]; rewrite E in Heq; subst t;
    cbn in Ht; repeat (destruct Ht as [Ht|Ht]; [discriminate Ht|]); exact Ht.
Qed.

Lemma PmtInf_tags_family_3 (pi : SepaPaymentInfo.t) :
  getPainXMLVersion (SepaPaymentInfo._painFormat pi) = JS.num 3 ->
  forall t, In t ["BtchBookg"; "NbOfTxs"; "CtrlSum"] ->
  In t (PmtInf_child_tags pi).
Proof.
  intros Hv t Ht. unfold PmtInf_child_tags. rewrite Hv.
  change (JS.strict_eq (JS.num 3) (JS.num 3)) with true.
  apply in_or_app. right. apply in_or_app. left. exact Ht.
Qed.

Lemma PmtInf_tags_family_2 (pi : SepaPaymentInfo.t) :
  getPainXMLVersion (SepaPaymentInfo._painFormat pi) = JS.num 2 ->
  forall t, In t ["BtchBookg"; "NbOfTxs"; "CtrlSum"] ->
  ~ In t (PmtInf_child_tags pi).
Proof.
  intros Hv t Ht. unfold PmtInf_child_tags. rewrite Hv.
  change (JS.strict_eq (JS.num 2) (JS.num 3)) with false.
  cbn in Ht.
  destruct (SepaPaymentInfo.method pi);
    repeat (destruct Ht as [Ht|Ht]; [subst t; no_such_tag|]);
    destruct Ht.
Qed.

Lemma GrpHdr_tags_family_3 (hdr : SepaGroupHeader.t) :
  getPainXMLVersion (SepaGroupHeader._painFormat hdr) = JS.num 3 ->
  ~ In "BtchBookg" (GrpHdr_child_tags hdr ++ ["Nm"])
  /\ ~ In "Grpg" (GrpHdr_child_tags hdr ++ ["Nm"]).
Proof.
  intro Hv. unfold GrpHdr_child_tags. rewrite Hv.
  change (JS.strict_eq (JS.num 3) (JS.num 2)) with false.
  split; no_such_tag.
Qed.

Lemma GrpHdr_tags_family_2 (hdr : SepaGroupHeader.t) :
  getPainXMLVersion (SepaGroupHeader._painFormat hdr) = JS.num 2 ->
  In "BtchBookg" (GrpHdr_child_tags hdr)
  /\ In "Grpg" (GrpHdr_child_tags hdr).
Proof.
  intro Hv. unfold GrpHdr_child_tags. rewrite Hv.
  change (JS.strict_eq (JS.num 2) (JS.num 2)) with true.
  split; cbn; tauto.
Qed.

(** Every recognized format is of family 2 or of family 3. *)
Lemma recognized_family (painFormat : string) :
  recognized painFormat = true ->
  getPainXMLVersion painFormat = JS.num 2
  \/ getPainXMLVersion painFormat = JS.num 3.
Proof.
  unfold recognized, SEPATypes_own, own_property.
  repeat match goal with
  | |- context [(?k =? painFormat)%string] =>
      destruct (String.eqb_spec k painFormat) as [<-|_];
      [ intros _; vm_compute; auto | ]
  end.
  discriminate.
Qed.

End FamilyFacts.

(* ================================================================== *)
(** * The properties *)
(* ================================================================== *)

(** C1.  For every IBAN skeleton (two letters, two digits holding the
    place of the check value, an alphanumeric body),
    [validateIBAN(checksumIBAN(iban))] is true; in particular
    [checksumIBAN("DE00123456781234567890")] is
    ["DE87123456781234567890"], which [validateIBAN] accepts. *)
Theorem checksumIBAN_validates (iban : string)
    (H : Checksum.iban_skeleton iban = true) :
  Checksum.validateIBAN (Checksum.checksumIBAN iban) = true
  /\ Checksum.checksumIBAN "DE00123456781234567890" = "DE87123456781234567890"
  /\ Checksum.validateIBAN "DE87123456781234567890" = true.
Proof.
  split; [apply ChecksumFacts.validateIBAN_checksumIBAN|].
  by_evaluation.
Qed.

(** C1, witness: the skeleton of a British IBAN. *)
Lemma checksumIBAN_validates_witness :
  Checksum.iban_skeleton "GB00WEST12345698765432" = true
  /\ Checksum.validateIBAN (Checksum.checksumIBAN "GB00WEST12345698765432")
     = true.
Proof.
  split; [reflexivity|].
  exact (proj1 (checksumIBAN_validates "GB00WEST12345698765432" eq_refl)).
Defined.

(** C2.  On every string of decimal digits, of any length, [_txtMod97]
    returns the number the string denotes modulo 97; in particular on
    ["12345678901234567890123456"]. *)
Theorem txtMod97_digits_value (str : string)
    (H : Checksum.all_digits str = true) :
  Checksum._txtMod97 str = JS.num (Checksum.digits_value str mod 97)
  /\ Checksum.digits_value "12345678901234567890123456"
     = 12345678901234567890123456
  /\ Checksum._txtMod97 "12345678901234567890123456"
     = JS.num (12345678901234567890123456 mod 97).
Proof.
  split; [apply ChecksumFacts.txtMod97_digits; exact H|].
  by_evaluation.
Qed.

(** C2, witness: forty-four digits. *)
Lemma txtMod97_digits_value_witness :
  Checksum.all_digits "00000000000000000000000000000000000000000097" = true
  /\ Checksum._txtMod97 "00000000000000000000000000000000000000000097"
     = JS.num (Checksum.digits_value
                 "00000000000000000000000000000000000000000097" mod 97).
Proof.
  split; [reflexivity|].
  exact (proj1 (txtMod97_digits_value
                  "00000000000000000000000000000000000000000097" eq_refl)).
Defined.

(** C3.  Calling [normalize()] twice leaves the header's [controlSum]
    and [transactionCount] as one call leaves them; with one block of
    two transactions of 10.00 and 5.50 they are 15.5 and 2 after one
    call and after two. *)
Theorem normalize_idempotent :
  (forall d : SepaDocument.t,
     let once := SepaDocument.normalize d in
     let twice := SepaDocument.normalize once in
     SepaGroupHeader.controlSum (SepaDocument.grpHdr twice)
     = SepaGroupHeader.controlSum (SepaDocument.grpHdr once)
     /\ SepaGroupHeader.transactionCount (SepaDocument.grpHdr twice)
        = SepaGroupHeader.transactionCount (SepaDocument.grpHdr once))
  /\ exists d,
       Examples.two_transactions "pain.008.001.02" = JS.Ok d
       /\ map (fun pi => map SepaTransaction.amount
                           (SepaPaymentInfo._payments pi))
            (SepaDocument._paymentInfo d) = [[10%float; 5.5%float]]
       /\ (let once := SepaDocument.normalize d in
           SepaGroupHeader.controlSum (SepaDocument.grpHdr once) = 15.5%float
           /\ SepaGroupHeader.transactionCount (SepaDocument.grpHdr once) = 2)
       /\ (let twice := SepaDocument.normalize (SepaDocument.normalize d) in
           SepaGroupHeader.controlSum (SepaDocument.grpHdr twice) = 15.5%float
           /\ SepaGroupHeader.transactionCount (SepaDocument.grpHdr twice) = 2).
Proof.
  split.
  - intros d once twice. subst twice once.
    rewrite EntityFacts.normalize_twice. split; reflexivity.
  - cbv zeta. by_evaluation.
Qed.

(** C4, as the code has it.  A document whose dates are there
    serializes.  The group header follows the family of the header's
    format: in family 3 it holds no [BtchBookg] and no [Grpg] element,
    in family 2 it holds both.  Every [PmtInf] follows the family of its
    own block's format: in family 3 it holds [BtchBookg], [NbOfTxs] and
    [CtrlSum], in family 2 none of the three.  When header and blocks
    carry the format of the document, all of them follow the family of
    the document. *)
Theorem version_family_branching {host : JS.Host} (d : SepaDocument.t)
    (name : string)
    (Hdates : dates_present d = true)
    (Hname : DOM.qualified_name JS.host_dom (SepaDocument._type d)
             = JS.Ok name) :
  exists doc root hdr pmtInfs,
    snd (SepaDocument.toXML d) = JS.Ok doc
    /\ DOM.childNodes (DOM.documentElement doc) = [root]
    /\ DOM.childNodes root = hdr :: pmtInfs
    /\ DOM.tagName hdr = "GrpHdr"
    /\ (getPainXMLVersion (SepaGroupHeader._painFormat (SepaDocument.grpHdr d))
        = JS.num 3 ->
        ~ In "BtchBookg" (descendant_tags hdr)
        /\ ~ In "Grpg" (descendant_tags hdr))
    /\ (getPainXMLVersion (SepaGroupHeader._painFormat (SepaDocument.grpHdr d))
        = JS.num 2 ->
        In "BtchBookg" (child_tags hdr) /\ In "Grpg" (child_tags hdr))
    /\ Forall2
         (fun pi pmtInf =>
            DOM.tagName pmtInf = "PmtInf"
            /\ (getPainXMLVersion (SepaPaymentInfo._painFormat pi) = JS.num 3 ->
                In "BtchBookg" (child_tags pmtInf)
                /\ In "NbOfTxs" (child_tags pmtInf)
                /\ In "CtrlSum" (child_tags pmtInf))
            /\ (getPainXMLVersion (SepaPaymentInfo._painFormat pi) = JS.num 2 ->
                ~ In "BtchBookg" (child_tags pmtInf)
                /\ ~ In "NbOfTxs" (child_tags pmtInf)
                /\ ~ In "CtrlSum" (child_tags pmtInf)))
         (SepaDocument._paymentInfo d) pmtInfs
    /\ (bound_to_format d = true ->
        (getPainXMLVersion (SepaDocument._painFormat d) = JS.num 3 ->
         ~ In "BtchBookg" (descendant_tags hdr)
         /\ ~ In "Grpg" (descendant_tags hdr)
         /\ Forall (fun pmtInf =>
                      In "BtchBookg" (child_tags pmtInf)
                      /\ In "NbOfTxs" (child_tags pmtInf)
                      /\ In "CtrlSum" (child_tags pmtInf)) pmtInfs)
        /\ (getPainXMLVersion (SepaDocument._painFormat d) = JS.num 2 ->
            In "BtchBookg" (child_tags hdr)
            /\ In "Grpg" (child_tags hdr)
            /\ Forall (fun pmtInf =>
                         ~ In "BtchBookg" (child_tags pmtInf)
                         /\ ~ In "NbOfTxs" (child_tags pmtInf)
                         /\ ~ In "CtrlSum" (child_tags pmtInf)) pmtInfs)).
Proof.
  destruct (SerializationFacts.Document_toXML_ok d name Hdates Hname)
    as [doc Hdoc].
  destruct (SerializationFacts.Document_toXML_inv d doc Hdoc)
    as (name' & hdr & pmtInfs & _ & Hhdr & Hpis & ->).
  apply SerializationFacts.GroupHeader_toXML_tags in Hhdr
    as (Hhtag & Hhchild & Hhdesc).
  assert (Hfh : SepaGroupHeader._painFormat
                  (SepaDocument.grpHdr (SepaDocument.normalize d))
                = SepaGroupHeader._painFormat (SepaDocument.grpHdr d)).
  { destruct (EntityFacts.normalize_grpHdr d) as (c & n & ->). reflexivity. }
  assert (Hh3 : getPainXMLVersion
                  (SepaGroupHeader._painFormat (SepaDocument.grpHdr d))
                = JS.num 3 ->
                ~ In "BtchBookg" (descendant_tags hdr)
                /\ ~ In "Grpg" (descendant_tags hdr)).
  { intro Hv. rewrite Hhdesc.
    apply FamilyFacts.GrpHdr_tags_family_3. rewrite Hfh. exact Hv. }
  assert (Hh2 : getPainXMLVersion
                  (SepaGroupHeader._painFormat (SepaDocument.grpHdr d))
                = JS.num 2 ->
                In "BtchBookg" (child_tags hdr) /\ In "Grpg" (child_tags hdr)).
  { intro Hv. rewrite Hhchild.
    apply FamilyFacts.GrpHdr_tags_family_2. rewrite Hfh. exact Hv. }
  assert (Hblocks :
    Forall2
      (fun pi pmtInf =>
         DOM.tagName pmtInf = "PmtInf"
         /\ (getPainXMLVersion (SepaPaymentInfo._painFormat pi) = JS.num 3 ->
             In "BtchBookg" (child_tags pmtInf)
             /\ In "NbOfTxs" (child_tags pmtInf)
             /\ In "CtrlSum" (child_tags pmtInf))
         /\ (getPainXMLVersion (SepaPaymentInfo._painFormat pi) = JS.num 2 ->
             ~ In "BtchBookg" (child_tags pmtInf)
             /\ ~ In "NbOfTxs" (child_tags pmtInf)
             /\ ~ In "CtrlSum" (child_tags pmtInf)))
      (SepaDocument._paymentInfo d) pmtInfs).
  { apply (SerializationFacts.Forall2_impl_In _ _ _ _ Hpis).
    intros pi pmtInf _ Hx.
    apply SerializationFacts.PaymentInfo_toXML_child_tags in Hx as [Ht Hc].
    split; [exact Ht|]. rewrite Hc. split; intro Hv.
    - repeat split; apply in_or_app; left;
        apply (FamilyFacts.PmtInf_tags_family_3
                 (SepaPaymentInfo.normalize pi) Hv); cbn; tauto.
    - repeat split; intro Hin; apply in_app_or in Hin as [Hin|Hin];
        try (revert Hin;
             apply (FamilyFacts.PmtInf_tags_family_2
                      (SepaPaymentInfo.normalize pi) Hv); cbn; tauto);
        (revert Hin; apply FamilyFacts.transaction_tags_apart; cbn; tauto). }
  do 4 eexists.
  split; [exact Hdoc|].
  split; [reflexivity|]. split; [reflexivity|]. split; [exact Hhtag|].
  split; [exact Hh3|]. split; [exact Hh2|]. split; [exact Hblocks|].
  intro Hformat. unfold bound_to_format in Hformat.
  apply andb_prop in Hformat as [Hf Hfp].
  apply String.eqb_eq in Hf. rewrite forallb_forall in Hfp.
  rewrite Hf in Hh3, Hh2.
  assert (Hsame :
    Forall2 (fun pi pmtInf =>
               SepaPaymentInfo._painFormat pi = SepaDocument._painFormat d
               /\ (getPainXMLVersion (SepaPaymentInfo._painFormat pi)
                   = JS.num 3 ->
                   In "BtchBookg" (child_tags pmtInf)
                   /\ In "NbOfTxs" (child_tags pmtInf)
                   /\ In "CtrlSum" (child_tags pmtInf))
               /\ (getPainXMLVersion (SepaPaymentInfo._painFormat pi)
                   = JS.num 2 ->
                   ~ In "BtchBookg" (child_tags pmtInf)
                   /\ ~ In "NbOfTxs" (child_tags pmtInf)
                   /\ ~ In "CtrlSum" (child_tags pmtInf)))
      (SepaDocument._paymentInfo d) pmtInfs).
  { apply (SerializationFacts.Forall2_impl_In _ _ _ _ Hblocks).
    intros pi pmtInf Hin (_ & H3 & H2).
    split; [|split; assumption]. apply String.eqb_eq, Hfp, Hin. }
  split; intro Hv.
  - destruct (Hh3 Hv) as [H1 H2]. split; [exact H1|]. split; [exact H2|].
    clear -Hsame Hv.
    induction Hsame as [|pi pmtInf l l' (Hf & H3 & _)];
      constructor; [|assumption].
    apply H3. rewrite Hf. exact Hv.
  - destruct (Hh2 Hv) as [H1 H2]. split; [exact H1|]. split; [exact H2|].
    clear -Hsame Hv.
    induction Hsame as [|pi pmtInf l l' (Hf & _ & H2)];
      constructor; [|assumption].
    apply H2. rewrite Hf. exact Hv.
Qed.

(** C4, witness: credit transfer documents of family 3 and of family 2
    and a direct debit document of family 3, each with a block of two
    transactions. *)
Lemma version_family_branching_witness :
  (bound_to_format (Examples.document_with_block "pain.001.001.03") = true
   /\ dates_present (Examples.document_with_block "pain.001.001.03") = true
   /\ getPainXMLVersion "pain.001.001.03" = JS.num 3
   /\ exists doc root hdr pmtInfs,
        snd (@SepaDocument.toXML Examples.node_host
               (Examples.document_with_block "pain.001.001.03")) = JS.Ok doc
        /\ DOM.childNodes (DOM.documentElement doc) = [root]
        /\ DOM.childNodes root = hdr :: pmtInfs
        /\ List.length pmtInfs = 1%nat
        /\ ~ In "BtchBookg" (descendant_tags hdr)
        /\ ~ In "Grpg" (descendant_tags hdr)
        /\ Forall (fun pmtInf =>
                     In "BtchBookg" (child_tags pmtInf)
                     /\ In "NbOfTxs" (child_tags pmtInf)
                     /\ In "CtrlSum" (child_tags pmtInf)) pmtInfs)
  /\ (bound_to_format (Examples.document_with_block "pain.001.001.02") = true
      /\ dates_present (Examples.document_with_block "pain.001.001.02") = true
      /\ getPainXMLVersion "pain.001.001.02" = JS.num 2
      /\ exists doc root hdr pmtInfs,
           snd (@SepaDocument.toXML Examples.node_host
                  (Examples.document_with_block "pain.001.001.02"))
           = JS.Ok doc
           /\ DOM.childNodes (DOM.documentElement doc) = [root]
           /\ DOM.childNodes root = hdr :: pmtInfs
           /\ List.length pmtInfs = 1%nat
           /\ In "BtchBookg" (child_tags hdr)
           /\ In "Grpg" (child_tags hdr)
           /\ Forall (fun pmtInf =>
                        ~ In "BtchBookg" (child_tags pmtInf)
                        /\ ~ In "NbOfTxs" (child_tags pmtInf)
                        /\ ~ In "CtrlSum" (child_tags pmtInf)) pmtInfs)
  /\ (bound_to_format (Examples.document_with_block "pain.008.001.02") = true
      /\ dates_present (Examples.document_with_block "pain.008.001.02") = true
      /\ getPainXMLVersion "pain.008.001.02" = JS.num 3
      /\ exists doc root hdr pmtInfs,
           snd (@SepaDocument.toXML Examples.node_host
                  (Examples.document_with_block "pain.008.001.02"))
           = JS.Ok doc
           /\ DOM.childNodes (DOM.documentElement doc) = [root]
           /\ DOM.childNodes root = hdr :: pmtInfs
           /\ List.length pmtInfs = 1%nat
           /\ ~ In "BtchBookg" (descendant_tags hdr)
           /\ ~ In "Grpg" (descendant_tags hdr)
           /\ Forall (fun pmtInf =>
                        In "BtchBookg" (child_tags pmtInf)
                        /\ In "NbOfTxs" (child_tags pmtInf)
                        /\ In "CtrlSum" (child_tags pmtInf)) pmtInfs).
Proof.
  split; [|split].
  - split; [reflexivity|]. split; [reflexivity|]. split; [reflexivity|].
    destruct (@version_family_branching Examples.node_host
                (Examples.document_with_block "pain.001.001.03")
                "CstmrCdtTrfInitn" eq_refl eq_refl)
      as (doc & root & hdr & pmtInfs & H1 & H2 & H3 & _ & _ & _ & H6 & H7).
    exists doc, root, hdr, pmtInfs.
    destruct (proj1 (H7 eq_refl) eq_refl) as (H8 & H9 & H10).
    split; [exact H1|]. split; [exact H2|]. split; [exact H3|].
    split; [symmetry; exact (Forall2_length H6)|].
    split; [exact H8|]. split; [exact H9 | exact H10].
  - split; [reflexivity|]. split; [reflexivity|]. split; [reflexivity|].
    destruct (@version_family_branching Examples.node_host
                (Examples.document_with_block "pain.001.001.02")
                "pain.001.001.02" eq_refl eq_refl)
      as (doc & root & hdr & pmtInfs & H1 & H2 & H3 & _ & _ & _ & H6 & H7).
    exists doc, root, hdr, pmtInfs.
    destruct (proj2 (H7 eq_refl) eq_refl) as (H8 & H9 & H10).
    split; [exact H1|]. split; [exact H2|]. split; [exact H3|].
    split; [symmetry; exact (Forall2_length H6)|].
    split; [exact H8|]. split; [exact H9 | exact H10].
  - split; [reflexivity|]. split; [reflexivity|]. split; [reflexivity|].
    destruct (@version_family_branching Examples.node_host
                (Examples.document_with_block "pain.008.001.02")
                "CstmrDrctDbtInitn" eq_refl eq_refl)
      as (doc & root & hdr & pmtInfs & H1 & H2 & H3 & _ & _ & _ & H6 & H7).
    exists doc, root, hdr, pmtInfs.
    destruct (proj1 (H7 eq_refl) eq_refl) as (H8 & H9 & H10).
    split; [exact H1|]. split; [exact H2|]. split; [exact H3|].
    split; [symmetry; exact (Forall2_length H6)|].
    split; [exact H8|]. split; [exact H9 | exact H10].
Defined.

(** C4, counterexample: a document of family 3 accepts a block of
    family 2, and serializes it without [BtchBookg], [NbOfTxs] and
    [CtrlSum]. *)
Lemma mixed_formats_follow_the_block :
  exists d,
    Examples.mixed_document = JS.Ok d
    /\ getPainXMLVersion (SepaDocument._painFormat d) = JS.num 3
    /\ exists doc root hdr pmtInf,
         snd (@SepaDocument.toXML Examples.node_host d) = JS.Ok doc
         /\ DOM.childNodes (DOM.documentElement doc) = [root]
         /\ DOM.childNodes root = [hdr; pmtInf]
         /\ DOM.tagName pmtInf = "PmtInf"
         /\ child_tags pmtInf
            = ["PmtInfId"; "PmtMtd"; "PmtTpInf"; "ReqdExctnDt"; "Dbtr";
               "DbtrAcct"; "DbtrAgnt"; "ChrgBr"].
Proof.
  eexists. split; [vm_compute; reflexivity|].
  split; [vm_compute; reflexivity|].
  do 4 eexists. split; [vm_compute; reflexivity|].
  split; [vm_compute; reflexivity|].
  split; [vm_compute; reflexivity|].
  split; vm_compute; reflexivity.
Qed.

(** C5.  [checksumCreditorID("DE00ZZZ09999999999")] is
    ["DE98ZZZ09999999999"], which [validateCreditorID] accepts;
    [validateCreditorID] checks [id[7:] + id[0:4]] and
    [checksumCreditorID] computes over [id[7:] + id[0:2] + "00"]. *)
Theorem creditorID_checksum_example :
  Checksum.checksumCreditorID "DE00ZZZ09999999999" = "DE98ZZZ09999999999"
  /\ Checksum.validateCreditorID "DE98ZZZ09999999999" = true
  /\ (forall cid,
        Checksum.validateCreditorID cid
        = JS.strict_eq
            (Checksum._txtMod97
               (Checksum._replaceChars (JS.drop 7 cid ++ JS.take 4 cid)))
            (JS.num 1))
  /\ (forall cid,
        Checksum.checksumCreditorID cid
        = JS.take 2 cid
          ++ Checksum.check_digits
               (Checksum._txtMod97
                  (Checksum._replaceChars
                     (JS.drop 7 cid ++ JS.take 2 cid ++ "00")))
          ++ JS.drop 4 cid).
Proof.
  split; [vm_compute; reflexivity|].
  split; [vm_compute; reflexivity|].
  split; intro cid.
  - unfold Checksum.validateCreditorID.
    rewrite (JSFacts.substr_from cid 7 : JS.substr cid 7 None = _).
    rewrite (JSFacts.substr_prefix cid 4 : JS.substr cid 0 (Some 4) = _).
    reflexivity.
  - unfold Checksum.checksumCreditorID, Checksum.check_digits.
    rewrite (JSFacts.substr_from cid 7 : JS.substr cid 7 None = _).
    rewrite (JSFacts.substr_from cid 4 : JS.substr cid 4 None = _).
    rewrite (JSFacts.substr_prefix cid 2 : JS.substr cid 0 (Some 2) = _).
    reflexivity.
Qed.




(** C7, as the code has it.  A document whose dates are there
    serializes, and the document element carries one attribute, in the
    namespace of XML Schema instances, named [xsi:schemaLocation], with
    the value ["<base-ns><f> <f>.xsd"]: the namespace of the format,
    then the name of its schema file. *)
Theorem schemaLocation_attribute {host : JS.Host} (d : SepaDocument.t)
    (name : string)
    (Hdates : dates_present d = true)
    (Hname : DOM.qualified_name JS.host_dom (SepaDocument._type d)
             = JS.Ok name) :
  exists doc,
    snd (SepaDocument.toXML d) = JS.Ok doc
    /\ DOM.tagName (DOM.documentElement doc) = "Document"
    /\ DOM.attributes (DOM.documentElement doc)
       = [ {| DOM.attr_namespaceURI :=
                Some "http://www.w3.org/2001/XMLSchema-instance";
              DOM.attr_name := "xsi:schemaLocation";
              DOM.attr_value :=
                "urn:iso:std:iso:20022:tech:xsd:"
                ++ SepaDocument._painFormat d ++ " "
                ++ SepaDocument._painFormat d ++ ".xsd" |} ].
Proof.
  destruct (SerializationFacts.Document_toXML_ok d name Hdates Hname)
    as [doc Hdoc].
  destruct (SerializationFacts.Document_toXML_inv d doc Hdoc)
    as (name' & hdr & pmtInfs & _ & _ & _ & ->).
  eexists. split; [exact Hdoc|]. split; reflexivity.
Qed.

(** C7, witness: a direct debit document with a block of two
    transactions. *)
Lemma schemaLocation_attribute_witness :
  exists doc,
    snd (@SepaDocument.toXML Examples.node_host
           (Examples.document_with_block "pain.008.001.02")) = JS.Ok doc
    /\ DOM.tagName (DOM.documentElement doc) = "Document"
    /\ DOM.attributes (DOM.documentElement doc)
       = [ {| DOM.attr_namespaceURI :=
                Some "http://www.w3.org/2001/XMLSchema-instance";
              DOM.attr_name := "xsi:schemaLocation";
              DOM.attr_value :=
                "urn:iso:std:iso:20022:tech:xsd:pain.008.001.02 pain.008.001.02.xsd" |} ].
Proof.
  exact (@schemaLocation_attribute Examples.node_host
           (Examples.document_with_block "pain.008.001.02")
           "CstmrDrctDbtInitn" eq_refl eq_refl).
Defined.

(** C7, counterexample: for the format pain.008.001.02 the attribute
    is not the string the specification describes, with or without the
    space it puts after the first [<base-ns>]. *)
Lemma schemaLocation_not_as_specified :
  exists doc a,
    snd (@SepaDocument.toXML Examples.node_host
           (Examples.doc_MSG1 "pain.008.001.02")) = JS.Ok doc
    /\ DOM.attributes (DOM.documentElement doc) = [a]
    /\ DOM.attr_value a
       = "urn:iso:std:iso:20022:tech:xsd:pain.008.001.02 pain.008.001.02.xsd"
    /\ schemaLocation_as_specified "pain.008.001.02"
       = "urn:iso:std:iso:20022:tech:xsd: pain.008.001.02 urn:iso:std:iso:20022:tech:xsd:pain.008.001.02.xsd"
    /\ (DOM.attr_value a =? schemaLocation_as_specified "pain.008.001.02")%string
       = false
    /\ (DOM.attr_value a
        =? XSI_NS ++ "pain.008.001.02" ++ " "
           ++ XSI_NS ++ "pain.008.001.02" ++ ".xsd")%string
       = false.
Proof. by_evaluation. Qed.

(** C8, where the code departs from it.  A credit transfer whose
    creditor has street, city and country, and whose debtor has none,
    is serialized with a postal address under [Cdtr] whose [Ctry] and
    [AdrLine] elements hold the debtor's fields ([null]), not the
    creditor's. *)
Theorem transfer_address_holds_debtor_fields :
  let pmt := Examples.transfer_with_creditor_address in
  SepaTransaction._type pmt = SepaTransaction.Transfer
  /\ (SepaTransaction.creditorCountry pmt, SepaTransaction.creditorStreet pmt,
      SepaTransaction.creditorCity pmt)
     = (JS.VStr "DE", JS.VStr "Main Street 1", JS.VStr "Berlin")
  /\ (SepaTransaction.debtorCountry pmt, SepaTransaction.debtorStreet pmt,
      SepaTransaction.debtorCity pmt)
     = (JS.VNull, JS.VNull, JS.VNull)
  /\ exists txInf cdtr pstlAdr,
       @SepaTransaction.toXML Examples.node_host pmt
         (Examples.dom_document "pain.001.001.03") = JS.Ok txInf
       /\ child "Cdtr" txInf = Some cdtr
       /\ child "PstlAdr" cdtr = Some pstlAdr
       /\ map leaf (DOM.childNodes pstlAdr)
          = [("Ctry", Some JS.VNull); ("AdrLine", Some JS.VNull);
             ("AdrLine", Some JS.VNull)].
Proof.
  cbv zeta. by_evaluation.
Qed.

(** C9, as the code has it.  A block added to a document is renamed
    to the header id, the separator and then its explicit id or, for
    want of one, its insertion index; no bound on the length is
    enforced.  With header id "MSG1" and separator ".", the first
    block added without an id is "MSG1.0", and the first transaction
    added to that block without an id is "MSG1.0.0". *)
Theorem addPaymentInfo_assigns_id :
  (forall (st : module_state) (this : SepaDocument.t)
          (pi : SepaPaymentInfo.t),
     exists this' pi',
       SepaDocument.addPaymentInfo st this (JS.Instance pi) = JS.Ok this'
       /\ SepaDocument._paymentInfo this'
          = (SepaDocument._paymentInfo this ++ [pi'])%list
       /\ SepaPaymentInfo.id pi'
          = SepaGroupHeader.id (SepaDocument.grpHdr this)
            ++ ID_SEPARATOR st
            ++ (if (SepaPaymentInfo.id pi =? "")%string
                then JS.toString
                       (JS.num (Z.of_nat
                          (List.length (SepaDocument._paymentInfo this))))
                else SepaPaymentInfo.id pi))
  /\ exists doc pi pi' pmt,
       let empty := Examples.doc_MSG1 "pain.008.001.02" in
       SepaDocument.addPaymentInfo initial_state empty
         (JS.Instance (SepaDocument.createPaymentInfo empty)) = JS.Ok doc
       /\ SepaDocument._paymentInfo doc = [pi]
       /\ SepaPaymentInfo.id pi = "MSG1.0"
       /\ SepaPaymentInfo.addTransaction initial_state pi
            (JS.Instance (SepaPaymentInfo.createTransaction pi)) = JS.Ok pi'
       /\ SepaPaymentInfo._payments pi' = [pmt]
       /\ SepaTransaction.id pmt = "MSG1.0.0".
Proof.
  split.
  - intros st this pi. unfold SepaDocument.addPaymentInfo.
    do 2 eexists. split; [reflexivity|]. cbn [SepaDocument._paymentInfo].
    split; [reflexivity|].
    unfold JS.truthy. destruct (SepaPaymentInfo.id pi =? "")%string;
      reflexivity.
  - cbv zeta. by_evaluation.
Qed.

(** C9, counterexample: a block whose explicit id has forty characters
    is stored under an id of forty-five. *)
Lemma batch_id_longer_than_35 :
  exists doc pi,
    SepaDocument.addPaymentInfo initial_state
      (Examples.doc_MSG1 "pain.008.001.02")
      (JS.Instance Examples.batch_with_long_id) = JS.Ok doc
    /\ SepaDocument._paymentInfo doc = [pi]
    /\ SepaPaymentInfo.id pi
       = "MSG1.0123456789012345678901234567890123456789"
    /\ (35 <? JS.length (SepaPaymentInfo.id pi)) = true.
Proof. by_evaluation. Qed.

(** C10.  [addTransaction] stores a transaction that comes with a
    non-empty id under the first 35 characters of that id: the id of the
    block is not prepended, and a longer id is cut, not refused. *)
Theorem addTransaction_explicit_id (st : module_state)
    (this : SepaPaymentInfo.t) (pmt : SepaTransaction.t)
    (H : SepaTransaction.id pmt <> "") :
  exists this' pmt',
    SepaPaymentInfo.addTransaction st this (JS.Instance pmt) = JS.Ok this'
    /\ SepaPaymentInfo._payments this'
       = (SepaPaymentInfo._payments this ++ [pmt'])%list
    /\ SepaTransaction.id pmt' = String.substring 0 35 (SepaTransaction.id pmt)
    /\ (String.length (SepaTransaction.id pmt') <= 35)%nat.
Proof.
  unfold SepaPaymentInfo.addTransaction.
  do 2 eexists. split; [reflexivity|]. cbn [SepaPaymentInfo._payments
    SepaPaymentInfo.set_payments SepaPaymentInfo.update].
  split; [reflexivity|].
  cbn [SepaTransaction.id SepaTransaction.set_id].
  assert (Ht : JS.truthy (SepaTransaction.id pmt) = true).
  { unfold JS.truthy. destruct (String.eqb_spec (SepaTransaction.id pmt) "");
      [contradiction | reflexivity]. }
  rewrite Ht.
  rewrite (JSFacts.slice_prefix _ 35 : JS.slice _ 0 35 = _).
  rewrite JSFacts.take_substring. split; [reflexivity|].
  rewrite <- JSFacts.take_substring, JSFacts.length_take. lia.
Qed.

(** C10, witness: an id of forty characters is stored as its first
    thirty-five. *)
Lemma addTransaction_explicit_id_witness :
  exists this' pmt',
    SepaPaymentInfo.addTransaction initial_state
      (SepaPaymentInfo.set_id "MSG1.0" (SepaPaymentInfo.new "pain.008.001.02"))
      (JS.Instance Examples.transaction_with_long_id) = JS.Ok this'
    /\ SepaPaymentInfo._payments this' = [pmt']
    /\ SepaTransaction.id pmt' = "01234567890123456789012345678901234"
    /\ (String.length (SepaTransaction.id pmt') <= 35)%nat.
Proof.
  exact (addTransaction_explicit_id initial_state
           (SepaPaymentInfo.set_id "MSG1.0"
              (SepaPaymentInfo.new "pain.008.001.02"))
           Examples.transaction_with_long_id
           ltac:(discriminate)).
Defined.

(* ================================================================== *)
(** * Further properties of the checksum functions *)
(* ================================================================== *)

Module MoreChecksumFacts.

Import Checksum.

Lemma capitals_append (a b : string) :
  capitals (a ++ b) = capitals a ++ capitals b.
Proof. induction a as [|c a IH]; simpl; [reflexivity | now rewrite IH]. Qed.

Lemma capitals_take (n : nat) (s : string) :
  capitals (JS.take n s) = JS.take n (capitals s).
Proof.
  revert n; induction s as [|c s IH]; intros [|n]; simpl; try reflexivity.
  now rewrite IH.
Qed.

Lemma capitals_drop (n : nat) (s : string) :
  capitals (JS.drop n s) = JS.drop n (capitals s).
Proof.
  revert n; induction s as [|c s IH]; intros [|n]; simpl; try reflexivity.
  apply IH.
Qed.

Lemma capitals_digits (s : string) :
  all_digits s = true -> capitals s = s.
Proof.
  induction s as [|c s IH]; [reflexivity|].
  simpl. intro H. apply andb_prop in H as [Hc Hs]. rewrite (IH Hs). f_equal.
  revert Hc. ChecksumFacts.each_code_unit c; vm_compute; intro H;
    (reflexivity || discriminate).
Qed.

Lemma replaceChars_capital (c : ascii) :
  _replaceChars (String (capital c) "") = _replaceChars (String c "").
Proof. ChecksumFacts.each_code_unit c; vm_compute; reflexivity. Qed.

Lemma replaceChars_capitals (s : string) :
  _replaceChars (capitals s) = _replaceChars s.
Proof.
  induction s as [|c s IH]; [reflexivity|]. simpl.
  rewrite ChecksumFacts.replaceChars_cons, IH, replaceChars_capital.
  symmetry. apply ChecksumFacts.replaceChars_cons.
Qed.

Lemma replaceChars_unit_dropped (c : ascii) :
  (is_letter c || JS.is_digit c) = false -> _replaceChars (String c "") = "".
Proof.
  ChecksumFacts.each_code_unit c; vm_compute; intro H;
    (reflexivity || discriminate).
Qed.

Lemma replaceChars_alnum_only (s : string) :
  _replaceChars (alnum_only s) = _replaceChars s.
Proof.
  induction s as [|c s IH]; [reflexivity|]. simpl.
  rewrite (ChecksumFacts.replaceChars_cons c s).
  destruct (is_letter c || JS.is_digit c) eqn:E.
  - rewrite ChecksumFacts.replaceChars_cons, IH. reflexivity.
  - rewrite (replaceChars_unit_dropped c E), IH. reflexivity.
Qed.

(** The remainder both validators compare with 1 and both checksum
    functions subtract from 98 is a number from 0 to 96. *)
Lemma txtMod97_replaceChars (s : string) :
  _txtMod97 (_replaceChars s)
  = Some (digits_value (_replaceChars s) mod 97).
Proof.
  apply ChecksumFacts.txtMod97_digits, ChecksumFacts.replaceChars_all_digits.
Qed.

(** [validateIBAN] on a string split after its fourth code unit. *)
Lemma validateIBAN_split (head body : string) :
  String.length head = 4%nat ->
  validateIBAN (head ++ body)
  = JS.strict_eq (_txtMod97 (_replaceChars body ++ _replaceChars head))
      (JS.num 1).
Proof.
  intro H. unfold validateIBAN.
  rewrite (JSFacts.substr_from _ 4 : JS.substr _ 4 None = _).
  rewrite (JSFacts.substr_prefix _ 4 : JS.substr _ 0 (Some 4) = _).
  rewrite <- H, JSFacts.drop_append_exact, JSFacts.take_append_exact.
  rewrite ChecksumFacts.replaceChars_append. reflexivity.
Qed.

Lemma drop_drop (a b : nat) (s : string) :
  JS.drop a (JS.drop b s) = JS.drop (b + a) s.
Proof.
  revert b; induction s as [|c s IH]; intros [|b]; simpl.
  - now destruct a.
  - now destruct a.
  - reflexivity.
  - apply IH.
Qed.

Lemma drop_append_length (n : nat) (a b : string) :
  String.length a = n -> JS.drop n (a ++ b) = b.
Proof. intros <-. apply JSFacts.drop_append_exact. Qed.

Lemma take_append_length (n : nat) (a b : string) :
  String.length a = n -> JS.take n (a ++ b) = a.
Proof. intros <-. apply JSFacts.take_append_exact. Qed.

Lemma append_inj_l (a b c : string) : a ++ b = a ++ c -> b = c.
Proof.
  induction a as [|x a IH]; simpl; intro H; [exact H|].
  injection H. exact IH.
Qed.

Lemma append_inj_length (a a' b b' : string) :
  String.length a = String.length a' -> a ++ b = a' ++ b' -> a = a' /\ b = b'.
Proof.
  revert a'. induction a as [|x a IH]; intros [|x' a'] Hl H; simpl in *;
    try discriminate.
  - auto.
  - injection H as -> H. injection Hl as Hl.
    destruct (IH a' Hl H) as [-> ->]. auto.
Qed.

(** Where the parts of a checksummed creditor identifier end up when its
    first four code units are moved behind what follows the seventh. *)
Lemma rotation_of_creditor_checksum (cid chk : string) :
  String.length chk = 2%nat ->
  let res := JS.take 2 cid ++ chk ++ JS.drop 4 cid in
  JS.drop 7 res ++ JS.take 4 res = JS.drop 7 cid ++ JS.take 2 cid ++ chk.
Proof.
  intros Hchk res. subst res.
  destruct (Nat.le_gt_cases 2 (String.length cid)) as [Hlen|Hlen].
  - assert (H4 : String.length (JS.take 2 cid ++ chk) = 4%nat).
    { rewrite JSFacts.length_append, JSFacts.length_take, Hchk. lia. }
    rewrite <- JSFacts.append_assoc.
    rewrite (take_append_length 4 _ _ H4).
    change 7%nat with (4 + 3)%nat. rewrite <- (drop_drop 3 4).
    rewrite (drop_append_length 4 _ _ H4), drop_drop. reflexivity.
  - rewrite (JSFacts.drop_all 4 cid), (JSFacts.drop_all 7 cid) by lia.
    rewrite JSFacts.append_nil_r.
    assert (H4 : (String.length (JS.take 2 cid ++ chk) <= 4)%nat).
    { rewrite JSFacts.length_append, JSFacts.length_take, Hchk. lia. }
    rewrite JSFacts.drop_all, JSFacts.take_all by lia.
    reflexivity.
Qed.

Lemma checksumCreditorID_eq (cid : string) :
  checksumCreditorID cid
  = JS.take 2 cid
    ++ check_digits
         (Some ((digits_value (_replaceChars (JS.drop 7 cid ++ JS.take 2 cid))
                 * 10 ^ 2 + 0) mod 97))
    ++ JS.drop 4 cid.
Proof.
  unfold checksumCreditorID, check_digits.
  rewrite (JSFacts.substr_from cid 7 : JS.substr cid 7 None = _).
  rewrite (JSFacts.substr_from cid 4 : JS.substr cid 4 None = _).
  rewrite (JSFacts.substr_prefix cid 2 : JS.substr cid 0 (Some 2) = _).
  set (body := JS.drop 7 cid). set (cc := JS.take 2 cid).
  rewrite <- (JSFacts.append_assoc body cc "00"),
    ChecksumFacts.replaceChars_append.
  rewrite ChecksumFacts.txtMod97_digits, ChecksumFacts.digits_value_append.
  - reflexivity.
  - rewrite ChecksumFacts.all_digits_append,
      ChecksumFacts.replaceChars_all_digits. reflexivity.
Qed.

Lemma validateCreditorID_eq (cid chk : string) :
  String.length chk = 2%nat -> all_digits chk = true ->
  validateCreditorID (JS.take 2 cid ++ chk ++ JS.drop 4 cid)
  = JS.strict_eq
      (Some ((digits_value (_replaceChars (JS.drop 7 cid ++ JS.take 2 cid))
              * 10 ^ 2 + digits_value chk) mod 97))
      (JS.num 1).
Proof.
  intros Hlen Hdig. unfold validateCreditorID.
  rewrite (JSFacts.substr_from _ 7 : JS.substr _ 7 None = _).
  rewrite (JSFacts.substr_prefix _ 4 : JS.substr _ 0 (Some 4) = _).
  rewrite rotation_of_creditor_checksum by exact Hlen.
  set (body := JS.drop 7 cid). set (cc := JS.take 2 cid).
  rewrite <- (JSFacts.append_assoc body cc chk),
    ChecksumFacts.replaceChars_append.
  rewrite (ChecksumFacts.replaceChars_digits _ Hdig).
  rewrite ChecksumFacts.txtMod97_digits, ChecksumFacts.digits_value_append,
    Hlen.
  - reflexivity.
  - rewrite ChecksumFacts.all_digits_append,
      ChecksumFacts.replaceChars_all_digits, Hdig. reflexivity.
Qed.

(** Two strings of two digits that denote the same number are the same
    string. *)
Lemma two_digits_inj (d d' : string) :
  String.length d = 2%nat -> String.length d' = 2%nat ->
  all_digits d = true -> all_digits d' = true ->
  digits_value d = digits_value d' -> d = d'.
Proof.
  destruct d as [|a [|b [|? ?]]]; try discriminate.
  destruct d' as [|a' [|b' [|? ?]]]; try discriminate.
  intros _ _ H H'. cbn in H, H'.
  rewrite andb_true_r in H, H'.
  apply andb_prop in H as [Ha Hb]. apply andb_prop in H' as [Ha' Hb'].
  destruct (ChecksumFacts.parseInt_digit a Ha) as [_ Ra].
  destruct (ChecksumFacts.parseInt_digit b Hb) as [_ Rb].
  destruct (ChecksumFacts.parseInt_digit a' Ha') as [_ Ra'].
  destruct (ChecksumFacts.parseInt_digit b' Hb') as [_ Rb'].
  cbn [digits_value String.length]. change (10 ^ Z.of_nat 1) with 10.
  change (10 ^ Z.of_nat 0) with 1. intro Hv.
  assert (Ea : JS.charCode a = JS.charCode a') by lia.
  assert (Eb : JS.charCode b = JS.charCode b') by lia.
  unfold JS.charCode in Ea, Eb.
  apply Nat2Z.inj in Ea, Eb.
  rewrite <- (ascii_nat_embedding a), <- (ascii_nat_embedding a'), Ea.
  rewrite <- (ascii_nat_embedding b), <- (ascii_nat_embedding b'), Eb.
  reflexivity.
Qed.

(** [checksumIBAN] on a string split after its second and its fourth
    code unit. *)
Lemma checksumIBAN_split (cc d body : string) :
  String.length cc = 2%nat -> String.length d = 2%nat ->
  checksumIBAN (cc ++ d ++ body)
  = cc ++ check_digits
            (Some ((digits_value (_replaceChars (body ++ cc)) * 10 ^ 2 + 0)
                   mod 97))
       ++ body.
Proof.
  intros Hc Hd. rewrite ChecksumFacts.checksumIBAN_eq.
  rewrite (take_append_length 2 cc _ Hc).
  assert (H4 : String.length (cc ++ d) = 4%nat)
    by (rewrite JSFacts.length_append; lia).
  rewrite <- (JSFacts.append_assoc cc d body).
  rewrite (drop_append_length 4 _ _ H4). reflexivity.
Qed.

Lemma validateIBAN_digits (cc d body : string) :
  String.length cc = 2%nat -> String.length d = 2%nat ->
  all_digits d = true ->
  validateIBAN (cc ++ d ++ body)
  = ((digits_value (_replaceChars (body ++ cc)) * 10 ^ 2 + digits_value d)
     mod 97 =? 1).
Proof.
  intros Hc Hd Hdig.
  assert (H4 : String.length (cc ++ d) = 4%nat)
    by (rewrite JSFacts.length_append; lia).
  pose proof (ChecksumFacts.validateIBAN_eq (cc ++ d ++ body) d Hd Hdig) as H.
  rewrite (take_append_length 2 cc _ Hc) in H.
  rewrite <- (JSFacts.append_assoc cc d body) in H.
  rewrite (drop_append_length 4 _ _ H4) in H.
  rewrite H. reflexivity.
Qed.

Lemma parseInt_nondigit (c : ascii) :
  JS.is_digit c = false -> JS.parseInt (String c "") = None.
Proof.
  ChecksumFacts.each_code_unit c; vm_compute; intro H;
    (reflexivity || discriminate).
Qed.

Lemma txtMod97_loop_NaN (str : string) :
  _txtMod97_loop str None = None.
Proof. induction str as [|c str IH]; [reflexivity | exact IH]. Qed.

Lemma txtMod97_loop_nondigit (str : string) (a : Z) :
  all_digits str = false -> 0 <= a < 97 ->
  _txtMod97_loop str (Some a) = None.
Proof.
  revert a. induction str as [|c str IH]; intros a H Ha; [discriminate|].
  cbn [all_digits] in H. cbn [_txtMod97_loop].
  destruct (JS.is_digit c) eqn:Hc.
  - destruct (ChecksumFacts.parseInt_digit c Hc) as [-> Hr].
    cbn [JS.rem JS.add JS.mul JS.lift2 JS.num].
    change (97 =? 0) with false. cbv iota.
    rewrite Z.rem_mod_nonneg by lia.
    apply IH; [exact H | apply Z.mod_pos_bound; lia].
  - rewrite (parseInt_nondigit c Hc). apply txtMod97_loop_NaN.
Qed.

Lemma check_digits_of_mod (x : Z) :
  let chk := check_digits (Some ((x * 10 ^ 2 + 0) mod 97)) in
  String.length chk = 2%nat /\ all_digits chk = true
  /\ 2 <= digits_value chk <= 98
  /\ (x * 10 ^ 2 + digits_value chk) mod 97 = 1.
Proof.
  intro chk. subst chk.
  set (m := (x * 10 ^ 2 + 0) mod 97).
  assert (Hm : 0 <= m < 97) by (apply Z.mod_pos_bound; lia).
  destruct (ChecksumFacts.check_digits_spec m Hm) as (H1 & H2 & H3).
  repeat split; try assumption; try lia.
  rewrite H3. unfold m. apply ChecksumFacts.check_value_mod97.
Qed.

End MoreChecksumFacts.

(** X1.  [validateCreditorID(checksumCreditorID(cid))] is true for every
    string [cid]. *)
Theorem creditorID_round_trip (cid : string) :
  Checksum.validateCreditorID (Checksum.checksumCreditorID cid) = true.
Proof.
  rewrite MoreChecksumFacts.checksumCreditorID_eq.
  set (x := Checksum.digits_value _).
  destruct (MoreChecksumFacts.check_digits_of_mod x)
    as (Hlen & Hdig & _ & Hval).
  rewrite MoreChecksumFacts.validateCreditorID_eq by assumption.
  fold x. change (Z.of_nat 2) with 2 in *. rewrite Hval. reflexivity.
Qed.

(** X2.  The three code units after the fourth (the business code of a
    creditor identifier) take no part in the check: [validateCreditorID]
    gives the same answer whatever they are, and [checksumCreditorID]
    computes the same check digits and leaves them in place. *)
Theorem creditorID_business_code_ignored (head code code' rest : string)
    (Hhead : String.length head = 4%nat)
    (Hcode : String.length code = 3%nat)
    (Hcode' : String.length code' = 3%nat) :
  Checksum.validateCreditorID (head ++ code ++ rest)
  = Checksum.validateCreditorID (head ++ code' ++ rest)
  /\ exists chk,
       Checksum.checksumCreditorID (head ++ code ++ rest)
       = JS.take 2 head ++ chk ++ code ++ rest
       /\ Checksum.checksumCreditorID (head ++ code' ++ rest)
          = JS.take 2 head ++ chk ++ code' ++ rest.
Proof.
  assert (Hparts : forall c, String.length c = 3%nat ->
            JS.drop 7 (head ++ c ++ rest) = rest
            /\ JS.take 4 (head ++ c ++ rest) = head
            /\ JS.drop 4 (head ++ c ++ rest) = c ++ rest
            /\ JS.take 2 (head ++ c ++ rest) = JS.take 2 head).
  { intros c Hc. repeat split.
    - change 7%nat with (4 + 3)%nat.
      rewrite <- (MoreChecksumFacts.drop_drop 3 4).
      rewrite (MoreChecksumFacts.drop_append_length 4 _ _ Hhead).
      apply MoreChecksumFacts.drop_append_length, Hc.
    - apply MoreChecksumFacts.take_append_length, Hhead.
    - apply MoreChecksumFacts.drop_append_length, Hhead.
    - destruct head as [|a [|b h]]; try discriminate. reflexivity. }
  destruct (Hparts code Hcode) as (D7 & T4 & D4 & T2).
  destruct (Hparts code' Hcode') as (D7' & T4' & D4' & T2').
  split.
  - unfold Checksum.validateCreditorID.
    rewrite !(JSFacts.substr_from _ 7 : JS.substr _ 7 None = _).
    rewrite !(JSFacts.substr_prefix _ 4 : JS.substr _ 0 (Some 4) = _).
    rewrite D7, T4, D7', T4'. reflexivity.
  - eexists. rewrite !MoreChecksumFacts.checksumCreditorID_eq.
    rewrite D7, D4, T2, D7', D4', T2'. split; reflexivity.
Qed.

(** X2, witness: the identifier DE98ZZZ09999999999 and the business code
    ABC. *)
Lemma creditorID_business_code_ignored_witness :
  Checksum.validateCreditorID ("DE98" ++ "ZZZ" ++ "09999999999")
  = Checksum.validateCreditorID ("DE98" ++ "ABC" ++ "09999999999")
  /\ exists chk,
       Checksum.checksumCreditorID ("DE98" ++ "ZZZ" ++ "09999999999")
       = JS.take 2 "DE98" ++ chk ++ "ZZZ" ++ "09999999999"
       /\ Checksum.checksumCreditorID ("DE98" ++ "ABC" ++ "09999999999")
          = JS.take 2 "DE98" ++ chk ++ "ABC" ++ "09999999999".
Proof.
  exact (creditorID_business_code_ignored "DE98" "ZZZ" "ABC" "09999999999"
           eq_refl eq_refl eq_refl).
Defined.

(** X3.  [_replaceChars] returns decimal digits only, whatever it is
    given; it returns a string of digits unchanged, so that applying it
    twice is applying it once; code units that are neither letters nor
    digits leave no trace in its result, and a small letter gives what
    its capital gives. *)
Theorem replaceChars_digits_only (str : string) :
  Checksum.all_digits (Checksum._replaceChars str) = true
  /\ Checksum._replaceChars (Checksum._replaceChars str)
     = Checksum._replaceChars str
  /\ Checksum._replaceChars (alnum_only str) = Checksum._replaceChars str
  /\ Checksum._replaceChars (capitals str) = Checksum._replaceChars str.
Proof.
  split; [apply ChecksumFacts.replaceChars_all_digits|].
  split; [apply ChecksumFacts.replaceChars_digits,
            ChecksumFacts.replaceChars_all_digits|].
  split; [apply MoreChecksumFacts.replaceChars_alnum_only
         | apply MoreChecksumFacts.replaceChars_capitals].
Qed.

(** X4.  [_txtMod97] returns a number from 0 to 96 on a string of
    decimal digits (0 on the empty string) and [NaN] on every string
    that holds anything else; on what [_replaceChars] returns it is
    never [NaN]. *)
Theorem txtMod97_number_or_NaN (str : string) :
  (if Checksum.all_digits str
   then exists r, Checksum._txtMod97 str = JS.num r /\ 0 <= r < 97
   else Checksum._txtMod97 str = JS.NaN)
  /\ Checksum._txtMod97 "" = JS.num 0
  /\ exists r,
       Checksum._txtMod97 (Checksum._replaceChars str) = JS.num r
       /\ 0 <= r < 97.
Proof.
  split; [|split; [reflexivity|]].
  - destruct (Checksum.all_digits str) eqn:H.
    + rewrite (ChecksumFacts.txtMod97_digits str H).
      eexists; split; [reflexivity|]. apply Z.mod_pos_bound. lia.
    + apply MoreChecksumFacts.txtMod97_loop_nondigit; [exact H | lia].
  - rewrite MoreChecksumFacts.txtMod97_replaceChars.
    eexists; split; [reflexivity|]. apply Z.mod_pos_bound. lia.
Qed.

(** X5.  The four exported functions make no difference between a small
    letter and its capital: the validators give the same answer, and the
    checksum functions compute the same check digits. *)
Theorem checksums_ignore_case (s : string) :
  Checksum.validateIBAN (capitals s) = Checksum.validateIBAN s
  /\ Checksum.validateCreditorID (capitals s) = Checksum.validateCreditorID s
  /\ Checksum.checksumIBAN (capitals s) = capitals (Checksum.checksumIBAN s)
  /\ Checksum.checksumCreditorID (capitals s)
     = capitals (Checksum.checksumCreditorID s).
Proof.
  assert (Hrot : forall a b c,
            Checksum._replaceChars
              (JS.drop a (capitals s) ++ JS.take b (capitals s) ++ c)
            = Checksum._replaceChars (JS.drop a s ++ JS.take b s ++ c)).
  { intros a b c.
    rewrite <- MoreChecksumFacts.capitals_drop,
      <- MoreChecksumFacts.capitals_take.
    rewrite !ChecksumFacts.replaceChars_append,
      !MoreChecksumFacts.replaceChars_capitals.
    reflexivity. }
  assert (Hchk : forall x,
            capitals (Checksum.check_digits (Some ((x * 10 ^ 2 + 0) mod 97)))
            = Checksum.check_digits (Some ((x * 10 ^ 2 + 0) mod 97))).
  { intro x. apply MoreChecksumFacts.capitals_digits.
    apply (MoreChecksumFacts.check_digits_of_mod x). }
  split; [|split; [|split]].
  - unfold Checksum.validateIBAN.
    rewrite !(JSFacts.substr_from _ 4 : JS.substr _ 4 None = _).
    rewrite !(JSFacts.substr_prefix _ 4 : JS.substr _ 0 (Some 4) = _).
    rewrite <- (JSFacts.append_nil_r (JS.take 4 (capitals s))).
    rewrite <- (JSFacts.append_nil_r (JS.take 4 s)).
    rewrite Hrot. reflexivity.
  - unfold Checksum.validateCreditorID.
    rewrite !(JSFacts.substr_from _ 7 : JS.substr _ 7 None = _).
    rewrite !(JSFacts.substr_prefix _ 4 : JS.substr _ 0 (Some 4) = _).
    rewrite <- (JSFacts.append_nil_r (JS.take 4 (capitals s))).
    rewrite <- (JSFacts.append_nil_r (JS.take 4 s)).
    rewrite Hrot. reflexivity.
  - rewrite !ChecksumFacts.checksumIBAN_eq.
    rewrite !MoreChecksumFacts.capitals_append, Hchk.
    rewrite <- (JSFacts.append_nil_r (JS.take 2 (capitals s))) at 2.
    rewrite Hrot, JSFacts.append_nil_r.
    rewrite MoreChecksumFacts.capitals_take, MoreChecksumFacts.capitals_drop.
    reflexivity.
  - rewrite !MoreChecksumFacts.checksumCreditorID_eq.
    rewrite !MoreChecksumFacts.capitals_append, Hchk.
    rewrite <- (JSFacts.append_nil_r (JS.take 2 (capitals s))) at 2.
    rewrite Hrot, JSFacts.append_nil_r.
    rewrite MoreChecksumFacts.capitals_take, MoreChecksumFacts.capitals_drop.
    reflexivity.
Qed.

(** X6.  After the fourth code unit, [validateIBAN] sees letters and
    digits only: spaces and other separators there change nothing. *)
Theorem validateIBAN_ignores_separators (head body : string)
    (Hhead : String.length head = 4%nat) :
  Checksum.validateIBAN (head ++ body)
  = Checksum.validateIBAN (head ++ alnum_only body).
Proof.
  rewrite !MoreChecksumFacts.validateIBAN_split by exact Hhead.
  rewrite MoreChecksumFacts.replaceChars_alnum_only. reflexivity.
Qed.

(** X6, witness: an IBAN printed in groups of four. *)
Lemma validateIBAN_ignores_separators_witness :
  Checksum.validateIBAN ("DE87" ++ " 1234 5678 1234 5678 90")
  = Checksum.validateIBAN ("DE87" ++ alnum_only " 1234 5678 1234 5678 90").
Proof.
  exact (validateIBAN_ignores_separators "DE87" " 1234 5678 1234 5678 90"
           eq_refl).
Defined.

(** X7.  An identifier whose third and fourth code units are two digits
    denoting a number from 2 to 98 passes [validateIBAN] exactly when
    [checksumIBAN] returns it unchanged: among these check values the
    one [checksumIBAN] computes is the only one accepted. *)
Theorem validateIBAN_iff_checksum_fixed (cc d body : string)
    (Hcc : String.length cc = 2%nat)
    (Hd : String.length d = 2%nat)
    (Hdigits : Checksum.all_digits d = true)
    (Hrange : 2 <= Checksum.digits_value d <= 98) :
  Checksum.validateIBAN (cc ++ d ++ body) = true
  <-> Checksum.checksumIBAN (cc ++ d ++ body) = cc ++ d ++ body.
Proof.
  rewrite (MoreChecksumFacts.checksumIBAN_split cc d body Hcc Hd).
  rewrite (MoreChecksumFacts.validateIBAN_digits cc d body Hcc Hd Hdigits).
  set (x := Checksum.digits_value _).
  destruct (MoreChecksumFacts.check_digits_of_mod x)
    as (Hlen & Hdig & Hr & Hval).
  set (chk := Checksum.check_digits _) in *.
  rewrite Z.eqb_eq. split.
  - intro H. do 2 f_equal.
    apply MoreChecksumFacts.two_digits_inj; try assumption.
    set (v := Checksum.digits_value d) in *.
    set (w := Checksum.digits_value chk) in *.
    assert (E : (v - w) mod 97 = 0).
    { replace (v - w) with ((x * 10 ^ 2 + v) - (x * 10 ^ 2 + w)) by ring.
      rewrite Zminus_mod, H, Hval. reflexivity. }
    apply Z.mod_divide in E; [|lia]. destruct E as [k E]. lia.
  - intro H. apply MoreChecksumFacts.append_inj_l in H.
    apply MoreChecksumFacts.append_inj_length in H as [<- _]; [|lia].
    exact Hval.
Qed.

(** X7, witness: DE87 is accepted and returned unchanged. *)
Lemma validateIBAN_iff_checksum_fixed_witness :
  Checksum.validateIBAN ("DE" ++ "87" ++ "123456781234567890") = true
  <-> Checksum.checksumIBAN ("DE" ++ "87" ++ "123456781234567890")
      = "DE" ++ "87" ++ "123456781234567890".
Proof.
  apply (validateIBAN_iff_checksum_fixed "DE" "87" "123456781234567890");
    [reflexivity | reflexivity | reflexivity | vm_compute; split; discriminate].
Defined.

(** X8.  [checksumIBAN] changes nothing but the third and fourth code
    units: it puts two digits there, denoting a number from 2 to 98,
    which do not depend on what was there before. *)
Theorem checksumIBAN_replaces_check_digits (cc d body : string)
    (Hcc : String.length cc = 2%nat)
    (Hd : String.length d = 2%nat) :
  exists chk,
    Checksum.checksumIBAN (cc ++ d ++ body) = cc ++ chk ++ body
    /\ String.length chk = 2%nat
    /\ Checksum.all_digits chk = true
    /\ 2 <= Checksum.digits_value chk <= 98
    /\ forall d', String.length d' = 2%nat ->
         Checksum.checksumIBAN (cc ++ d' ++ body) = cc ++ chk ++ body.
Proof.
  eexists. split; [apply MoreChecksumFacts.checksumIBAN_split; assumption|].
  set (x := Checksum.digits_value _).
  destruct (MoreChecksumFacts.check_digits_of_mod x) as (Hlen & Hdig & Hr & _).
  repeat split; try assumption; try lia.
  intros d' Hd'. apply MoreChecksumFacts.checksumIBAN_split; assumption.
Qed.

(** X8, witness: the check digits of DE..123456781234567890 are 87
    whether the place holds 00 or 99. *)
Lemma checksumIBAN_replaces_check_digits_witness :
  exists chk,
    Checksum.checksumIBAN ("DE" ++ "99" ++ "123456781234567890")
    = "DE" ++ chk ++ "123456781234567890"
    /\ String.length chk = 2%nat
    /\ Checksum.all_digits chk = true
    /\ 2 <= Checksum.digits_value chk <= 98
    /\ forall d', String.length d' = 2%nat ->
         Checksum.checksumIBAN ("DE" ++ d' ++ "123456781234567890")
         = "DE" ++ chk ++ "123456781234567890".
Proof.
  exact (checksumIBAN_replaces_check_digits "DE" "99" "123456781234567890"
           eq_refl eq_refl).
Defined.

(* ================================================================== *)
(** * Further properties of the formats *)
(* ================================================================== *)

Module MoreFamilyFacts.

Lemma substr_last_two (p d : string) :
  String.length d = 2%nat -> JS.substr (p ++ d) (-2) None = d.
Proof.
  intro Hd. unfold JS.substr, JS.length.
  rewrite JSFacts.length_append, Hd.
  change (-2 <? 0) with true. cbv iota.
  replace (Z.to_nat (Z.max (Z.of_nat (String.length p + 2) + -2) 0))
    with (String.length p) by lia.
  rewrite JSFacts.drop_append_exact.
  apply JSFacts.take_all. lia.
Qed.

Lemma parseInt_digit_first (a : ascii) (r : string) :
  JS.is_digit a = true ->
  JS.parseInt (String a r) = JS.parse_digits (String a r) None.
Proof.
  ChecksumFacts.each_code_unit a; intro H;
    try (vm_compute in H; discriminate H); reflexivity.
Qed.

Lemma parseInt_two_digits (d : string) :
  String.length d = 2%nat -> Checksum.all_digits d = true ->
  JS.parseInt d = JS.num (Checksum.digits_value d).
Proof.
  destruct d as [|a [|b [|? ?]]]; try discriminate. intros _.
  cbn [Checksum.all_digits]. rewrite andb_true_r. intro H.
  apply andb_prop in H as [Ha Hb].
  rewrite (parseInt_digit_first a _ Ha).
  cbn [JS.parse_digits]. rewrite Ha, Hb.
  unfold JS.num. f_equal.
  cbn [Checksum.digits_value String.length].
  change (10 ^ Z.of_nat 1) with 10. change (10 ^ Z.of_nat 0) with 1. lia.
Qed.

End MoreFamilyFacts.

(** X9.  For every recognized format the version family is 2 or 3, and
    the root tag goes with it: the format identifier itself in family
    2, and in family 3 the name of the message, [CstmrCdtTrfInitn] when
    the blocks of that format are transfers and [CstmrDrctDbtInitn]
    when they are direct debits. *)
Theorem recognized_formats_consistent (painFormat : string)
    (H : recognized painFormat = true) :
  (getPainXMLVersion painFormat = JS.num 2
   /\ SEPATypes painFormat = JS.VStr painFormat)
  \/ (getPainXMLVersion painFormat = JS.num 3
      /\ SEPATypes painFormat
         = JS.VStr
             match SepaPaymentInfo.method (SepaPaymentInfo.new painFormat) with
             | SepaPaymentInfo.Transfer => "CstmrCdtTrfInitn"
             | SepaPaymentInfo.DirectDebit => "CstmrDrctDbtInitn"
             end).
Proof.
  revert H. unfold recognized, SEPATypes_own, own_property.
  repeat match goal with
  | |- context [(?k =? painFormat)%string] =>
      destruct (String.eqb_spec k painFormat) as [<-|_];
      [ intros _; vm_compute; auto | ]
  end.
  discriminate.
Qed.

(** X9, witness: pain.008.001.02 is of family 3, with the root tag of
    direct debits. *)
Lemma recognized_formats_consistent_witness :
  (getPainXMLVersion "pain.008.001.02" = JS.num 2
   /\ SEPATypes "pain.008.001.02" = JS.VStr "pain.008.001.02")
  \/ (getPainXMLVersion "pain.008.001.02" = JS.num 3
      /\ SEPATypes "pain.008.001.02"
         = JS.VStr
             match SepaPaymentInfo.method
                     (SepaPaymentInfo.new "pain.008.001.02") with
             | SepaPaymentInfo.Transfer => "CstmrCdtTrfInitn"
             | SepaPaymentInfo.DirectDebit => "CstmrDrctDbtInitn"
             end).
Proof.
  exact (recognized_formats_consistent "pain.008.001.02" eq_refl).
Defined.

(** X10.  For a format identifier that ends in two decimal digits,
    [getPainXMLVersion] is the number these denote, plus one when the
    identifier starts with [pain.008]. *)
Theorem getPainXMLVersion_two_digits (prefix digits : string)
    (Hlen : String.length digits = 2%nat)
    (Hdigits : Checksum.all_digits digits = true) :
  getPainXMLVersion (prefix ++ digits)
  = JS.num (Checksum.digits_value digits
            + if JS.indexOf (prefix ++ digits) "pain.008" =? 0
              then 1 else 0).
Proof.
  unfold getPainXMLVersion.
  rewrite (MoreFamilyFacts.substr_last_two prefix digits Hlen).
  rewrite (MoreFamilyFacts.parseInt_two_digits digits Hlen Hdigits).
  reflexivity.
Qed.

(** X10, witness: pain.008.003.02 is of family 3 and pain.001.003.02 of
    family 2. *)
Lemma getPainXMLVersion_two_digits_witness :
  getPainXMLVersion ("pain.008.003." ++ "02") = JS.num (2 + 1)
  /\ getPainXMLVersion ("pain.001.003." ++ "02") = JS.num (2 + 0).
Proof.
  split.
  - exact (getPainXMLVersion_two_digits "pain.008.003." "02"
             eq_refl eq_refl).
  - exact (getPainXMLVersion_two_digits "pain.001.003." "02"
             eq_refl eq_refl).
Defined.

(** X11.  A document constructed without a format is a direct debit
    document of the format pain.008.001.02: its header carries that
    format, its root tag is [CstmrDrctDbtInitn], it is of family 3, and
    the blocks and transactions its factories create are direct
    debits. *)
Theorem default_format (options : options)
    (H : opt_painFormat options = "") :
  let d := SepaDocument.new options in
  SepaDocument._painFormat d = "pain.008.001.02"
  /\ SepaGroupHeader._painFormat (SepaDocument.grpHdr d) = "pain.008.001.02"
  /\ SepaDocument._type d = JS.VStr "CstmrDrctDbtInitn"
  /\ getPainXMLVersion (SepaDocument._painFormat d) = JS.num 3
  /\ SepaPaymentInfo.method (SepaDocument.createPaymentInfo d)
     = SepaPaymentInfo.DirectDebit
  /\ SepaTransaction._type
       (SepaPaymentInfo.createTransaction (SepaDocument.createPaymentInfo d))
     = SepaTransaction.DirectDebit.
Proof.
  unfold SepaDocument.new, SepaDocument.createPaymentInfo,
    SepaPaymentInfo.createTransaction.
  rewrite H. repeat split.
Qed.

(** X11, witness: options with an id and a name only. *)
Lemma default_format_witness :
  let d := SepaDocument.new (Examples.options_MSG1 "") in
  SepaDocument._painFormat d = "pain.008.001.02"
  /\ SepaGroupHeader._painFormat (SepaDocument.grpHdr d) = "pain.008.001.02"
  /\ SepaDocument._type d = JS.VStr "CstmrDrctDbtInitn"
  /\ getPainXMLVersion (SepaDocument._painFormat d) = JS.num 3
  /\ SepaPaymentInfo.method (SepaDocument.createPaymentInfo d)
     = SepaPaymentInfo.DirectDebit
  /\ SepaTransaction._type
       (SepaPaymentInfo.createTransaction (SepaDocument.createPaymentInfo d))
     = SepaTransaction.DirectDebit.
Proof. exact (default_format (Examples.options_MSG1 "") eq_refl). Defined.

(* ================================================================== *)
(** * Further properties of the entities *)
(* ================================================================== *)

Module MoreEntityFacts.

Lemma toString_inj (a b : Z) :
  JS.toString (JS.num a) = JS.toString (JS.num b) -> a = b.
Proof.
  unfold JS.toString, JS.num. intro H.
  apply DecimalZ.to_int_inj.
  apply (f_equal NilZero.int_of_string) in H.
  assert (Hn : forall z, Z.to_int z <> Decimal.Pos Decimal.Nil
                         /\ Z.to_int z <> Decimal.Neg Decimal.Nil).
  { intros [|p|p]; cbn; split; try discriminate;
      intro E; injection E; apply DecimalPos.Unsigned.to_uint_nonnil. }
  rewrite !NilZero.isi in H by apply Hn.
  injection H. auto.
Qed.

Lemma implicit_id_inj (st : module_state) (prefix : string) (i j : nat) :
  implicit_id st prefix i = implicit_id st prefix j -> i = j.
Proof.
  unfold implicit_id. intro H.
  apply MoreChecksumFacts.append_inj_l, MoreChecksumFacts.append_inj_l in H.
  apply toString_inj in H. lia.
Qed.

Lemma implicit_ids_NoDup (st : module_state) (prefix : string)
    (start len : nat) :
  NoDup (map (implicit_id st prefix) (seq start len)).
Proof.
  apply NoDup_map_NoDup_ForallPairs; [|apply seq_NoDup].
  intros i j _ _. apply implicit_id_inj.
Qed.

Lemma assign_same {A} (r : ref) (a : A) (h : store A) : assign r a h r = a.
Proof. unfold assign. now rewrite Nat.eqb_refl. Qed.

Lemma assign_other {A} (r r' : ref) (a : A) (h : store A) :
  r' <> r -> assign r a h r' = h r'.
Proof.
  intro H. unfold assign.
  destruct (Nat.eqb_spec r' r); [contradiction | reflexivity].
Qed.

(** The two calls by reference, written out. *)
Lemma addTransaction_by_reference_eq (st : module_state)
    (this : SepaPaymentInfo.t) (pmt : ref) (h : store SepaTransaction.t)
    (held : list ref) :
  addTransaction_by_reference st this pmt (h, held)
  = JS.Ok (assign pmt
             (SepaTransaction.set_id
                (JS.take 35
                   (if JS.truthy (SepaTransaction.id (h pmt))
                    then SepaTransaction.id (h pmt)
                    else implicit_id st (SepaPaymentInfo.id this)
                           (List.length held)))
                (h pmt)) h,
           (held ++ [pmt])%list).
Proof.
  unfold addTransaction_by_reference, SepaPaymentInfo.addTransaction.
  cbn [JS.bind SepaPaymentInfo.set_payments SepaPaymentInfo.update
       SepaPaymentInfo._payments SepaPaymentInfo.id].
  rewrite last_last, length_map.
  rewrite (JSFacts.slice_prefix _ 35 : JS.slice _ 0 35 = _).
  reflexivity.
Qed.

Lemma addPaymentInfo_by_reference_eq (st : module_state)
    (this : SepaDocument.t) (pi : ref) (h : store SepaPaymentInfo.t)
    (held : list ref) :
  addPaymentInfo_by_reference st this pi (h, held)
  = JS.Ok (assign pi
             (SepaPaymentInfo.set_id
                (if JS.truthy (SepaPaymentInfo.id (h pi))
                 then SepaGroupHeader.id (SepaDocument.grpHdr this)
                      ++ ID_SEPARATOR st ++ SepaPaymentInfo.id (h pi)
                 else implicit_id st
                        (SepaGroupHeader.id (SepaDocument.grpHdr this))
                        (List.length held))
                (h pi)) h,
           (held ++ [pi])%list).
Proof.
  unfold addPaymentInfo_by_reference, SepaDocument.addPaymentInfo, holding.
  cbn [JS.bind SepaDocument._paymentInfo SepaDocument.grpHdr].
  rewrite last_last, length_map.
  destruct (JS.truthy _); reflexivity.
Qed.


(** Distinct objects without ids, added in turn: each ends with the
    implicit id of its position; no other object is touched. *)
Lemma addTransactions_distinct (st : module_state)
    (this : SepaPaymentInfo.t) (pmts : list ref) :
  forall (h : store SepaTransaction.t) (held : list ref),
    NoDup pmts ->
    Forall (fun pmt => SepaTransaction.id (h pmt) = "") pmts ->
    (forall i, (i < List.length pmts)%nat ->
       (String.length
          (implicit_id st (SepaPaymentInfo.id this) (List.length held + i))
        <= 35)%nat) ->
    exists h',
      addTransactions st this pmts (h, held) = JS.Ok (h', (held ++ pmts)%list)
      /\ map (fun pmt => SepaTransaction.id (h' pmt)) pmts
         = map (implicit_id st (SepaPaymentInfo.id this))
             (seq (List.length held) (List.length pmts))
      /\ (forall r, ~ In r pmts -> h' r = h r).
Proof.
  induction pmts as [|pmt rest IH]; intros h held Hnd Hids Hfit.
  - exists h. cbn. rewrite app_nil_r. auto.
  - inversion Hnd as [|? ? Hnotin Hnd']; subst.
    inversion Hids as [|? ? Hid Hids']; subst.
    cbn [addTransactions]. rewrite addTransaction_by_reference_eq.
    cbn [JS.bind]. rewrite Hid. cbn [JS.truthy String.eqb negb].
    rewrite JSFacts.take_all
      by (specialize (Hfit O ltac:(cbn; lia));
          rewrite Nat.add_0_r in Hfit; exact Hfit).
    set (h1 := assign pmt _ h).
    destruct (IH h1 (held ++ [pmt])%list Hnd') as (h' & Hrun & Hmap & Hframe).
    + apply Forall_forall. intros r Hr. subst h1.
      rewrite assign_other by (intros ->; contradiction).
      rewrite Forall_forall in Hids'. apply Hids', Hr.
    + intros i Hi. rewrite length_app. cbn [List.length].
      replace (List.length held + 1 + i)%nat
        with (List.length held + S i)%nat by lia.
      apply Hfit. cbn [List.length]. lia.
    + exists h'. split; [|split].
      * rewrite Hrun, <- app_assoc. reflexivity.
      * cbn [map List.length seq]. f_equal.
        -- rewrite (Hframe pmt Hnotin). subst h1. rewrite assign_same.
           reflexivity.
        -- rewrite Hmap, length_app. cbn [List.length].
           replace (List.length held + 1)%nat
             with (S (List.length held)) by lia.
           reflexivity.
      * intros r Hr. rewrite Hframe by (intro; apply Hr; right; assumption).
        subst h1. apply assign_other. intros ->. apply Hr. left. reflexivity.
Qed.

Lemma addPaymentInfos_distinct (st : module_state) (this : SepaDocument.t)
    (pis : list ref) :
  forall (h : store SepaPaymentInfo.t) (held : list ref),
    NoDup pis ->
    Forall (fun pi => SepaPaymentInfo.id (h pi) = "") pis ->
    exists h',
      addPaymentInfos st this pis (h, held) = JS.Ok (h', (held ++ pis)%list)
      /\ map (fun pi => SepaPaymentInfo.id (h' pi)) pis
         = map (implicit_id st
                  (SepaGroupHeader.id (SepaDocument.grpHdr this)))
             (seq (List.length held) (List.length pis))
      /\ (forall r, ~ In r pis -> h' r = h r).
Proof.
  induction pis as [|pi rest IH]; intros h held Hnd Hids.
  - exists h. cbn. rewrite app_nil_r. auto.
  - inversion Hnd as [|? ? Hnotin Hnd']; subst.
    inversion Hids as [|? ? Hid Hids']; subst.
    cbn [addPaymentInfos]. rewrite addPaymentInfo_by_reference_eq.
    cbn [JS.bind]. rewrite Hid. cbn [JS.truthy String.eqb negb].
    set (h1 := assign pi _ h).
    destruct (IH h1 (held ++ [pi])%list Hnd') as (h' & Hrun & Hmap & Hframe).
    + apply Forall_forall. intros r Hr. subst h1.
      rewrite assign_other by (intros ->; contradiction).
      rewrite Forall_forall in Hids'. apply Hids', Hr.
    + exists h'. split; [|split].
      * rewrite Hrun, <- app_assoc. reflexivity.
      * cbn [map List.length seq]. f_equal.
        -- rewrite (Hframe pi Hnotin). subst h1. rewrite assign_same.
           reflexivity.
        -- rewrite Hmap, length_app. cbn [List.length].
           replace (List.length held + 1)%nat
             with (S (List.length held)) by lia.
           reflexivity.
      * intros r Hr. rewrite Hframe by (intro; apply Hr; right; assumption).
        subst h1. apply assign_other. intros ->. apply Hr. left. reflexivity.
Qed.

(** An implicit id holds something, and so does what is left of it
    after 35 code units. *)
Lemma implicit_id_truthy (st : module_state) (prefix : string) (n : nat) :
  JS.truthy (JS.take (S n) (implicit_id st prefix 0)) = true.
Proof.
  unfold implicit_id.
  change (JS.toString (JS.num (Z.of_nat 0))) with "0".
  destruct prefix as [|c p]; [|reflexivity].
  destruct (ID_SEPARATOR st) as [|c s]; reflexivity.
Qed.

Lemma implicit_id_0_truthy (st : module_state) (prefix : string) :
  JS.truthy (implicit_id st prefix 0) = true.
Proof.
  unfold implicit_id.
  change (JS.toString (JS.num (Z.of_nat 0))) with "0".
  destruct prefix as [|c p]; [|reflexivity].
  destruct (ID_SEPARATOR st) as [|c s]; reflexivity.
Qed.

(** Blocks added in turn keep their formats, whichever objects they
    are. *)
Lemma addPaymentInfos_format (st : module_state) (this : SepaDocument.t)
    (pis : list ref) :
  forall (h : store SepaPaymentInfo.t) (held : list ref),
  exists h',
    addPaymentInfos st this pis (h, held) = JS.Ok (h', (held ++ pis)%list)
    /\ (forall r, SepaPaymentInfo._painFormat (h' r)
                  = SepaPaymentInfo._painFormat (h r)).
Proof.
  induction pis as [|pi rest IH]; intros h held.
  - exists h. cbn. rewrite app_nil_r. auto.
  - cbn [addPaymentInfos]. rewrite addPaymentInfo_by_reference_eq.
    cbn [JS.bind]. set (h1 := assign pi _ h).
    destruct (IH h1 (held ++ [pi])%list) as (h' & Hrun & Hfmt).
    exists h'. split.
    + rewrite Hrun, <- app_assoc. reflexivity.
    + intro r. rewrite Hfmt. subst h1. unfold assign.
      destruct (Nat.eqb_spec r pi) as [->|_]; reflexivity.
Qed.

Lemma take_take (n : nat) (s : string) : JS.take n (JS.take n s) = JS.take n s.
Proof.
  apply JSFacts.take_all. rewrite JSFacts.length_take. apply Nat.le_min_l.
Qed.

(** The loops of the two [normalize] methods as sums. *)
Lemma PaymentInfo_normalize_loop_sum (l : list SepaTransaction.t) (c : float) :
  SepaPaymentInfo.normalize_loop l c
  = fold_left PrimFloat.add (map SepaTransaction.amount l) c.
Proof.
  revert c. induction l as [|pmt l IH]; intro c; cbn; [reflexivity | apply IH].
Qed.

Lemma normalize_loop_totals (l : list SepaPaymentInfo.t) (c : float) (n : Z) :
  snd (fst (SepaDocument.normalize_loop l c n))
  = fold_left PrimFloat.add
      (map (fun pi => sum_of_amounts (SepaPaymentInfo._payments pi)) l) c
  /\ snd (SepaDocument.normalize_loop l c n)
     = n + Z.of_nat (List.length (flat_map SepaPaymentInfo._payments l)).
Proof.
  revert c n. induction l as [|pi l IH]; intros c n.
  - cbn. split; [reflexivity | lia].
  - cbn [SepaDocument.normalize_loop].
    specialize (IH (PrimFloat.add c (SepaPaymentInfo.controlSum
                                       (SepaPaymentInfo.normalize pi)))
                   (n + SepaPaymentInfo.transactionCount
                          (SepaPaymentInfo.normalize pi))).
    destruct (SepaDocument.normalize_loop l _ _) as [[l' c'] n'].
    cbn [fst snd] in *. destruct IH as [-> ->]. split.
    + cbn [map fold_left]. unfold sum_of_amounts.
      rewrite <- PaymentInfo_normalize_loop_sum. reflexivity.
    + cbn [flat_map]. rewrite length_app, Nat2Z.inj_add.
      unfold SepaPaymentInfo.transactionCount. cbn. lia.
Qed.

(** The sums [normalize] of a document leaves in the header. *)
Lemma normalize_header_totals (d : SepaDocument.t) :
  SepaGroupHeader.controlSum (SepaDocument.grpHdr (SepaDocument.normalize d))
  = fold_left PrimFloat.add
      (map (fun pi => sum_of_amounts (SepaPaymentInfo._payments pi))
         (SepaDocument._paymentInfo d)) 0%float
  /\ SepaGroupHeader.transactionCount
       (SepaDocument.grpHdr (SepaDocument.normalize d))
     = Z.of_nat (List.length
                   (flat_map SepaPaymentInfo._payments
                      (SepaDocument._paymentInfo d))).
Proof.
  unfold SepaDocument.normalize.
  pose proof (normalize_loop_totals
                (SepaDocument._paymentInfo d) 0%float 0) as [Hc Hn].
  destruct (SepaDocument.normalize_loop _ _ _) as [[l c] n].
  cbn in *. split; [exact Hc | exact Hn].
Qed.

End MoreEntityFacts.

(** X12.  [addTransaction] stores a transaction that comes without an id
    under the id of the block, the separator and the number of
    transactions the block held before, cut after 35 code units; the
    rest of the transaction is left as it was.  When the id of the
    block has 35 code units or more, nothing of the number is kept:
    every transaction added without an id gets the same id. *)
Theorem addTransaction_implicit_id (st : module_state)
    (this : SepaPaymentInfo.t) (pmt : SepaTransaction.t)
    (H : SepaTransaction.id pmt = "") :
  exists this',
    SepaPaymentInfo.addTransaction st this (JS.Instance pmt) = JS.Ok this'
    /\ SepaPaymentInfo._payments this'
       = (SepaPaymentInfo._payments this
          ++ [SepaTransaction.set_id
                (String.substring 0 35
                   (implicit_id st (SepaPaymentInfo.id this)
                      (List.length (SepaPaymentInfo._payments this))))
                pmt])%list
    /\ SepaPaymentInfo.id this' = SepaPaymentInfo.id this
    /\ ((35 <= String.length (SepaPaymentInfo.id this))%nat ->
        String.substring 0 35
          (implicit_id st (SepaPaymentInfo.id this)
             (List.length (SepaPaymentInfo._payments this)))
        = String.substring 0 35 (SepaPaymentInfo.id this)).
Proof.
  unfold SepaPaymentInfo.addTransaction. rewrite H.
  cbn [JS.truthy String.eqb negb].
  eexists. split; [reflexivity|].
  cbn [SepaPaymentInfo._payments SepaPaymentInfo.set_payments
       SepaPaymentInfo.update SepaPaymentInfo.id].
  rewrite (JSFacts.slice_prefix _ 35 : JS.slice _ 0 35 = _).
  rewrite JSFacts.take_substring.
  split; [reflexivity|]. split; [reflexivity|].
  intro Hlong. rewrite <- !JSFacts.take_substring. unfold implicit_id.
  generalize (ID_SEPARATOR st
              ++ JS.toString
                   (JS.num (Z.of_nat
                      (List.length (SepaPaymentInfo._payments this))))).
  generalize dependent (SepaPaymentInfo.id this). clear.
  generalize 35%nat.
  intros n s. revert n. induction s as [|c s IH]; intros [|n] Hn t;
    cbn in *; try reflexivity; try lia.
  rewrite IH by lia. reflexivity.
Qed.

(** X12, witness: the first transaction of the block MSG1.0. *)
Lemma addTransaction_implicit_id_witness :
  exists this',
    SepaPaymentInfo.addTransaction initial_state
      (SepaPaymentInfo.set_id "MSG1.0" (SepaPaymentInfo.new "pain.008.001.02"))
      (JS.Instance (SepaTransaction.new "pain.008.001.02")) = JS.Ok this'
    /\ SepaPaymentInfo._payments this'
       = [SepaTransaction.set_id "MSG1.0.0"
            (SepaTransaction.new "pain.008.001.02")].
Proof.
  destruct (addTransaction_implicit_id initial_state
              (SepaPaymentInfo.set_id "MSG1.0"
                 (SepaPaymentInfo.new "pain.008.001.02"))
              (SepaTransaction.new "pain.008.001.02") eq_refl)
    as (this' & H1 & H2 & _).
  exists this'. split; [exact H1 | exact H2].
Defined.

(** X13.  Distinct transaction objects added in turn, without ids, to a
    block that holds none get the ids [<block id><separator>0],
    [<block id><separator>1], ..., which differ from one another, as
    long as none of these ids has more than 35 code units.  One object
    added twice is held twice and keeps the id of the first call. *)
Theorem implicit_transaction_ids_distinct (st : module_state)
    (this : SepaPaymentInfo.t) (objects : store SepaTransaction.t)
    (pmts : list ref)
    (Hdistinct : NoDup pmts)
    (Hids : Forall (fun pmt => SepaTransaction.id (objects pmt) = "") pmts)
    (Hfit : forall i, (i < List.length pmts)%nat ->
              (String.length (implicit_id st (SepaPaymentInfo.id this) i)
               <= 35)%nat) :
  (exists objects',
     addTransactions st this pmts (objects, []) = JS.Ok (objects', pmts)
     /\ map (fun pmt => SepaTransaction.id (objects' pmt)) pmts
        = map (implicit_id st (SepaPaymentInfo.id this))
            (seq 0 (List.length pmts))
     /\ NoDup (map (fun pmt => SepaTransaction.id (objects' pmt)) pmts))
  /\ (forall pmt,
        SepaTransaction.id (objects pmt) = "" ->
        exists objects',
          addTransactions st this [pmt; pmt] (objects, [])
          = JS.Ok (objects', [pmt; pmt])
          /\ SepaTransaction.id (objects' pmt)
             = String.substring 0 35
                 (implicit_id st (SepaPaymentInfo.id this) 0)).
Proof.
  split.
  - destruct (MoreEntityFacts.addTransactions_distinct st this pmts
                objects [] Hdistinct Hids Hfit)
      as (objects' & Hrun & Hmap & _).
    exists objects'. split; [exact Hrun|]. split; [exact Hmap|].
    rewrite Hmap. apply MoreEntityFacts.implicit_ids_NoDup.
  - intros pmt Hid. eexists. split.
    + cbn [addTransactions].
      rewrite MoreEntityFacts.addTransaction_by_reference_eq.
      cbn [JS.bind].
      rewrite MoreEntityFacts.addTransaction_by_reference_eq.
      cbn [JS.bind app]. reflexivity.
    + rewrite !MoreEntityFacts.assign_same, Hid.
      change (JS.truthy "") with false.
      cbn [SepaTransaction.id SepaTransaction.set_id List.length].
      rewrite MoreEntityFacts.implicit_id_truthy, MoreEntityFacts.take_take.
      apply JSFacts.take_substring.
Qed.

(** X13, witness: three transactions added to the block MSG1.0. *)
Lemma implicit_transaction_ids_distinct_witness :
  let objects : store SepaTransaction.t :=
    fun _ => SepaTransaction.new "pain.008.001.02" in
  let this :=
    SepaPaymentInfo.set_id "MSG1.0" (SepaPaymentInfo.new "pain.008.001.02") in
  (exists objects',
     addTransactions initial_state this [0; 1; 2]%nat (objects, [])
     = JS.Ok (objects', [0; 1; 2]%nat)
     /\ map (fun pmt => SepaTransaction.id (objects' pmt)) [0; 1; 2]%nat
        = ["MSG1.0.0"; "MSG1.0.1"; "MSG1.0.2"])
  /\ (exists objects',
        addTransactions initial_state this [0; 0]%nat (objects, [])
        = JS.Ok (objects', [0; 0]%nat)
        /\ map (fun pmt => SepaTransaction.id (objects' pmt)) [0; 0]%nat
           = ["MSG1.0.0"; "MSG1.0.0"]).
Proof.
  cbv zeta.
  destruct (implicit_transaction_ids_distinct initial_state
              (SepaPaymentInfo.set_id "MSG1.0"
                 (SepaPaymentInfo.new "pain.008.001.02"))
              (fun _ => SepaTransaction.new "pain.008.001.02")
              [0; 1; 2]%nat) as [H1 H2].
  - repeat (constructor; [cbn; lia|]). constructor.
  - repeat constructor.
  - intros [|[|[|i]]] Hi; vm_compute; try lia. cbn in Hi. lia.
  - split.
    + destruct H1 as (objects' & Hrun & Hmap & _).
      exists objects'. split; [exact Hrun | exact Hmap].
    + destruct (H2 0%nat eq_refl) as (objects' & Hrun & Hid).
      exists objects'. split; [exact Hrun|].
      cbn [map]. rewrite Hid. reflexivity.
Defined.

(** X14.  Distinct blocks added in turn, without ids, to a document
    that holds none get the ids [<header id><separator>0],
    [<header id><separator>1], ..., which differ from one another.  One
    block added twice is held twice, and the second call puts the
    header id before the id the first call gave it. *)
Theorem implicit_batch_ids_distinct (st : module_state)
    (this : SepaDocument.t) (objects : store SepaPaymentInfo.t)
    (pis : list ref)
    (Hdistinct : NoDup pis)
    (Hids : Forall (fun pi => SepaPaymentInfo.id (objects pi) = "") pis) :
  let header_id := SepaGroupHeader.id (SepaDocument.grpHdr this) in
  (exists objects',
     addPaymentInfos st this pis (objects, []) = JS.Ok (objects', pis)
     /\ map (fun pi => SepaPaymentInfo.id (objects' pi)) pis
        = map (implicit_id st header_id) (seq 0 (List.length pis))
     /\ NoDup (map (fun pi => SepaPaymentInfo.id (objects' pi)) pis))
  /\ (forall pi,
        SepaPaymentInfo.id (objects pi) = "" ->
        exists objects',
          addPaymentInfos st this [pi; pi] (objects, [])
          = JS.Ok (objects', [pi; pi])
          /\ SepaPaymentInfo.id (objects' pi)
             = header_id ++ ID_SEPARATOR st ++ implicit_id st header_id 0).
Proof.
  intro header_id. split.
  - destruct (MoreEntityFacts.addPaymentInfos_distinct st this pis
                objects [] Hdistinct Hids)
      as (objects' & Hrun & Hmap & _).
    exists objects'. split; [exact Hrun|]. split; [exact Hmap|].
    rewrite Hmap. apply MoreEntityFacts.implicit_ids_NoDup.
  - intros pi Hid. eexists. split.
    + cbn [addPaymentInfos].
      rewrite MoreEntityFacts.addPaymentInfo_by_reference_eq.
      cbn [JS.bind].
      rewrite MoreEntityFacts.addPaymentInfo_by_reference_eq.
      cbn [JS.bind app]. reflexivity.
    + rewrite !MoreEntityFacts.assign_same, Hid.
      change (JS.truthy "") with false.
      cbn [SepaPaymentInfo.id SepaPaymentInfo.set_id SepaPaymentInfo.update
           List.length].
      fold header_id.
      rewrite MoreEntityFacts.implicit_id_0_truthy. reflexivity.
Qed.

(** X14, witness: two blocks added to the document MSG1 under the
    separator [-], and one block added twice. *)
Lemma implicit_batch_ids_distinct_witness :
  let objects : store SepaPaymentInfo.t :=
    fun _ => SepaPaymentInfo.new "pain.001.001.03" in
  let st := setIDSeparator "-" initial_state in
  let this := Examples.doc_MSG1 "pain.001.001.03" in
  (exists objects',
     addPaymentInfos st this [0; 1]%nat (objects, [])
     = JS.Ok (objects', [0; 1]%nat)
     /\ map (fun pi => SepaPaymentInfo.id (objects' pi)) [0; 1]%nat
        = ["MSG1-0"; "MSG1-1"])
  /\ (exists objects',
        addPaymentInfos st this [0; 0]%nat (objects, [])
        = JS.Ok (objects', [0; 0]%nat)
        /\ map (fun pi => SepaPaymentInfo.id (objects' pi)) [0; 0]%nat
           = ["MSG1-MSG1-0"; "MSG1-MSG1-0"]).
Proof.
  cbv zeta.
  destruct (implicit_batch_ids_distinct (setIDSeparator "-" initial_state)
              (Examples.doc_MSG1 "pain.001.001.03")
              (fun _ => SepaPaymentInfo.new "pain.001.001.03")
              [0; 1]%nat) as [H1 H2].
  - repeat (constructor; [cbn; lia|]). constructor.
  - repeat constructor.
  - split.
    + destruct H1 as (objects' & Hrun & Hmap & _).
      exists objects'. split; [exact Hrun | exact Hmap].
    + destruct (H2 0%nat eq_refl) as (objects' & Hrun & Hid).
      exists objects'. split; [exact Hrun|].
      cbn [map]. rewrite Hid. reflexivity.
Defined.

(** X15.  A document whose header and blocks carry its format stays so
    when blocks of that format, such as [createPaymentInfo] makes them,
    are added in turn, whichever objects they are; a new document is
    such a document. *)
Theorem added_batches_keep_format (st : module_state) (this : SepaDocument.t)
    (objects : store SepaPaymentInfo.t) (held pis : list ref)
    (Hthis : bound_to_format (holding this (map objects held)) = true)
    (Hl : Forall (fun pi => SepaPaymentInfo._painFormat (objects pi)
                            = SepaDocument._painFormat this) pis) :
  (exists objects',
     addPaymentInfos st this pis (objects, held)
     = JS.Ok (objects', (held ++ pis)%list)
     /\ SepaDocument._painFormat
          (holding this (map objects' (held ++ pis)%list))
        = SepaDocument._painFormat this
     /\ bound_to_format (holding this (map objects' (held ++ pis)%list))
        = true)
  /\ (forall options, bound_to_format (SepaDocument.new options) = true)
  /\ SepaPaymentInfo._painFormat (SepaDocument.createPaymentInfo this)
     = SepaDocument._painFormat this.
Proof.
  split; [|split; [exact EntityFacts.new_bound_to_format | reflexivity]].
  destruct (MoreEntityFacts.addPaymentInfos_format st this pis objects held)
    as (objects' & Hrun & Hfmt).
  exists objects'. split; [exact Hrun|]. split; [reflexivity|].
  unfold bound_to_format, holding in *.
  cbn [SepaDocument.grpHdr SepaDocument._painFormat
       SepaDocument._paymentInfo] in *.
  apply andb_prop in Hthis as [Hh Hheld]. rewrite Hh. cbn [andb].
  rewrite forallb_forall in *. intros pi' Hin.
  apply in_map_iff in Hin as (r & <- & Hr). rewrite Hfmt.
  apply in_app_or in Hr as [Hr|Hr].
  - apply Hheld, in_map, Hr.
  - rewrite Forall_forall in Hl. rewrite (Hl r Hr). apply String.eqb_refl.
Qed.

(** X15, witness: two blocks made by [createPaymentInfo] and added to a
    new document. *)
Lemma added_batches_keep_format_witness :
  let d := Examples.doc_MSG1 "pain.001.001.03" in
  let objects : store SepaPaymentInfo.t :=
    fun _ => SepaDocument.createPaymentInfo d in
  exists objects',
    addPaymentInfos initial_state d [0; 1]%nat (objects, [])
    = JS.Ok (objects', [0; 1]%nat)
    /\ SepaDocument._painFormat (holding d (map objects' [0; 1]%nat))
       = "pain.001.001.03"
    /\ bound_to_format (holding d (map objects' [0; 1]%nat)) = true.
Proof.
  exact (proj1 (added_batches_keep_format initial_state
                  (Examples.doc_MSG1 "pain.001.001.03")
                  (fun _ => SepaDocument.createPaymentInfo
                              (Examples.doc_MSG1 "pain.001.001.03"))
                  [] [0; 1]%nat eq_refl ltac:(repeat constructor))).
Defined.

(** X16.  [normalize] of a document sets the control sum of every block
    to the sum of the amounts of its transactions, the control sum of
    the header to the sum of these sums and the transaction count of
    the header to the number of all transactions, whatever these fields
    held before; the blocks keep their ids and their transactions. *)
Theorem normalize_sums (d : SepaDocument.t) :
  let d' := SepaDocument.normalize d in
  map SepaPaymentInfo.controlSum (SepaDocument._paymentInfo d')
  = map (fun pi => sum_of_amounts (SepaPaymentInfo._payments pi))
      (SepaDocument._paymentInfo d)
  /\ SepaGroupHeader.controlSum (SepaDocument.grpHdr d')
     = fold_left PrimFloat.add
         (map (fun pi => sum_of_amounts (SepaPaymentInfo._payments pi))
            (SepaDocument._paymentInfo d)) 0%float
  /\ SepaGroupHeader.transactionCount (SepaDocument.grpHdr d')
     = Z.of_nat (List.length
                   (flat_map SepaPaymentInfo._payments
                      (SepaDocument._paymentInfo d)))
  /\ map SepaPaymentInfo._payments (SepaDocument._paymentInfo d')
     = map SepaPaymentInfo._payments (SepaDocument._paymentInfo d)
  /\ map SepaPaymentInfo.id (SepaDocument._paymentInfo d')
     = map SepaPaymentInfo.id (SepaDocument._paymentInfo d).
Proof.
  intro d'. subst d'.
  destruct (MoreEntityFacts.normalize_header_totals d) as [Hc Hn].
  rewrite EntityFacts.normalize_paymentInfo, !map_map.
  split; [|split; [exact Hc|split; [exact Hn|split]]].
  - apply map_ext. intro pi. cbn. unfold sum_of_amounts.
    apply MoreEntityFacts.PaymentInfo_normalize_loop_sum.
  - apply map_ext. reflexivity.
  - apply map_ext. reflexivity.
Qed.

(* ================================================================== *)
(** * Further properties of the helper [createXMLHelper] *)
(* ================================================================== *)

Module DOMFacts.

Lemma map_nth_app_last {A} (f : A -> A) (l : list A) (x : A) :
  DOM.map_nth (List.length l) f (l ++ [x])%list = (l ++ [f x])%list.
Proof. induction l as [|y l IH]; cbn; [reflexivity | now rewrite IH]. Qed.

Lemma map_nth_at {A} (f g : A -> A) (l : list A) (i : nat) (c : A) :
  nth_error l i = Some c -> f c = g c ->
  DOM.map_nth i f l = DOM.map_nth i g l.
Proof.
  revert i. induction l as [|x l IH]; intros [|i] H E; cbn in *;
    try discriminate.
  - injection H as ->. now rewrite E.
  - now rewrite (IH i H E).
Qed.

Lemma map_nth_map_nth {A} (f g : A -> A) (l : list A) (i : nat) :
  DOM.map_nth i f (DOM.map_nth i g l) = DOM.map_nth i (fun x => f (g x)) l.
Proof.
  revert i. induction l as [|x l IH]; intros [|i]; cbn; try reflexivity.
  now rewrite IH.
Qed.

Lemma map_nth_ext {A} (f g : A -> A) (l : list A) (i : nat) :
  (forall x, f x = g x) -> DOM.map_nth i f l = DOM.map_nth i g l.
Proof.
  intro E. revert i. induction l as [|x l IH]; intros [|i]; cbn;
    try reflexivity.
  - now rewrite E.
  - now rewrite IH.
Qed.

Lemma modify_modify (p : DOM.path) (f g : DOM.node -> DOM.node)
    (n : DOM.node) :
  DOM.modify p f (DOM.modify p g n) = DOM.modify p (fun x => f (g x)) n.
Proof.
  revert n f g. induction p as [|i p IH]; intros n f g; cbn [DOM.modify];
    [reflexivity|].
  rewrite SerializationFacts.childNodes_set,
    SerializationFacts.set_childNodes_twice, map_nth_map_nth.
  f_equal. apply map_nth_ext. intro x. apply IH.
Qed.

Lemma modify_app (p q : DOM.path) (f : DOM.node -> DOM.node) (n : DOM.node) :
  DOM.modify (p ++ q)%list f n = DOM.modify p (DOM.modify q f) n.
Proof.
  revert n. induction p as [|i p IH]; intro n; cbn [DOM.modify app];
    [reflexivity|].
  f_equal. apply map_nth_ext. exact IH.
Qed.

Lemma modify_at (p : DOM.path) (f g : DOM.node -> DOM.node)
    (n m : DOM.node) :
  DOM.lookup p n = Some m -> f m = g m -> DOM.modify p f n = DOM.modify p g n.
Proof.
  revert n. induction p as [|i p IH]; intros n H E; cbn in *.
  - injection H as ->. exact E.
  - destruct (nth_error (DOM.childNodes n) i) as [c|] eqn:Hc; [|discriminate].
    f_equal. apply (map_nth_at _ _ _ _ c Hc). apply IH; assumption.
Qed.

Lemma lookup_app (p q : DOM.path) (n : DOM.node) :
  DOM.lookup (p ++ q)%list n
  = match DOM.lookup p n with
    | Some m => DOM.lookup q m
    | None => None
    end.
Proof.
  revert n. induction p as [|i p IH]; intro n; cbn [DOM.lookup app];
    [reflexivity|].
  destruct (nth_error (DOM.childNodes n) i); [apply IH | reflexivity].
Qed.

Lemma nth_error_map_nth {A} (f : A -> A) (l : list A) (i : nat) :
  nth_error (DOM.map_nth i f l) i = option_map f (nth_error l i).
Proof.
  revert i. induction l as [|x l IH]; intros [|i]; cbn; try reflexivity.
  apply IH.
Qed.

Lemma lookup_modify (p : DOM.path) (f : DOM.node -> DOM.node)
    (n m : DOM.node) :
  DOM.lookup p n = Some m -> DOM.lookup p (DOM.modify p f n) = Some (f m).
Proof.
  revert n. induction p as [|i p IH]; intros n H; cbn in *.
  - now injection H as ->.
  - rewrite SerializationFacts.childNodes_set, nth_error_map_nth.
    destruct (nth_error (DOM.childNodes n) i) as [c|]; [|discriminate].
    cbn. apply IH, H.
Qed.

(** A child appended and then changed below is the changed child
    appended. *)
Lemma modify_appended (p q : DOM.path) (f : DOM.node -> DOM.node)
    (c root m : DOM.node) :
  DOM.lookup p root = Some m ->
  DOM.modify (p ++ List.length (DOM.childNodes m) :: q)%list f
    (append_at p c root)
  = append_at p (DOM.modify q f c) root.
Proof.
  intro H. unfold append_at.
  rewrite modify_app, modify_modify.
  apply (modify_at _ _ _ _ m H).
  cbn [DOM.modify].
  rewrite SerializationFacts.childNodes_set,
    SerializationFacts.set_childNodes_twice, map_nth_app_last.
  reflexivity.
Qed.

Lemma lookup_appended (p : DOM.path) (c root m : DOM.node) :
  DOM.lookup p root = Some m ->
  DOM.lookup (p ++ [List.length (DOM.childNodes m)])%list
    (append_at p c root)
  = Some c.
Proof.
  intro H. unfold append_at. rewrite lookup_app.
  rewrite (lookup_modify _ _ _ _ H). cbn [DOM.lookup].
  rewrite SerializationFacts.childNodes_set, nth_error_app2 by lia.
  rewrite Nat.sub_diag. reflexivity.
Qed.

(** The loop of the helper appends one nest of empty elements. *)
Lemma createXMLHelper_loop_nested (doc : DOM.document) (names : list string) :
  forall (name : string) (p : DOM.path) (root m : DOM.node),
    DOM.lookup p root = Some m ->
    createXMLHelper_loop doc (map JS.VStr (name :: names)) (Some p) root
    = JS.Ok (Some (p ++ List.length (DOM.childNodes m)
                        :: repeat O (List.length names))%list,
             append_at p
               (nested (DOM.namespaceURI (DOM.documentElement doc))
                  name names None) root).
Proof.
  induction names as [|name' rest IH]; intros name p root m H.
  - cbn [map createXMLHelper_loop].
    unfold DOM.bindB, DOM.lift, DOM.createElementNS, DOM.appendChild,
      DOM.ret, DOM.child_count.
    cbn [DOM.qualified_name JS.bind]. rewrite H. reflexivity.
  - change (map JS.VStr (name :: name' :: rest))
      with (JS.VStr name :: map JS.VStr (name' :: rest)).
    cbn [createXMLHelper_loop].
    unfold DOM.bindB at 1, DOM.lift at 1, DOM.createElementNS at 1.
    cbn [DOM.qualified_name JS.bind].
    unfold DOM.bindB at 1, DOM.appendChild at 1, DOM.child_count.
    rewrite H.
    set (ns := DOM.namespaceURI (DOM.documentElement doc)).
    set (el := DOM.Element name ns [] None []).
    fold (append_at p el root).
    etransitivity;
      [exact (IH name' _ _ el (lookup_appended p el root m H))|].
    cbn [DOM.childNodes el List.length].
    rewrite <- app_assoc. cbn [app repeat]. f_equal. f_equal.
    fold ns. unfold append_at at 1.
    rewrite (modify_appended p [] _ el root m H).
    reflexivity.
Qed.

Lemma set_text_nested (ns : string) (val : JS.value) (names : list string) :
  forall name,
    DOM.modify (repeat O (List.length names))
      (fun n => match n with
                | DOM.Element t ns a _ _ => DOM.Element t ns a (Some val) []
                end)
      (nested ns name names None)
    = nested ns name names (Some val).
Proof.
  induction names as [|name' rest IH]; intro name; cbn; [reflexivity|].
  now rewrite IH.
Qed.

Lemma last_cons_default {A} (l : list A) (x d : A) : last (x :: l) d = last l x.
Proof.
  destruct l as [|y l]; [reflexivity|].
  change (last (x :: y :: l) d) with (last (y :: l) d).
  generalize d x y. clear. induction l as [|z l IH]; intros d x y;
    [reflexivity|].
  change (last (y :: z :: l) d) with (last (z :: l) d).
  change (last (y :: z :: l) x) with (last (z :: l) x).
  apply IH.
Qed.

Lemma lookup_nested (ns : string) (text : option JS.value)
    (names : list string) :
  forall name,
    DOM.lookup (repeat O (List.length names)) (nested ns name names text)
    = Some (DOM.Element (last names name) ns [] text []).
Proof.
  induction names as [|name' rest IH]; intro name; [reflexivity|].
  cbn [List.length repeat nested DOM.lookup DOM.childNodes nth_error].
  rewrite IH. f_equal. f_equal. symmetry. apply last_cons_default.
Qed.

Lemma lookup_appended_below (p q : DOM.path) (c root m : DOM.node) :
  DOM.lookup p root = Some m ->
  DOM.lookup (p ++ List.length (DOM.childNodes m) :: q)%list
    (append_at p c root)
  = DOM.lookup q c.
Proof.
  intro H. unfold append_at. rewrite lookup_app.
  rewrite (lookup_modify _ _ _ _ H). cbn [DOM.lookup].
  rewrite SerializationFacts.childNodes_set, nth_error_app2 by lia.
  rewrite Nat.sub_diag. reflexivity.
Qed.

End DOMFacts.

(** X17.  Given element names made of letters, the helpers
    [createXMLHelper] returns append to the node they are given one
    element per name, each inside the one before, and return the
    innermost.  With [withVal] the innermost gets the value
    as its text; a helper that is not [required] does this only when
    the value holds something or is the number 0, and otherwise returns
    [null] and leaves the tree as it was. *)
Theorem createXMLHelper_appends_nested (doc : DOM.document)
    (required : bool) (name : string) (names : list string) (val : JS.value)
    (p : DOM.path) (root m : DOM.node)
    (Hnames : forallb letters_only (name :: names) = true)
    (H : DOM.lookup p root = Some m) :
  let ns := DOM.namespaceURI (DOM.documentElement doc) in
  let innermost :=
    (p ++ List.length (DOM.childNodes m)
       :: repeat O (List.length names))%list in
  createXMLHelper doc required true (Some p)
    (map JS.VStr (name :: names) ++ [val])%list root
  = (if required || JS.truthy val || JS.is_zero val
     then JS.Ok (Some innermost,
                 append_at p (nested ns name names (Some val)) root)
     else JS.Ok (None, root))
  /\ createXMLHelper doc true false (Some p) (map JS.VStr (name :: names)) root
     = JS.Ok (Some innermost, append_at p (nested ns name names None) root)
  /\ DOM.lookup innermost (append_at p (nested ns name names (Some val)) root)
     = Some (DOM.Element (last names name) ns [] (Some val) []).
Proof.
  intros ns innermost. subst innermost. split; [|split].
  - unfold createXMLHelper.
    rewrite last_last, removelast_last.
    destruct (required || JS.truthy val || JS.is_zero val); [|reflexivity].
    unfold DOM.bindB.
    rewrite (DOMFacts.createXMLHelper_loop_nested doc names name p root m H).
    unfold DOM.set_textContent, DOM.ret. fold ns.
    rewrite (DOMFacts.modify_appended p _ _ _ root m H).
    rewrite DOMFacts.set_text_nested. reflexivity.
  - unfold createXMLHelper. cbn [orb].
    unfold DOM.bindB.
    rewrite (DOMFacts.createXMLHelper_loop_nested doc names name p root m H).
    reflexivity.
  - rewrite (DOMFacts.lookup_appended_below p _ _ root m H).
    apply DOMFacts.lookup_nested.
Qed.

(** X17, witness: the scheme of the creditor id under an empty
    [PmtInf]. *)
Lemma createXMLHelper_appends_nested_witness :
  let doc := @Examples.dom_document "pain.008.001.02" in
  let ns := "urn:iso:std:iso:20022:tech:xsd:pain.008.001.02" in
  let pmtInf := DOM.Element "PmtInf" ns [] None [] in
  createXMLHelper doc false true (Some [])
    [: "SchmeNm"; "Prtry"; "SEPA" :] pmtInf
  = JS.Ok (Some [O; O],
           DOM.Element "PmtInf" ns [] None
             [DOM.Element "SchmeNm" ns [] None
                [DOM.Element "Prtry" ns [] (Some (JS.VStr "SEPA")) []]])
  /\ createXMLHelper doc true false (Some [])
       [: "SchmeNm"; "Prtry" :] pmtInf
     = JS.Ok (Some [O; O],
              DOM.Element "PmtInf" ns [] None
                [DOM.Element "SchmeNm" ns [] None
                   [DOM.Element "Prtry" ns [] None []]]).
Proof.
  cbv zeta.
  destruct (createXMLHelper_appends_nested
              (Examples.dom_document "pain.008.001.02") false
              "SchmeNm" ["Prtry"] "SEPA" []
              (DOM.Element "PmtInf"
                 "urn:iso:std:iso:20022:tech:xsd:pain.008.001.02" [] None [])
              _ eq_refl eq_refl) as (H1 & H2 & _).
  split; [exact H1 | exact H2].
Defined.

(* ================================================================== *)
(** * Further properties of the serializer *)
(* ================================================================== *)

Module MoreSerializationFacts.

Section WithHost.
Context {host : JS.Host}.

Ltac run_builder :=
  lazy beta iota zeta delta
    [DOM.build DOM.bindB DOM.lift DOM.ret DOM.appendChild DOM.set_textContent
     DOM.setAttribute DOM.modify DOM.map_nth DOM.lookup DOM.child_count
     DOM.createElementNS DOM.qualified_name DOM.set_childNodes DOM.childNodes
     DOM.add_attribute DOM.namespaceURI DOM.documentElement DOM.implementation
     JS.bind createXMLHelper createXMLHelper_loop
     last removelast app List.length nth_error orb negb andb fst snd].

Ltac run_names :=
  lazy beta iota zeta delta
    [String.append String.eqb Ascii.eqb Bool.eqb
     SepaPaymentInfo.get SepaPaymentInfo.PaymentInfoTypes_eqb
     SepaPaymentInfo.PaymentInfoTypes_value
     SepaTransaction.get SepaTransaction.TransactionTypes_eqb
     SepaTransaction.TransactionTypes_value].

Ltac split_tests :=
  repeat match goal with
  | |- context [if ?b then _ else _] => destruct b eqn:?
  end.

Ltac in_the_namespace :=
  cbn [in_namespace forallb text_element]; rewrite ?String.eqb_refl;
  reflexivity.

(** What [SepaTransaction.toXML] returns: its children in order, the
    [Purp] element, the agent and the amount; all of it in the
    namespace of the document. *)
Lemma Transaction_toXML_facts (this : SepaTransaction.t)
    (doc : DOM.document) :
  let ns := DOM.namespaceURI (DOM.documentElement doc) in
  let transfer :=
    match SepaTransaction._type this with
    | SepaTransaction.Transfer => true
    | SepaTransaction.DirectDebit => false
    end in
  let party := if transfer then "creditor" else "debtor" in
  match SepaTransaction.toXML this doc with
  | JS.Ok txInf =>
      child_tags txInf = TxInf_child_tags this
      /\ child "Purp" txInf
         = (if negb (JS.strict_eq
                       (getPainXMLVersion (SepaTransaction._painFormat this))
                       (JS.num 3))
               && (JS.truthy (SepaTransaction.purposeCode this)
                   || JS.is_zero (SepaTransaction.purposeCode this))
            then Some (DOM.Element "Purp" ns [] None
                         [text_element ns "Cd"
                            (SepaTransaction.purposeCode this)])
            else None)
      /\ child (if transfer then "CdtrAgt" else "DbtrAgt") txInf
         = Some (DOM.Element (if transfer then "CdtrAgt" else "DbtrAgt")
                   ns [] None
                   [DOM.Element "FinInstnId" ns [] None
                      (if JS.truthy (SepaTransaction.get this (party ++ "BIC"))
                       then [text_element ns "BIC"
                               (SepaTransaction.get this (party ++ "BIC"))]
                       else [DOM.Element "Othr" ns [] None
                               [text_element ns "Id" "NOTPROVIDED"]])])
      /\ (if transfer
          then match child "Amt" txInf with
               | Some amt => DOM.childNodes amt
               | None => []
               end
          else match child "InstdAmt" txInf with
               | Some instdAmt => [instdAmt]
               | None => []
               end)
         = [DOM.Element "InstdAmt" ns
              [ {| DOM.attr_namespaceURI := None;
                   DOM.attr_name := "Ccy";
                   DOM.attr_value := SepaTransaction.currency this |} ]
              (Some (JS.VStr (JS.toFixed (SepaTransaction.amount this) 2)))
              []]
      /\ match SepaTransaction._type this,
               JS.toISOString (SepaTransaction.mandateSignatureDate this) with
         | SepaTransaction.DirectDebit, JS.Ok iso =>
             child "DrctDbtTx" txInf
             = Some (DOM.Element "DrctDbtTx" ns [] None
                       [DOM.Element "MndtRltdInf" ns [] None
                          (text_element ns "MndtId"
                             (SepaTransaction.mandateId this)
                           :: text_element ns "DtOfSgntr"
                                (JS.VStr (JS.substr iso 0 (Some 10)))
                           :: if JS.truthy (SepaTransaction.ammendment this)
                              then [text_element ns "AmdmntInd" "true";
                                    text_element ns "AmdmnInfDtls"
                                      (SepaTransaction.ammendment this)]
                              else [text_element ns "AmdmntInd" "false"])])
         | SepaTransaction.DirectDebit, JS.Throw _ => True
         | SepaTransaction.Transfer, _ => child "DrctDbtTx" txInf = None
         end
      /\ in_namespace ns txInf = true
  | JS.Throw _ => True
  end.
Proof.
  unfold SepaTransaction.toXML, TxInf_child_tags.
  destruct doc as [impl [tag ns attrs text cs]].
  destruct (SepaTransaction._type this); run_names.
  all: destruct (JS.strict_eq _ _) eqn:Hv;
    destruct (JS.truthy (SepaTransaction.purposeCode this)) eqn:Hpc;
    destruct (JS.is_zero (SepaTransaction.purposeCode this)) eqn:Hz.
  all: cbn [negb andb orb]; split_tests.
  all: try (destruct (JS.toISOString _) as [iso|e]).
  all: run_builder; rewrite ?Hpc, ?Hz; run_builder.
  all: first [ exact I
             | split; [reflexivity|]; split; [reflexivity|];
               split; [reflexivity|]; split; [reflexivity|];
               split; [reflexivity|]; in_the_namespace ].
Qed.

(** What [SepaPaymentInfo.toXML] returns: the children it builds itself
    (their tags in order; the count and the sum; the party of the block
    with its address; the agent), followed by the transactions. *)
Lemma PaymentInfo_toXML_facts (this : SepaPaymentInfo.t)
    (doc : DOM.document) :
  let ns := DOM.namespaceURI (DOM.documentElement doc) in
  let debit :=
    match SepaPaymentInfo.method this with
    | SepaPaymentInfo.DirectDebit => true
    | SepaPaymentInfo.Transfer => false
    end in
  let party := if debit then "creditor" else "debtor" in
  let tag := if debit then "Cdtr" else "Dbtr" in
  let v3 :=
    JS.strict_eq (getPainXMLVersion (SepaPaymentInfo._painFormat this))
      (JS.num 3) in
  let agent := if v3 then "Agt" else "Agnt" in
  exists children : string -> list DOM.node,
    (forall iso,
       let own := DOM.Element "PmtInf" ns [] None (children iso) in
       child_tags own = PmtInf_child_tags this
       /\ child "NbOfTxs" own
          = (if v3
             then Some (text_element ns "NbOfTxs"
                          (JS.VNum (JS.num
                             (SepaPaymentInfo.transactionCount this))))
             else None)
       /\ child "CtrlSum" own
          = (if v3
             then Some (text_element ns "CtrlSum"
                          (JS.VStr (JS.toFixed
                             (SepaPaymentInfo.controlSum this) 2)))
             else None)
       /\ child tag own
          = Some (DOM.Element tag ns [] None
                    (text_element ns "Nm"
                       (SepaPaymentInfo.get this (party ++ "Name"))
                     :: if JS.truthy
                             (SepaPaymentInfo.get this (party ++ "Street"))
                           && JS.truthy
                                (SepaPaymentInfo.get this (party ++ "City"))
                           && JS.truthy
                                (SepaPaymentInfo.get this (party ++ "Country"))
                        then [DOM.Element "PstlAdr" ns [] None
                                [text_element ns "Ctry"
                                   (SepaPaymentInfo.get this
                                      (party ++ "Country"));
                                 text_element ns "AdrLine"
                                   (SepaPaymentInfo.get this
                                      (party ++ "Street"));
                                 text_element ns "AdrLine"
                                   (SepaPaymentInfo.get this
                                      (party ++ "City"))]]
                        else []))
       /\ child (tag ++ agent) own
          = Some (DOM.Element (tag ++ agent) ns [] None
                    [DOM.Element "FinInstnId" ns [] None
                       (if JS.truthy
                             (SepaPaymentInfo.get this (party ++ "BIC"))
                        then [text_element ns "BIC"
                                (SepaPaymentInfo.get this (party ++ "BIC"))]
                        else [DOM.Element "Othr" ns [] None
                                [text_element ns "Id" "NOTPROVIDED"]])])
       /\ child (if debit then "ReqdColltnDt" else "ReqdExctnDt") own
          = Some (text_element ns
                    (if debit then "ReqdColltnDt" else "ReqdExctnDt")
                    (JS.VStr (JS.substr iso 0 (Some 10))))
       /\ forallb (in_namespace ns) (children iso) = true)
    /\ SepaPaymentInfo.toXML this doc
       = JS.bind (JS.toISOString (batch_date this)) (fun iso =>
         JS.bind (JS.mapM (fun pmt => SepaTransaction.toXML pmt doc)
                    (SepaPaymentInfo._payments this)) (fun txInfs =>
         JS.Ok (DOM.Element "PmtInf" ns [] None
                  (children iso ++ txInfs)%list))).
Proof.
  unfold SepaPaymentInfo.toXML, PmtInf_child_tags, batch_date.
  destruct (SepaPaymentInfo.method this); run_names; split_tests.
  all: eexists; split;
    [ | destruct (JS.toISOString _) as [iso|e]; run_builder;
        [ match goal with
          | |- context [forEach ?l ?body ?root] =>
              change (forEach l body root)
                with (forEach l (fun x =>
                        el <~ DOM.lift (SepaTransaction.toXML x doc) ;;
                        DOM.appendChild (Some []) el ;;; DOM.ret tt) root)
          end;
          rewrite SerializationFacts.forEach_appendChild;
          destruct (JS.mapM _ _) as [txInfs|e];
          [ cbn [DOM.set_childNodes DOM.childNodes];
            instantiate (1 := fun iso => _); reflexivity
          | reflexivity ]
        | reflexivity ] ].
  all: intro iso; split; [reflexivity|]; split; [reflexivity|];
    split; [reflexivity|]; split; [reflexivity|]; split; [reflexivity|];
    split; [reflexivity|]; in_the_namespace.
Qed.

(** What [SepaGroupHeader.toXML] returns: the texts of its children. *)
Lemma GroupHeader_toXML_facts (this : SepaGroupHeader.t)
    (doc : DOM.document) :
  let ns := DOM.namespaceURI (DOM.documentElement doc) in
  match SepaGroupHeader.toXML this doc with
  | JS.Ok hdr =>
      child "MsgId" hdr
      = Some (text_element ns "MsgId" (SepaGroupHeader.id this))
      /\ child "NbOfTxs" hdr
         = Some (text_element ns "NbOfTxs"
                   (JS.VNum (JS.num (SepaGroupHeader.transactionCount this))))
      /\ child "CtrlSum" hdr
         = Some (text_element ns "CtrlSum"
                   (JS.VStr (JS.toFixed (SepaGroupHeader.controlSum this) 2)))
      /\ child "InitgPty" hdr
         = Some (DOM.Element "InitgPty" ns [] None
                   [text_element ns "Nm" (SepaGroupHeader.initiatorName this)])
      /\ match JS.toISOString (SepaGroupHeader.created this) with
         | JS.Ok iso =>
             child "CreDtTm" hdr
             = Some (text_element ns "CreDtTm" (JS.VStr iso))
         | JS.Throw _ => True
         end
      /\ in_namespace ns hdr = true
  | JS.Throw _ => True
  end.
Proof.
  unfold SepaGroupHeader.toXML.
  destruct doc as [impl [tag ns attrs text cs]].
  destruct (JS.strict_eq _ _);
    (destruct (JS.toISOString _) as [iso|e]; run_builder;
     [ split; [reflexivity|]; split; [reflexivity|]; split; [reflexivity|];
       split; [reflexivity|]; split; [reflexivity|]; in_the_namespace
     | exact I ]).
Qed.

Lemma toISOString_date_present (d : option JS.Date) (iso : string) :
  JS.toISOString d = JS.Ok iso -> date_present d = true.
Proof. destruct d as [[?|]|]; cbn; intro H; (reflexivity || discriminate). Qed.

Lemma Transaction_toXML_dates (this : SepaTransaction.t) (doc : DOM.document)
    (txInf : DOM.node) :
  SepaTransaction.toXML this doc = JS.Ok txInf ->
  transaction_dates_present this = true.
Proof.
  destruct (SerializationFacts.Transaction_toXML_eq this doc) as [children ->].
  unfold transaction_dates_present.
  destruct (SepaTransaction._type this); [|reflexivity].
  destruct (JS.toISOString _) as [iso|e] eqn:E; cbn [JS.bind];
    [|discriminate].
  intros _. exact (toISOString_date_present _ _ E).
Qed.

Lemma PaymentInfo_toXML_inv (this : SepaPaymentInfo.t) (doc : DOM.document)
    (pmtInf : DOM.node) :
  SepaPaymentInfo.toXML this doc = JS.Ok pmtInf ->
  exists iso txInfs,
    JS.toISOString (batch_date this) = JS.Ok iso
    /\ Forall2 (fun pmt txInf => SepaTransaction.toXML pmt doc = JS.Ok txInf)
         (SepaPaymentInfo._payments this) txInfs.
Proof.
  destruct (SerializationFacts.PaymentInfo_toXML_eq this doc)
    as (children & _ & ->).
  destruct (JS.toISOString _) as [iso|e]; cbn [JS.bind]; [|discriminate].
  destruct (JS.mapM _ _) as [txInfs|e] eqn:Hm; cbn [JS.bind]; [|discriminate].
  intros _. exists iso, txInfs. split; [reflexivity|].
  exact (SerializationFacts.mapM_Forall2 _ _ _ Hm).
Qed.

Lemma PaymentInfo_toXML_dates (this : SepaPaymentInfo.t) (doc : DOM.document)
    (pmtInf : DOM.node) :
  SepaPaymentInfo.toXML this doc = JS.Ok pmtInf ->
  batch_dates_present this = true.
Proof.
  intro H. destruct (PaymentInfo_toXML_inv _ _ _ H) as (iso & txInfs & Hd & Hp).
  unfold batch_dates_present.
  rewrite (toISOString_date_present _ _ Hd). cbn [andb].
  clear -Hp. induction Hp as [|pmt txInf l l' Hx _ IH]; cbn [forallb];
    [reflexivity|].
  rewrite (Transaction_toXML_dates _ _ _ Hx), IH. reflexivity.
Qed.

Lemma GroupHeader_toXML_dates (this : SepaGroupHeader.t) (doc : DOM.document)
    (hdr : DOM.node) :
  SepaGroupHeader.toXML this doc = JS.Ok hdr ->
  date_present (SepaGroupHeader.created this) = true.
Proof.
  destruct (SerializationFacts.GroupHeader_toXML_eq this doc)
    as (children & _ & ->).
  destruct (JS.toISOString _) as [iso|e] eqn:E; cbn [JS.bind];
    [|discriminate].
  intros _. exact (toISOString_date_present _ _ E).
Qed.

Lemma normalize_batch_dates (pi : SepaPaymentInfo.t) :
  batch_dates_present (SepaPaymentInfo.normalize pi) = batch_dates_present pi.
Proof.
  reflexivity.
Qed.

Lemma find_app {A} (f : A -> bool) (l l' : list A) :
  find f (l ++ l')%list
  = match find f l with Some x => Some x | None => find f l' end.
Proof.
  induction l as [|x l IH]; cbn [find app]; [reflexivity|].
  destruct (f x); auto.
Qed.

Lemma find_tag_none (t : string) (l : list DOM.node) :
  ~ In t (map DOM.tagName l) ->
  find (fun c => (DOM.tagName c =? t)%string) l = None.
Proof.
  induction l as [|x l IH]; cbn [find map]; [reflexivity|].
  intro H. destruct (String.eqb_spec (DOM.tagName x) t) as [E|_].
  - exfalso. apply H. left. exact E.
  - apply IH. intro Hin. apply H. right. exact Hin.
Qed.

(** The transactions among the children of a serialized block are as
    many as the block holds. *)
Lemma transaction_elements_length (this : SepaPaymentInfo.t)
    (doc : DOM.document) (pmtInf : DOM.node) :
  SepaPaymentInfo.toXML this doc = JS.Ok pmtInf ->
  List.length (transaction_elements pmtInf)
  = List.length (SepaPaymentInfo._payments this).
Proof.
  intro H.
  apply SerializationFacts.PaymentInfo_toXML_child_tags in H as [_ H].
  unfold transaction_elements, child_tags in *.
  set (P := fun t => (t =? "DrctDbtTxInf")%string
                     || (t =? "CdtTrfTxInf")%string).
  assert (E : forall l, List.length (filter (fun c => P (DOM.tagName c)) l)
                        = List.length (filter P (map DOM.tagName l))).
  { induction l as [|x l IH]; cbn [filter map]; [reflexivity|].
    destruct (P (DOM.tagName x)); cbn [List.length]; now rewrite IH. }
  change (List.length (filter (fun c => P (DOM.tagName c))
                         (DOM.childNodes pmtInf))
          = List.length (SepaPaymentInfo._payments this)).
  rewrite E, H, filter_app, length_app.
  assert (E1 : filter P (PmtInf_child_tags this) = []).
  { unfold PmtInf_child_tags.
    destruct (JS.strict_eq _ _), (SepaPaymentInfo.method this);
      vm_compute; reflexivity. }
  rewrite E1. cbn [List.length plus]. clear.
  induction (SepaPaymentInfo._payments this) as [|pmt l IH]; [reflexivity|].
  cbn [map filter]. destruct (SepaTransaction._type pmt);
    cbn [SepaTransaction.TransactionTypes_value].
  - change (P "DrctDbtTxInf") with true. cbn [List.length]. now rewrite IH.
  - change (P "CdtTrfTxInf") with true. cbn [List.length]. now rewrite IH.
Qed.

Lemma Transaction_in_namespace (this : SepaTransaction.t)
    (doc : DOM.document) (txInf : DOM.node) :
  SepaTransaction.toXML this doc = JS.Ok txInf ->
  in_namespace (DOM.namespaceURI (DOM.documentElement doc)) txInf = true.
Proof.
  intro H. pose proof (Transaction_toXML_facts this doc) as F.
  cbv zeta in F. rewrite H in F. apply F.
Qed.

Lemma child_own (t tag ns : string) (own txInfs : list DOM.node)
    (l : list SepaTransaction.t) (r : option DOM.node) :
  map DOM.tagName txInfs
  = map (fun pmt => SepaTransaction.TransactionTypes_value
                      (SepaTransaction._type pmt)) l ->
  child t (DOM.Element tag ns [] None own) = r ->
  (r = None -> In t ["BtchBookg"; "NbOfTxs"; "CtrlSum"]) ->
  child t (DOM.Element tag ns [] None (own ++ txInfs)) = r.
Proof.
  unfold child. cbn [DOM.childNodes]. intros Htags Hown Hnone.
  rewrite find_app, Hown.
  destruct r as [c|]; [reflexivity|].
  apply find_tag_none. rewrite Htags.
  apply FamilyFacts.transaction_tags_apart, Hnone. reflexivity.
Qed.

(** A serialized block, as [SepaPaymentInfo.toXML] returns it. *)
Lemma PaymentInfo_toXML_result (this : SepaPaymentInfo.t)
    (doc : DOM.document) (pmtInf : DOM.node) :
  let ns := DOM.namespaceURI (DOM.documentElement doc) in
  let debit :=
    match SepaPaymentInfo.method this with
    | SepaPaymentInfo.DirectDebit => true
    | SepaPaymentInfo.Transfer => false
    end in
  let party := if debit then "creditor" else "debtor" in
  let tag := if debit then "Cdtr" else "Dbtr" in
  let v3 :=
    JS.strict_eq (getPainXMLVersion (SepaPaymentInfo._painFormat this))
      (JS.num 3) in
  let agent := if v3 then "Agt" else "Agnt" in
  SepaPaymentInfo.toXML this doc = JS.Ok pmtInf ->
  child "NbOfTxs" pmtInf
  = (if v3
     then Some (text_element ns "NbOfTxs"
                  (JS.VNum (JS.num (SepaPaymentInfo.transactionCount this))))
     else None)
  /\ child "CtrlSum" pmtInf
     = (if v3
        then Some (text_element ns "CtrlSum"
                     (JS.VStr (JS.toFixed (SepaPaymentInfo.controlSum this) 2)))
        else None)
  /\ child tag pmtInf
     = Some (DOM.Element tag ns [] None
               (text_element ns "Nm"
                  (SepaPaymentInfo.get this (party ++ "Name"))
                :: if JS.truthy
                        (SepaPaymentInfo.get this (party ++ "Street"))
                      && JS.truthy
                           (SepaPaymentInfo.get this (party ++ "City"))
                      && JS.truthy
                           (SepaPaymentInfo.get this (party ++ "Country"))
                   then [DOM.Element "PstlAdr" ns [] None
                           [text_element ns "Ctry"
                              (SepaPaymentInfo.get this (party ++ "Country"));
                            text_element ns "AdrLine"
                              (SepaPaymentInfo.get this (party ++ "Street"));
                            text_element ns "AdrLine"
                              (SepaPaymentInfo.get this (party ++ "City"))]]
                   else []))
  /\ child (tag ++ agent) pmtInf
     = Some (DOM.Element (tag ++ agent) ns [] None
               [DOM.Element "FinInstnId" ns [] None
                  (if JS.truthy (SepaPaymentInfo.get this (party ++ "BIC"))
                   then [text_element ns "BIC"
                           (SepaPaymentInfo.get this (party ++ "BIC"))]
                   else [DOM.Element "Othr" ns [] None
                           [text_element ns "Id" "NOTPROVIDED"]])])
  /\ (exists iso,
        JS.toISOString (batch_date this) = JS.Ok iso
        /\ child (if debit then "ReqdColltnDt" else "ReqdExctnDt") pmtInf
           = Some (text_element ns
                     (if debit then "ReqdColltnDt" else "ReqdExctnDt")
                     (JS.VStr (JS.substr iso 0 (Some 10)))))
  /\ in_namespace ns pmtInf = true.
Proof.
  intros ns debit party tag v3 agent.
  destruct (PaymentInfo_toXML_facts this doc)
    as (children & Hfacts & ->).
  destruct (JS.toISOString _) as [iso|e]; cbn [JS.bind]; [|discriminate].
  destruct (JS.mapM _ _) as [txInfs|e] eqn:Hm; cbn [JS.bind]; [|discriminate].
  intro H. injection H as <-.
  destruct (Hfacts iso) as (_ & Hnb & Hsum & Hparty & Hagent & Hdate & Hns).
  pose proof (SerializationFacts.Transactions_toXML_tags _ _ _ Hm) as Htags.
  fold ns debit party tag v3 agent
    in Hnb, Hsum, Hparty, Hagent, Hdate, Hns |- *.
  split; [|split; [|split; [|split; [|split]]]].
  - apply (child_own _ _ _ _ _ _ _ Htags Hnb). intros _. cbn. tauto.
  - apply (child_own _ _ _ _ _ _ _ Htags Hsum). intros _. cbn. tauto.
  - apply (child_own _ _ _ _ _ _ _ Htags Hparty). discriminate.
  - apply (child_own _ _ _ _ _ _ _ Htags Hagent). discriminate.
  - exists iso. split; [reflexivity|].
    apply (child_own _ _ _ _ _ _ _ Htags Hdate). discriminate.
  - cbn [in_namespace]. rewrite String.eqb_refl, forallb_app, Hns.
    cbn [andb]. apply SerializationFacts.mapM_Forall2 in Hm.
    subst ns. clear -Hm.
    induction Hm as [|pmt txInf l l' Hx _ IH]; cbn [forallb]; [reflexivity|].
    rewrite (Transaction_in_namespace _ _ _ Hx), IH. reflexivity.
Qed.

Lemma GroupHeader_toXML_result (this : SepaGroupHeader.t)
    (doc : DOM.document) (hdr : DOM.node) :
  let ns := DOM.namespaceURI (DOM.documentElement doc) in
  SepaGroupHeader.toXML this doc = JS.Ok hdr ->
  child "MsgId" hdr
  = Some (text_element ns "MsgId" (SepaGroupHeader.id this))
  /\ child "NbOfTxs" hdr
     = Some (text_element ns "NbOfTxs"
               (JS.VNum (JS.num (SepaGroupHeader.transactionCount this))))
  /\ child "CtrlSum" hdr
     = Some (text_element ns "CtrlSum"
               (JS.VStr (JS.toFixed (SepaGroupHeader.controlSum this) 2)))
  /\ child "InitgPty" hdr
     = Some (DOM.Element "InitgPty" ns [] None
               [text_element ns "Nm" (SepaGroupHeader.initiatorName this)])
  /\ (exists iso,
        JS.toISOString (SepaGroupHeader.created this) = JS.Ok iso
        /\ child "CreDtTm" hdr
           = Some (text_element ns "CreDtTm" (JS.VStr iso)))
  /\ in_namespace ns hdr = true.
Proof.
  intros ns H.
  pose proof (GroupHeader_toXML_facts this doc) as F.
  cbv zeta in F. rewrite H in F.
  destruct F as (F1 & F2 & F3 & F4 & F5 & F6).
  split; [exact F1|]. split; [exact F2|]. split; [exact F3|].
  split; [exact F4|]. split; [|exact F6].
  apply GroupHeader_toXML_dates in H.
  destruct (SerializationFacts.date_present_toISOString _ H) as [iso E].
  rewrite E in F5. exists iso. split; [exact E | exact F5].
Qed.

Lemma flat_map_length_Forall2 {A B C D} (f : A -> list C) (g : B -> list D)
    (l : list A) (l' : list B) :
  Forall2 (fun x y => List.length (g y) = List.length (f x)) l l' ->
  List.length (flat_map g l') = List.length (flat_map f l).
Proof.
  induction 1 as [|x y l l' H _ IH]; cbn [flat_map]; [reflexivity|].
  rewrite !length_app, H, IH. reflexivity.
Qed.







End WithHost.
End MoreSerializationFacts.

(** X18.  [toXML] of a document returns a DOM document exactly when the
    header has a valid date, every block has a valid date of the kind
    its method asks for, every direct debit transaction has a valid
    mandate date, and the DOM accepts the root tag; in every other case
    it throws. *)
Theorem toXML_completes_iff {host : JS.Host} (d : SepaDocument.t) :
  (exists doc, snd (SepaDocument.toXML d) = JS.Ok doc)
  <-> (dates_present d = true
       /\ exists name,
            DOM.qualified_name JS.host_dom (SepaDocument._type d)
            = JS.Ok name).
Proof.
  split.
  - intros [doc H].
    destruct (SerializationFacts.Document_toXML_inv d doc H)
      as (name & hdr & pmtInfs & Hn & Hh & Hp & _).
    split; [|exists name; exact Hn].
    unfold dates_present.
    apply MoreSerializationFacts.GroupHeader_toXML_dates in Hh.
    destruct (EntityFacts.normalize_grpHdr d) as (c & n & E).
    rewrite E in Hh.
    cbn [SepaGroupHeader.created SepaGroupHeader.set_sums] in Hh.
    rewrite Hh. cbn [andb].
    clear -Hp. induction Hp as [|pi pmtInf l l' Hx _ IH]; cbn [forallb];
      [reflexivity|].
    apply MoreSerializationFacts.PaymentInfo_toXML_dates in Hx.
    rewrite MoreSerializationFacts.normalize_batch_dates in Hx.
    rewrite Hx, IH. reflexivity.
  - intros [Hd [name Hn]].
    exact (SerializationFacts.Document_toXML_ok d name Hd Hn).
Qed.



(** X20.  Every element of the document [toXML] returns, the document
    element included, is in the namespace of the format,
    [urn:iso:std:iso:20022:tech:xsd:<format>]. *)
Theorem elements_in_document_namespace {host : JS.Host}
    (d : SepaDocument.t) (doc : DOM.document)
    (H : snd (SepaDocument.toXML d) = JS.Ok doc) :
  in_namespace
    ("urn:iso:std:iso:20022:tech:xsd:" ++ SepaDocument._painFormat d)
    (DOM.documentElement doc) = true.
Proof.
  destruct (SerializationFacts.Document_toXML_inv d doc H)
    as (name & hdr & pmtInfs & _ & Hh & Hp & ->).
  cbn [DOM.documentElement in_namespace forallb].
  rewrite !String.eqb_refl. cbn [andb]. rewrite andb_true_r.
  apply MoreSerializationFacts.GroupHeader_toXML_result in Hh
    as (_ & _ & _ & _ & _ & Hns).
  change (DOM.namespaceURI (DOM.documentElement (document_of d)))
    with ("urn:iso:std:iso:20022:tech:xsd:" ++ SepaDocument._painFormat d)
    in Hns.
  rewrite Hns. cbn [andb].
  clear -Hp. induction Hp as [|pi pmtInf l l' Hx _ IH]; cbn [forallb];
    [reflexivity|].
  apply MoreSerializationFacts.PaymentInfo_toXML_result in Hx
    as (_ & _ & _ & _ & _ & Hns).
  change (DOM.namespaceURI (DOM.documentElement (document_of d)))
    with ("urn:iso:std:iso:20022:tech:xsd:" ++ SepaDocument._painFormat d)
    in Hns.
  rewrite Hns, IH. reflexivity.
Qed.

(** X20, witness: the direct debit document with a block of two
    transactions. *)
Lemma elements_in_document_namespace_witness :
  exists doc,
    snd (@SepaDocument.toXML Examples.node_host
           (Examples.document_with_block "pain.008.001.02")) = JS.Ok doc
    /\ in_namespace "urn:iso:std:iso:20022:tech:xsd:pain.008.001.02"
         (DOM.documentElement doc) = true.
Proof.
  assert (Hdoc : exists doc,
            snd (@SepaDocument.toXML Examples.node_host
                   (Examples.document_with_block "pain.008.001.02"))
            = JS.Ok doc).
  { eexists. vm_compute. reflexivity. }
  destruct Hdoc as [doc Hdoc].
  exists doc. split; [exact Hdoc|].
  exact (@elements_in_document_namespace Examples.node_host _ doc Hdoc).
Defined.

(** X21.  In the document [toXML] returns, the children of the header
    and of every block come in a fixed order: for the header the
    message id, the creation time and the sums (with [BtchBookg] before
    and [Grpg] after the sums in family 2), then the initiating party;
    for a block its id, method, (in family 3) its sums, then type,
    date, party, account, agent, charge bearer, (for direct debits) the
    creditor scheme, and after these one element per transaction, in
    the order the transactions were added. *)
Theorem header_and_batch_children_in_order {host : JS.Host}
    (d : SepaDocument.t) (doc : DOM.document)
    (H : snd (SepaDocument.toXML d) = JS.Ok doc) :
  exists root hdr pmtInfs,
    DOM.childNodes (DOM.documentElement doc) = [root]
    /\ DOM.qualified_name JS.host_dom (SepaDocument._type d)
       = JS.Ok (DOM.tagName root)
    /\ DOM.childNodes root = hdr :: pmtInfs
    /\ child_tags hdr = GrpHdr_child_tags (SepaDocument.grpHdr d)
    /\ Forall2
         (fun pi pmtInf =>
            child_tags pmtInf
            = (PmtInf_child_tags pi
               ++ map (fun pmt => SepaTransaction.TransactionTypes_value
                                    (SepaTransaction._type pmt))
                    (SepaPaymentInfo._payments pi))%list)
         (SepaDocument._paymentInfo d) pmtInfs.
Proof.
  destruct (SerializationFacts.Document_toXML_inv d doc H)
    as (name & hdr & pmtInfs & Hn & Hh & Hp & ->).
  do 3 eexists. split; [reflexivity|]. split; [exact Hn|].
  split; [reflexivity|]. split.
  - apply SerializationFacts.GroupHeader_toXML_tags in Hh as (_ & Hh & _).
    rewrite Hh. destruct (EntityFacts.normalize_grpHdr d) as (c & n & ->).
    reflexivity.
  - apply (SerializationFacts.Forall2_impl_In _ _ _ _ Hp).
    intros pi pmtInf _ Hx.
    apply SerializationFacts.PaymentInfo_toXML_child_tags in Hx as [_ Hx].
    exact Hx.
Qed.

(** X21, witness: a direct debit document of family 3 with one block of
    two transactions. *)
Lemma header_and_batch_children_in_order_witness :
  let d := Examples.document_with_block "pain.008.001.02" in
  exists doc root hdr pmtInfs,
    snd (@SepaDocument.toXML Examples.node_host d) = JS.Ok doc
    /\ DOM.childNodes (DOM.documentElement doc) = [root]
    /\ DOM.childNodes root = hdr :: pmtInfs
    /\ child_tags hdr = ["MsgId"; "CreDtTm"; "NbOfTxs"; "CtrlSum"; "InitgPty"]
    /\ Forall2
         (fun pi pmtInf =>
            child_tags pmtInf
            = (PmtInf_child_tags pi
               ++ map (fun pmt => SepaTransaction.TransactionTypes_value
                                    (SepaTransaction._type pmt))
                    (SepaPaymentInfo._payments pi))%list)
         (SepaDocument._paymentInfo d) pmtInfs.
Proof.
  cbv zeta.
  assert (Hdoc : exists doc,
            snd (@SepaDocument.toXML Examples.node_host
                   (Examples.document_with_block "pain.008.001.02"))
            = JS.Ok doc).
  { eexists. vm_compute. reflexivity. }
  destruct Hdoc as [doc Hdoc].
  destruct (@header_and_batch_children_in_order Examples.node_host _ doc Hdoc)
    as (root & hdr & pmtInfs & H1 & _ & H2 & H3 & H4).
  exists doc, root, hdr, pmtInfs.
  split; [exact Hdoc|]. split; [exact H1|]. split; [exact H2|].
  split; [exact H3 | exact H4].
Defined.

(** X22.  In the document [toXML] returns, the header's [NbOfTxs] is the
    number of transaction elements found under the [PmtInf] elements,
    which is the number of transactions of the document, and its
    [CtrlSum] is the sum of the amounts, block by block, with two
    decimals. *)
Theorem header_sums_match_tree {host : JS.Host} (d : SepaDocument.t)
    (doc : DOM.document)
    (H : snd (SepaDocument.toXML d) = JS.Ok doc) :
  let ns := "urn:iso:std:iso:20022:tech:xsd:" ++ SepaDocument._painFormat d in
  exists root hdr pmtInfs,
    DOM.childNodes (DOM.documentElement doc) = [root]
    /\ DOM.childNodes root = hdr :: pmtInfs
    /\ child "NbOfTxs" hdr
       = Some (text_element ns "NbOfTxs"
                 (JS.VNum (JS.num (Z.of_nat
                    (List.length (flat_map transaction_elements pmtInfs))))))
    /\ List.length (flat_map transaction_elements pmtInfs)
       = List.length (flat_map SepaPaymentInfo._payments
                        (SepaDocument._paymentInfo d))
    /\ child "CtrlSum" hdr
       = Some (text_element ns "CtrlSum"
                 (JS.VStr (JS.toFixed
                    (fold_left PrimFloat.add
                       (map (fun pi =>
                               sum_of_amounts (SepaPaymentInfo._payments pi))
                          (SepaDocument._paymentInfo d)) 0%float) 2))).
Proof.
  intro ns.
  destruct (SerializationFacts.Document_toXML_inv d doc H)
    as (name & hdr & pmtInfs & _ & Hh & Hp & ->).
  apply MoreSerializationFacts.GroupHeader_toXML_result in Hh
    as (_ & Hnb & Hsum & _).
  destruct (MoreEntityFacts.normalize_header_totals d) as [Hc Hn].
  rewrite Hn in Hnb. rewrite Hc in Hsum.
  assert (Hlen : List.length (flat_map transaction_elements pmtInfs)
                 = List.length (flat_map SepaPaymentInfo._payments
                                  (SepaDocument._paymentInfo d))).
  { apply MoreSerializationFacts.flat_map_length_Forall2.
    apply (SerializationFacts.Forall2_impl_In _ _ _ _ Hp).
    intros pi pmtInf _ Hx.
    apply MoreSerializationFacts.transaction_elements_length in Hx.
    exact Hx. }
  exists (DOM.Element name ns [] None (hdr :: pmtInfs)), hdr, pmtInfs.
  split; [reflexivity|]. split; [reflexivity|].
  rewrite Hlen. split; [exact Hnb|]. split; [reflexivity | exact Hsum].
Qed.

(** X22, witness: the document with one block of two transactions of
    10.00 and 5.50. *)
Lemma header_sums_match_tree_witness :
  exists doc root hdr pmtInfs,
    snd (@SepaDocument.toXML Examples.node_host
           (Examples.document_with_block "pain.008.001.02")) = JS.Ok doc
    /\ DOM.childNodes (DOM.documentElement doc) = [root]
    /\ DOM.childNodes root = hdr :: pmtInfs
    /\ option_map leaf (child "NbOfTxs" hdr)
       = Some ("NbOfTxs", Some (JS.VNum (JS.num 2)))
    /\ List.length (flat_map transaction_elements pmtInfs) = 2%nat
    /\ option_map leaf (child "CtrlSum" hdr)
       = Some ("CtrlSum", Some (JS.VStr "15.50")).
Proof.
  assert (Hdoc : exists doc,
            snd (@SepaDocument.toXML Examples.node_host
                   (Examples.document_with_block "pain.008.001.02"))
            = JS.Ok doc).
  { eexists. vm_compute. reflexivity. }
  destruct Hdoc as [doc Hdoc].
  destruct (@header_sums_match_tree Examples.node_host _ doc Hdoc)
    as (root & hdr & pmtInfs & H1 & H2 & H3 & H4 & H5).
  exists doc, root, hdr, pmtInfs.
  split; [exact Hdoc|]. split; [exact H1|]. split; [exact H2|].
  rewrite H3, H5, H4. repeat split.
Defined.

(** X23.  Serializing a document recomputes the sums of its blocks: in
    a block of family 3 [NbOfTxs] is the number of its transactions and
    [CtrlSum] the sum of their amounts with two decimals, whatever the
    [controlSum] of the block held before; a block of another family
    has neither element. *)
Theorem batch_sums_recomputed {host : JS.Host} (d : SepaDocument.t)
    (doc : DOM.document)
    (H : snd (SepaDocument.toXML d) = JS.Ok doc) :
  let ns := "urn:iso:std:iso:20022:tech:xsd:" ++ SepaDocument._painFormat d in
  exists root hdr pmtInfs,
    DOM.childNodes (DOM.documentElement doc) = [root]
    /\ DOM.childNodes root = hdr :: pmtInfs
    /\ Forall2
         (fun pi pmtInf =>
            let v3 :=
              JS.strict_eq
                (getPainXMLVersion (SepaPaymentInfo._painFormat pi))
                (JS.num 3) in
            child "NbOfTxs" pmtInf
            = (if v3
               then Some (text_element ns "NbOfTxs"
                            (JS.VNum (JS.num (Z.of_nat
                               (List.length (SepaPaymentInfo._payments pi))))))
               else None)
            /\ child "CtrlSum" pmtInf
               = (if v3
                  then Some (text_element ns "CtrlSum"
                               (JS.VStr (JS.toFixed
                                  (sum_of_amounts
                                     (SepaPaymentInfo._payments pi)) 2)))
                  else None))
         (SepaDocument._paymentInfo d) pmtInfs.
Proof.
  intro ns.
  destruct (SerializationFacts.Document_toXML_inv d doc H)
    as (name & hdr & pmtInfs & _ & _ & Hp & ->).
  exists (DOM.Element name ns [] None (hdr :: pmtInfs)), hdr, pmtInfs.
  split; [reflexivity|]. split; [reflexivity|].
  apply (SerializationFacts.Forall2_impl_In _ _ _ _ Hp).
  intros pi pmtInf _ Hx.
  apply MoreSerializationFacts.PaymentInfo_toXML_result in Hx
    as (Hnb & Hsum & _).
  cbv zeta. split; [exact Hnb|].
  rewrite Hsum. unfold sum_of_amounts.
  rewrite <- MoreEntityFacts.PaymentInfo_normalize_loop_sum. reflexivity.
Qed.

(** X23, witness: a block of family 3 with two transactions of 10.00
    and 5.50. *)
Lemma batch_sums_recomputed_witness :
  let d := Examples.document_with_block "pain.001.001.03" in
  let ns := "urn:iso:std:iso:20022:tech:xsd:pain.001.001.03" in
  exists doc,
    snd (@SepaDocument.toXML Examples.node_host d) = JS.Ok doc
    /\ exists root hdr pmtInfs,
         DOM.childNodes (DOM.documentElement doc) = [root]
         /\ DOM.childNodes root = hdr :: pmtInfs
         /\ Forall2
              (fun pi pmtInf =>
                 let v3 :=
                   JS.strict_eq
                     (getPainXMLVersion (SepaPaymentInfo._painFormat pi))
                     (JS.num 3) in
                 child "NbOfTxs" pmtInf
                 = (if v3
                    then Some (text_element ns "NbOfTxs"
                                 (JS.VNum (JS.num (Z.of_nat
                                    (List.length
                                       (SepaPaymentInfo._payments pi))))))
                    else None)
                 /\ child "CtrlSum" pmtInf
                    = (if v3
                       then Some (text_element ns "CtrlSum"
                                    (JS.VStr (@JS.toFixed Examples.node_host
                                       (sum_of_amounts
                                          (SepaPaymentInfo._payments pi)) 2)))
                       else None))
              (SepaDocument._paymentInfo d) pmtInfs.
Proof.
  cbv zeta.
  assert (Hdoc : exists doc,
            snd (@SepaDocument.toXML Examples.node_host
                   (Examples.document_with_block "pain.001.001.03"))
            = JS.Ok doc).
  { eexists. vm_compute. reflexivity. }
  destruct Hdoc as [doc Hdoc]. exists doc. split; [exact Hdoc|].
  exact (@batch_sums_recomputed Examples.node_host _ doc Hdoc).
Defined.

(** X24.  A serialized block names its own party ([Cdtr] for direct
    debits, [Dbtr] for transfers) and gives it a postal address exactly
    when street, city and country of that party all hold something; the
    address then holds that party's country, street and city.  With
    one of the three missing there is no address and no error. *)
Theorem batch_party_address {host : JS.Host} (this : SepaPaymentInfo.t)
    (doc : DOM.document) (pmtInf : DOM.node)
    (H : SepaPaymentInfo.toXML this doc = JS.Ok pmtInf) :
  let ns := DOM.namespaceURI (DOM.documentElement doc) in
  let debit :=
    match SepaPaymentInfo.method this with
    | SepaPaymentInfo.DirectDebit => true
    | SepaPaymentInfo.Transfer => false
    end in
  let party := if debit then "creditor" else "debtor" in
  let tag := if debit then "Cdtr" else "Dbtr" in
  child tag pmtInf
  = Some (DOM.Element tag ns [] None
            (text_element ns "Nm" (SepaPaymentInfo.get this (party ++ "Name"))
             :: if JS.truthy (SepaPaymentInfo.get this (party ++ "Street"))
                   && JS.truthy (SepaPaymentInfo.get this (party ++ "City"))
                   && JS.truthy (SepaPaymentInfo.get this (party ++ "Country"))
                then [DOM.Element "PstlAdr" ns [] None
                        [text_element ns "Ctry"
                           (SepaPaymentInfo.get this (party ++ "Country"));
                         text_element ns "AdrLine"
                           (SepaPaymentInfo.get this (party ++ "Street"));
                         text_element ns "AdrLine"
                           (SepaPaymentInfo.get this (party ++ "City"))]]
                else [])).
Proof.
  apply MoreSerializationFacts.PaymentInfo_toXML_result in H
    as (_ & _ & Hparty & _).
  exact Hparty.
Qed.

(** X24, witness: a creditor with a full address, and a debtor with a
    street only. *)
Lemma batch_party_address_witness :
  (let doc := Examples.dom_document "pain.008.001.02" in
   let ns := "urn:iso:std:iso:20022:tech:xsd:pain.008.001.02" in
   exists pmtInf,
     @SepaPaymentInfo.toXML Examples.node_host MoreExamples.creditor_block doc
     = JS.Ok pmtInf
     /\ child "Cdtr" pmtInf
        = Some (DOM.Element "Cdtr" ns [] None
                  [text_element ns "Nm" "Creditor";
                   DOM.Element "PstlAdr" ns [] None
                     [text_element ns "Ctry" "DE";
                      text_element ns "AdrLine" "Main Street 1";
                      text_element ns "AdrLine" "Berlin"]]))
  /\ (let doc := Examples.dom_document "pain.001.001.02" in
      let ns := "urn:iso:std:iso:20022:tech:xsd:pain.001.001.02" in
      exists pmtInf,
        @SepaPaymentInfo.toXML Examples.node_host MoreExamples.debtor_block doc
        = JS.Ok pmtInf
        /\ child "Dbtr" pmtInf
           = Some (DOM.Element "Dbtr" ns [] None
                     [text_element ns "Nm" "Debtor"])).
Proof.
  cbv zeta. split.
  - assert (Hx : exists pmtInf,
              @SepaPaymentInfo.toXML Examples.node_host
                MoreExamples.creditor_block
                (Examples.dom_document "pain.008.001.02") = JS.Ok pmtInf).
    { eexists. vm_compute. reflexivity. }
    destruct Hx as [pmtInf Hx]. exists pmtInf. split; [exact Hx|].
    exact (@batch_party_address Examples.node_host _ _ pmtInf Hx).
  - assert (Hx : exists pmtInf,
              @SepaPaymentInfo.toXML Examples.node_host
                MoreExamples.debtor_block
                (Examples.dom_document "pain.001.001.02") = JS.Ok pmtInf).
    { eexists. vm_compute. reflexivity. }
    destruct Hx as [pmtInf Hx]. exists pmtInf. split; [exact Hx|].
    exact (@batch_party_address Examples.node_host _ _ pmtInf Hx).
Defined.

(** X25.  A serialized block gives its date without the time, as the
    first ten code units of the ISO string: [ReqdColltnDt] from
    [collectionDate] for direct debits, [ReqdExctnDt] from
    [requestedExecutionDate] for transfers. *)
Theorem batch_requested_date {host : JS.Host} (this : SepaPaymentInfo.t)
    (doc : DOM.document) (pmtInf : DOM.node)
    (H : SepaPaymentInfo.toXML this doc = JS.Ok pmtInf) :
  let ns := DOM.namespaceURI (DOM.documentElement doc) in
  match SepaPaymentInfo.method this with
  | SepaPaymentInfo.DirectDebit =>
      exists iso,
        JS.toISOString (SepaPaymentInfo.collectionDate this) = JS.Ok iso
        /\ child "ReqdColltnDt" pmtInf
           = Some (text_element ns "ReqdColltnDt"
                     (JS.VStr (String.substring 0 10 iso)))
        /\ child "ReqdExctnDt" pmtInf = None
  | SepaPaymentInfo.Transfer =>
      exists iso,
        JS.toISOString (SepaPaymentInfo.requestedExecutionDate this)
        = JS.Ok iso
        /\ child "ReqdExctnDt" pmtInf
           = Some (text_element ns "ReqdExctnDt"
                     (JS.VStr (String.substring 0 10 iso)))
        /\ child "ReqdColltnDt" pmtInf = None
  end.
Proof.
  intro ns.
  assert (Hnone : forall t,
            ~ In t (PmtInf_child_tags this) ->
            t <> "DrctDbtTxInf" -> t <> "CdtTrfTxInf" ->
            child t pmtInf = None).
  { intros t Ht H1 H2.
    apply SerializationFacts.PaymentInfo_toXML_child_tags in H as [_ Hc].
    unfold child. apply MoreSerializationFacts.find_tag_none.
    unfold child_tags in Hc. rewrite Hc. intro Hin.
    apply in_app_or in Hin as [Hin|Hin]; [exact (Ht Hin)|].
    apply in_map_iff in Hin as (pmt & E & _).
    destruct (SepaTransaction._type pmt); cbn in E; congruence. }
  pose proof (MoreSerializationFacts.PaymentInfo_toXML_result this doc pmtInf H)
    as (_ & _ & _ & _ & (iso & Hiso & Hdate) & _).
  unfold batch_date in Hiso.
  rewrite (JSFacts.substr_prefix iso 10 : JS.substr iso 0 (Some 10) = _)
    in Hdate.
  rewrite JSFacts.take_substring in Hdate.
  destruct (SepaPaymentInfo.method this) eqn:Em; exists iso;
    (split; [exact Hiso|]; split; [exact Hdate|]);
    (apply Hnone; [|discriminate|discriminate]);
    unfold PmtInf_child_tags; rewrite Em;
    destruct (JS.strict_eq _ _); cbn; intuition discriminate.
Qed.

(** X25, witness: a direct debit block collected on 2015-06-01. *)
Lemma batch_requested_date_witness :
  let doc := Examples.dom_document "pain.008.001.02" in
  let ns := "urn:iso:std:iso:20022:tech:xsd:pain.008.001.02" in
  exists pmtInf,
    @SepaPaymentInfo.toXML Examples.node_host MoreExamples.creditor_block doc
    = JS.Ok pmtInf
    /\ exists iso,
         JS.toISOString Examples.a_date = JS.Ok iso
         /\ child "ReqdColltnDt" pmtInf
            = Some (text_element ns "ReqdColltnDt"
                      (JS.VStr (String.substring 0 10 iso)))
         /\ child "ReqdExctnDt" pmtInf = None.
Proof.
  cbv zeta.
  assert (Hx : exists pmtInf,
            @SepaPaymentInfo.toXML Examples.node_host
              MoreExamples.creditor_block
              (Examples.dom_document "pain.008.001.02") = JS.Ok pmtInf).
  { eexists. vm_compute. reflexivity. }
  destruct Hx as [pmtInf Hx]. exists pmtInf. split; [exact Hx|].
  exact (@batch_requested_date Examples.node_host _ _ pmtInf Hx).
Defined.

(** X26.  The agent of a block and the agent of a transaction are
    identified by the BIC when the party has one, and by
    [Othr/Id = NOTPROVIDED] when its BIC is empty or missing. *)
Theorem agent_BIC_or_NOTPROVIDED {host : JS.Host}
    (pi : SepaPaymentInfo.t) (pmt : SepaTransaction.t) (doc : DOM.document)
    (pmtInf txInf : DOM.node)
    (Hpi : SepaPaymentInfo.toXML pi doc = JS.Ok pmtInf)
    (Hpmt : SepaTransaction.toXML pmt doc = JS.Ok txInf) :
  let ns := DOM.namespaceURI (DOM.documentElement doc) in
  let FinInstnId bic :=
    DOM.Element "FinInstnId" ns [] None
      (if JS.truthy bic
       then [text_element ns "BIC" bic]
       else [DOM.Element "Othr" ns [] None
               [text_element ns "Id" "NOTPROVIDED"]]) in
  (let debit :=
     match SepaPaymentInfo.method pi with
     | SepaPaymentInfo.DirectDebit => true
     | SepaPaymentInfo.Transfer => false
     end in
   let tag :=
     (if debit then "Cdtr" else "Dbtr")
     ++ (if JS.strict_eq (getPainXMLVersion (SepaPaymentInfo._painFormat pi))
              (JS.num 3)
         then "Agt" else "Agnt") in
   child tag pmtInf
   = Some (DOM.Element tag ns [] None
             [FinInstnId
                (SepaPaymentInfo.get pi
                   ((if debit then "creditor" else "debtor") ++ "BIC"))]))
  /\ (let transfer :=
        match SepaTransaction._type pmt with
        | SepaTransaction.Transfer => true
        | SepaTransaction.DirectDebit => false
        end in
      let tag := if transfer then "CdtrAgt" else "DbtrAgt" in
      child tag txInf
      = Some (DOM.Element tag ns [] None
                [FinInstnId
                   (SepaTransaction.get pmt
                      ((if transfer then "creditor" else "debtor")
                       ++ "BIC"))])).
Proof.
  cbv zeta. split.
  - apply MoreSerializationFacts.PaymentInfo_toXML_result in Hpi
      as (_ & _ & _ & Hagent & _).
    exact Hagent.
  - pose proof (MoreSerializationFacts.Transaction_toXML_facts pmt doc) as F.
    cbv zeta in F. rewrite Hpmt in F.
    destruct F as (_ & _ & Hagent & _). exact Hagent.
Qed.

(** X26, witness: a creditor with a BIC and a transfer to a creditor
    without one. *)
Lemma agent_BIC_or_NOTPROVIDED_witness :
  let doc := Examples.dom_document "pain.008.001.02" in
  let ns := "urn:iso:std:iso:20022:tech:xsd:pain.008.001.02" in
  exists pmtInf txInf,
    @SepaPaymentInfo.toXML Examples.node_host MoreExamples.creditor_block doc
    = JS.Ok pmtInf
    /\ @SepaTransaction.toXML Examples.node_host
         MoreExamples.salary_transfer doc
       = JS.Ok txInf
    /\ child "CdtrAgt" pmtInf
       = Some (DOM.Element "CdtrAgt" ns [] None
                 [DOM.Element "FinInstnId" ns [] None
                    [text_element ns "BIC" "COBADEFFXXX"]])
    /\ child "CdtrAgt" txInf
       = Some (DOM.Element "CdtrAgt" ns [] None
                 [DOM.Element "FinInstnId" ns [] None
                    [DOM.Element "Othr" ns [] None
                       [text_element ns "Id" "NOTPROVIDED"]]]).
Proof.
  cbv zeta.
  assert (Hx : exists pmtInf,
            @SepaPaymentInfo.toXML Examples.node_host
              MoreExamples.creditor_block
              (Examples.dom_document "pain.008.001.02") = JS.Ok pmtInf).
  { eexists. vm_compute. reflexivity. }
  assert (Hy : exists txInf,
            @SepaTransaction.toXML Examples.node_host
              MoreExamples.salary_transfer
              (Examples.dom_document "pain.008.001.02") = JS.Ok txInf).
  { eexists. vm_compute. reflexivity. }
  destruct Hx as [pmtInf Hx]. destruct Hy as [txInf Hy].
  exists pmtInf, txInf. split; [exact Hx|]. split; [exact Hy|].
  exact (@agent_BIC_or_NOTPROVIDED Examples.node_host _ _ _ _ _ Hx Hy).
Defined.

(** X27.  The children of a serialized transaction come in a fixed
    order: payment id, amount, (for a direct debit) the mandate, the
    agent, the party and the account of the other side, the remittance
    information and last the purpose.  [Purp], holding the purpose code
    under [Cd], is there exactly when the format is not of family 3 and
    the purpose code holds something (or is the number 0); an empty
    purpose code, like a missing one, leaves no element. *)
Theorem transaction_children_in_order {host : JS.Host}
    (this : SepaTransaction.t) (doc : DOM.document) (txInf : DOM.node)
    (H : SepaTransaction.toXML this doc = JS.Ok txInf) :
  let ns := DOM.namespaceURI (DOM.documentElement doc) in
  child_tags txInf = TxInf_child_tags this
  /\ child "Purp" txInf
     = (if negb (JS.strict_eq
                   (getPainXMLVersion (SepaTransaction._painFormat this))
                   (JS.num 3))
           && (JS.truthy (SepaTransaction.purposeCode this)
               || JS.is_zero (SepaTransaction.purposeCode this))
        then Some (DOM.Element "Purp" ns [] None
                     [text_element ns "Cd"
                        (SepaTransaction.purposeCode this)])
        else None).
Proof.
  pose proof (MoreSerializationFacts.Transaction_toXML_facts this doc) as F.
  cbv zeta in F. rewrite H in F.
  destruct F as (Htags & Hpurp & _). split; assumption.
Qed.

(** X27, witness: a transfer of family 2 with the purpose code SALA. *)
Lemma transaction_children_in_order_witness :
  let doc := Examples.dom_document "pain.001.001.02" in
  let ns := "urn:iso:std:iso:20022:tech:xsd:pain.001.001.02" in
  exists txInf,
    @SepaTransaction.toXML Examples.node_host MoreExamples.salary_transfer doc
    = JS.Ok txInf
    /\ child_tags txInf
       = ["PmtId"; "Amt"; "CdtrAgt"; "Cdtr"; "CdtrAcct"; "RmtInf"; "Purp"]
    /\ child "Purp" txInf
       = Some (DOM.Element "Purp" ns [] None [text_element ns "Cd" "SALA"]).
Proof.
  cbv zeta.
  assert (Hx : exists txInf,
            @SepaTransaction.toXML Examples.node_host
              MoreExamples.salary_transfer
              (Examples.dom_document "pain.001.001.02") = JS.Ok txInf).
  { eexists. vm_compute. reflexivity. }
  destruct Hx as [txInf Hx]. exists txInf. split; [exact Hx|].
  exact (@transaction_children_in_order Examples.node_host _ _ _ Hx).
Defined.

(** X28.  The amount of a serialized transaction is an [InstdAmt]
    element holding [amount.toFixed(2)] and carrying the currency in
    its attribute [Ccy]; a direct debit has it among its children, a
    transfer as the one child of [Amt]. *)
Theorem transaction_amount_with_currency {host : JS.Host}
    (this : SepaTransaction.t) (doc : DOM.document) (txInf : DOM.node)
    (H : SepaTransaction.toXML this doc = JS.Ok txInf) :
  let ns := DOM.namespaceURI (DOM.documentElement doc) in
  match SepaTransaction._type this with
  | SepaTransaction.Transfer =>
      match child "Amt" txInf with
      | Some amt => DOM.childNodes amt
      | None => []
      end
  | SepaTransaction.DirectDebit =>
      match child "InstdAmt" txInf with
      | Some instdAmt => [instdAmt]
      | None => []
      end
  end
  = [DOM.Element "InstdAmt" ns
       [ {| DOM.attr_namespaceURI := None;
            DOM.attr_name := "Ccy";
            DOM.attr_value := SepaTransaction.currency this |} ]
       (Some (JS.VStr (JS.toFixed (SepaTransaction.amount this) 2))) []].
Proof.
  pose proof (MoreSerializationFacts.Transaction_toXML_facts this doc) as F.
  cbv zeta in F. rewrite H in F.
  destruct F as (_ & _ & _ & Hamt & _).
  destruct (SepaTransaction._type this); exact Hamt.
Qed.

(** X28, witness: 1234.5 euros are written 1234.50. *)
Lemma transaction_amount_with_currency_witness :
  let doc := Examples.dom_document "pain.001.001.02" in
  let ns := "urn:iso:std:iso:20022:tech:xsd:pain.001.001.02" in
  exists txInf,
    @SepaTransaction.toXML Examples.node_host MoreExamples.salary_transfer doc
    = JS.Ok txInf
    /\ match child "Amt" txInf with
       | Some amt => DOM.childNodes amt
       | None => []
       end
       = [DOM.Element "InstdAmt" ns
            [ {| DOM.attr_namespaceURI := None;
                 DOM.attr_name := "Ccy";
                 DOM.attr_value := "EUR" |} ]
            (Some (JS.VStr "1234.50")) []].
Proof.
  cbv zeta.
  assert (Hx : exists txInf,
            @SepaTransaction.toXML Examples.node_host
              MoreExamples.salary_transfer
              (Examples.dom_document "pain.001.001.02") = JS.Ok txInf).
  { eexists. vm_compute. reflexivity. }
  destruct Hx as [txInf Hx]. exists txInf. split; [exact Hx|].
  exact (@transaction_amount_with_currency Examples.node_host _ _ _ Hx).
Defined.

(** X29.  A serialized direct debit carries its mandate under
    [DrctDbtTx/MndtRltdInf]: the mandate id, the date of signature
    without the time (the first ten code units of the ISO string) and
    the amendment indicator, which is [true], followed by the details,
    when the transaction has a property [ammendment] that holds
    something, and [false] otherwise.  A transfer has no such
    element. *)
Theorem direct_debit_mandate {host : JS.Host} (this : SepaTransaction.t)
    (doc : DOM.document) (txInf : DOM.node)
    (H : SepaTransaction.toXML this doc = JS.Ok txInf) :
  let ns := DOM.namespaceURI (DOM.documentElement doc) in
  match SepaTransaction._type this with
  | SepaTransaction.DirectDebit =>
      exists iso,
        JS.toISOString (SepaTransaction.mandateSignatureDate this) = JS.Ok iso
        /\ child "DrctDbtTx" txInf
           = Some (DOM.Element "DrctDbtTx" ns [] None
                     [DOM.Element "MndtRltdInf" ns [] None
                        (text_element ns "MndtId"
                           (SepaTransaction.mandateId this)
                         :: text_element ns "DtOfSgntr"
                              (JS.VStr (String.substring 0 10 iso))
                         :: if JS.truthy (SepaTransaction.ammendment this)
                            then [text_element ns "AmdmntInd" "true";
                                  text_element ns "AmdmnInfDtls"
                                    (SepaTransaction.ammendment this)]
                            else [text_element ns "AmdmntInd" "false"])])
  | SepaTransaction.Transfer => child "DrctDbtTx" txInf = None
  end.
Proof.
  intro ns.
  pose proof (MoreSerializationFacts.Transaction_toXML_facts this doc) as F.
  cbv zeta in F. rewrite H in F.
  destruct F as (_ & _ & _ & _ & Hm & _).
  pose proof (MoreSerializationFacts.Transaction_toXML_dates _ _ _ H) as Hd.
  unfold transaction_dates_present in Hd.
  destruct (SepaTransaction._type this); [|exact Hm].
  destruct (SerializationFacts.date_present_toISOString _ Hd) as [iso E].
  rewrite E in Hm. exists iso. split; [exact E|].
  rewrite (JSFacts.substr_prefix iso 10 : JS.substr iso 0 (Some 10) = _) in Hm.
  rewrite JSFacts.take_substring in Hm. exact Hm.
Qed.

(** X29, witness: a direct debit under a mandate signed on
    2015-06-01. *)
Lemma direct_debit_mandate_witness :
  let doc := Examples.dom_document "pain.008.001.02" in
  let ns := "urn:iso:std:iso:20022:tech:xsd:pain.008.001.02" in
  exists txInf iso,
    @SepaTransaction.toXML Examples.node_host MoreExamples.a_direct_debit doc
    = JS.Ok txInf
    /\ JS.toISOString Examples.a_date = JS.Ok iso
    /\ child "DrctDbtTx" txInf
       = Some (DOM.Element "DrctDbtTx" ns [] None
                 [DOM.Element "MndtRltdInf" ns [] None
                    [text_element ns "MndtId" "MANDATE-1";
                     text_element ns "DtOfSgntr"
                       (JS.VStr (String.substring 0 10 iso));
                     text_element ns "AmdmntInd" "false"]]).
Proof.
  cbv zeta.
  assert (Hx : exists txInf,
            @SepaTransaction.toXML Examples.node_host
              MoreExamples.a_direct_debit
              (Examples.dom_document "pain.008.001.02") = JS.Ok txInf).
  { eexists. vm_compute. reflexivity. }
  destruct Hx as [txInf Hx].
  destruct (@direct_debit_mandate Examples.node_host _ _ txInf Hx)
    as (iso & Hiso & Hm).
  exists txInf, iso. split; [exact Hx|]. split; [exact Hiso | exact Hm].
Defined.
